(** * The coding-agent flow: orchestration engine and patch subsystem

    A shallow embedding of [flow.py] (with the parts of [main.py] and
    [utils/call_llm.py] it relies on) and the properties of its
    decision loop, decision parser, patch planner and patch applier. *)

From Stdlib Require Import String Ascii List ZArith Lia Bool Arith.
From Stdlib Require Import Sorting.Permutation Sorting.Sorted.
From Stdlib Require Import Numbers.DecimalString Floats.SpecFloat.
Import ListNotations.

Open Scope list_scope.
Open Scope string_scope.

(** ** Python strings

    A [str] is modelled as a [string]; a character is a code point below
    256.  The operations below follow Python's [str] methods used by the
    flow: [in], [split] with a non-empty separator, [strip] and
    [replace]. *)

Module Str.

(** The double-quote character. *)
Definition dq : string := String (ascii_of_nat 34) "".

(** The line feed and carriage return. *)
Definition nl : string := String (ascii_of_nat 10) "".
Definition cr : string := String (ascii_of_nat 13) "".

(** [str.isspace] on one character (code points below 256): TAB..CR,
    FS..US, SPACE, NEL and NBSP. *)
Definition isspace (c : ascii) : bool :=
  let n := nat_of_ascii c in
  (((9 <=? n) && (n <=? 13)) || ((28 <=? n) && (n <=? 32))
   || (n =? 133) || (n =? 160))%nat.

(** [sub in s]. *)
Fixpoint contains (sub s : string) : bool :=
  prefix sub s ||
  match s with
  | "" => false
  | String _ s' => contains sub s'
  end.

(** [s.split(sep)] for a non-empty [sep]: scanning from the left, each
    occurrence of [sep] closes the current piece and the scan resumes
    after it.  [skip] counts the characters of a matched separator
    still to pass over.  The result is the piece under construction
    and the pieces after it. *)
Fixpoint split_from (sep : string) (skip : nat) (s : string)
  : string * list string :=
  match s with
  | "" => ("", [])
  | String c s' =>
      match skip with
      | S k => split_from sep k s'
      | O =>
          if prefix sep s
          then ("", let (h, t) := split_from sep (String.length sep - 1) s' in h :: t)
          else let (h, t) := split_from sep 0 s' in (String c h, t)
      end
  end.

Definition split (sep s : string) : list string :=
  let (h, t) := split_from sep 0 s in h :: t.

(** [s.replace(old, new)] for a non-empty [old]. *)
Fixpoint replace_from (old new : string) (skip : nat) (s : string) : string :=
  match s with
  | "" => ""
  | String c s' =>
      match skip with
      | S k => replace_from old new k s'
      | O =>
          if prefix old s
          then new ++ replace_from old new (String.length old - 1) s'
          else String c (replace_from old new 0 s')
      end
  end.

Definition replace (old new s : string) : string := replace_from old new 0 s.

Fixpoint lstrip (s : string) : string :=
  match s with
  | "" => ""
  | String c s' => if isspace c then lstrip s' else s
  end.

Fixpoint rstrip (s : string) : string :=
  match s with
  | "" => ""
  | String c s' =>
      match rstrip s' with
      | "" => if isspace c then "" else String c ""
      | r => String c r
      end
  end.

(** [s.strip()]. *)
Definition strip (s : string) : string := rstrip (lstrip s).

Definition is_empty (s : string) : bool :=
  match s with "" => true | _ => false end.

Definition startswith (p s : string) : bool := prefix p s.

Fixpoint endswith_char (c : ascii) (s : string) : bool :=
  match s with
  | "" => false
  | String a "" => Ascii.eqb a c
  | String _ s' => endswith_char c s'
  end.

(** [str(n)] for an [int]. *)
Definition of_Z (z : Z) : string := NilZero.string_of_int (Z.to_int z).

(** [''.join(l)]. *)
Definition concat (l : list string) : string :=
  fold_right append "" l.

End Str.

(** ** Python values

    The values [yaml.safe_load] produces and the flow stores in its
    shared dictionary.  A [dict] is an association list in insertion
    order with string keys. *)

#[local] Set Warnings "-register-all".

Inductive PyVal : Type :=
| PyNone
| PyBool (b : bool)
| PyInt (z : Z)
| PyFloat (f : spec_float)
| PyStr (s : string)
| PyList (l : list PyVal)
| PyDict (d : list (string * PyVal)).

Definition Dict : Type := list (string * PyVal).

(** Exceptions, with the text [str(e)] gives. *)
Inductive PyExc : Type :=
| ValueError (msg : string)
| KeyError (key : string)
| TypeError (msg : string)
| AttributeError (msg : string)
| YAMLError (msg : string)
| RequestException (msg : string).

Module Py.

Definition exc_str (e : PyExc) : string :=
  match e with
  | ValueError m | TypeError m | AttributeError m
  | YAMLError m | RequestException m => m
  | KeyError k => "'" ++ k ++ "'"
  end.

(** Truth value testing ([if v], [not v]). *)
Definition truthy (v : PyVal) : bool :=
  match v with
  | PyNone => false
  | PyBool b => b
  | PyInt z => negb (Z.eqb z 0)
  | PyFloat (S754_zero _) => false
  | PyFloat _ => true
  | PyStr s => negb (Str.is_empty s)
  | PyList l => match l with [] => false | _ => true end
  | PyDict d => match d with [] => false | _ => true end
  end.

Definition type_name (v : PyVal) : string :=
  match v with
  | PyNone => "NoneType"
  | PyBool _ => "bool"
  | PyInt _ => "int"
  | PyFloat _ => "float"
  | PyStr _ => "str"
  | PyList _ => "list"
  | PyDict _ => "dict"
  end.

(** [isinstance(v, int)]: [bool] is a subclass of [int]. *)
Definition isinstance_int (v : PyVal) : bool :=
  match v with PyInt _ | PyBool _ => true | _ => false end.

Definition isinstance_str (v : PyVal) : bool :=
  match v with PyStr _ => true | _ => false end.

Definition isinstance_dict (v : PyVal) : bool :=
  match v with PyDict _ => true | _ => false end.

(** The integer an [int] instance stands for ([True] is 1). *)
Definition int_value (v : PyVal) : Z :=
  match v with
  | PyInt z => z
  | PyBool true => 1
  | _ => 0
  end.

(** ** Dictionaries *)

Fixpoint dict_get (k : string) (d : Dict) : option PyVal :=
  match d with
  | [] => None
  | (k', v) :: d' => if String.eqb k k' then Some v else dict_get k d'
  end.

Definition dict_has (k : string) (d : Dict) : bool :=
  match dict_get k d with Some _ => true | None => false end.

(** [d[k] = v]: an existing key keeps its position. *)
Fixpoint dict_set (k : string) (v : PyVal) (d : Dict) : Dict :=
  match d with
  | [] => [(k, v)]
  | (k', v') :: d' =>
      if String.eqb k k' then (k, v) :: d' else (k', v') :: dict_set k v d'
  end.

(** [d.get(k, default)]. *)
Definition dict_get_default (k : string) (default : PyVal) (d : Dict) : PyVal :=
  match dict_get k d with Some v => v | None => default end.

End Py.

(** ** Computations that may raise *)

Definition Result (A : Type) : Type := (PyExc + A)%type.

Definition ok {A : Type} (a : A) : Result A := inr a.
Definition raise {A : Type} (e : PyExc) : Result A := inl e.

Definition rbind {A B : Type} (m : Result A) (k : A -> Result B) : Result B :=
  match m with
  | inl e => inl e
  | inr a => k a
  end.

Declare Scope result_scope.
Delimit Scope result_scope with result.
Notation "'let?' x ':=' m 'in' k" := (rbind m (fun x => k))
  (at level 10, x pattern, m at level 100, k at level 200) : result_scope.

Open Scope result_scope.

(** [[f(i, x) for i, x in enumerate(l, start)]], stopping at the first
    exception. *)
Fixpoint mapi_result {A B : Type} (f : Z -> A -> Result B) (start : Z)
  (l : list A) : Result (list B) :=
  match l with
  | [] => ok []
  | x :: l' =>
      let? y := f start x in
      let? ys := mapi_result f (start + 1)%Z l' in
      ok (y :: ys)
  end.

Module PyOps.
Import Py.

(** [v[k]] for a string key [k]. *)
Definition subscript (v : PyVal) (k : string) : Result PyVal :=
  match v with
  | PyDict d =>
      match dict_get k d with
      | Some x => ok x
      | None => raise (KeyError k)
      end
  | PyStr _ => raise (TypeError "string indices must be integers, not 'str'")
  | PyList _ =>
      raise (TypeError "list indices must be integers or slices, not str")
  | _ => raise (TypeError ("'" ++ type_name v ++ "' object is not subscriptable"))
  end.

(** [v.get(k, default)]. *)
Definition get (v : PyVal) (k : string) (default : PyVal) : Result PyVal :=
  match v with
  | PyDict d => ok (dict_get_default k default d)
  | _ => raise (AttributeError
                  ("'" ++ type_name v ++ "' object has no attribute 'get'"))
  end.

Definition is_str (k : string) (v : PyVal) : bool :=
  match v with PyStr s => String.eqb s k | _ => false end.

(** [k in v] for a string [k]: key membership in a dict, substring test
    in a str, element test in a list. *)
Definition contains (k : string) (v : PyVal) : Result bool :=
  match v with
  | PyDict d => ok (dict_has k d)
  | PyStr s => ok (Str.contains k s)
  | PyList l => ok (existsb (is_str k) l)
  | _ => raise (TypeError
                  ("argument of type '" ++ type_name v ++ "' is not iterable"))
  end.

(** [v[k] = x]. *)
Definition set_item (v : PyVal) (k : string) (x : PyVal) : Result PyVal :=
  match v with
  | PyDict d => ok (PyDict (dict_set k x d))
  | _ => raise (TypeError ("'" ++ type_name v
                           ++ "' object does not support item assignment"))
  end.

(** [posixpath.join(a, b)]. *)
Definition os_path_join (a b : string) : string :=
  if Str.startswith "/" b then b
  else if Str.is_empty a || Str.endswith_char "/" a then a ++ b
  else a ++ "/" ++ b.

(** [os.path.join(working_dir, p) if working_dir else p]. *)
Definition full_path (working_dir : string) (p : PyVal) : Result PyVal :=
  if Str.is_empty working_dir then ok p
  else match p with
       | PyStr s => ok (PyStr (os_path_join working_dir s))
       | _ => raise (TypeError
                       ("join() argument must be str, bytes, or os.PathLike object, not '"
                        ++ type_name p ++ "'"))
       end.

End PyOps.

(** ** External collaborators

    The generation backend, the YAML loader, the file primitives of
    [utils/] and the [os]/[shutil] calls act on a world the flow does
    not see inside.  The primitives take the values the handlers pass
    and return what their callers unpack. *)

Class Externals : Type := {
  World : Type;
  (** [llm_client.generate(prompt)] *)
  generate : string -> World -> Result string * World;
  (** [yaml.safe_load(text)] *)
  yaml_safe_load : string -> Result PyVal;
  (** [str(v)] for floats, lists and dicts *)
  str_compound : PyVal -> string;
  (** [read_file(path)] returns [(content, success)] *)
  read_file : PyVal -> World -> (string * bool) * World;
  (** [grep_search(query, case_sensitive, include_pattern,
      exclude_pattern, working_dir)] returns [(success, matches)] *)
  grep_search :
    PyVal -> PyVal -> PyVal -> PyVal -> string -> World ->
    (bool * list PyVal) * World;
  (** [list_dir(path)] returns [(success, tree_str)] *)
  list_dir : PyVal -> World -> (bool * string) * World;
  (** [insert_file(path, content)] returns [(success, message)] *)
  insert_file : PyVal -> PyVal -> World -> (bool * string) * World;
  (** [delete_file(path)] returns [(success, message)] *)
  delete_file : PyVal -> World -> (bool * string) * World;
  (** [replace_file(target_file, start_line, end_line, content)] returns
      [(success, message)] *)
  replace_file :
    PyVal -> PyVal -> PyVal -> PyVal -> World -> (bool * string) * World;
  (** [os.makedirs(path, exist_ok=True)] *)
  os_makedirs : PyVal -> World -> Result unit * World;
  (** [os.path.exists(path)], [os.path.isdir(path)] *)
  os_path_exists : PyVal -> World -> Result bool;
  os_path_isdir : PyVal -> World -> Result bool;
  (** [shutil.rmtree(path)] *)
  shutil_rmtree : PyVal -> World -> Result unit * World
}.

(** The calls made to the collaborators, in order (ghost state). *)
Inductive Event : Type :=
| CallLLM (prompt : string)
| CallReadFile (path : PyVal)
| CallGrepSearch (query case_sensitive include_pattern exclude_pattern : PyVal)
                 (working_dir : string)
| CallListDir (path : PyVal)
| CallInsertFile (path content : PyVal)
| CallDeleteFile (path : PyVal)
| CallReplaceFile (target_file start_line end_line content : PyVal)
| CallMakedirs (path : PyVal)
| CallRmtree (path : PyVal).

Definition is_llm_call (e : Event) : bool :=
  match e with CallLLM _ => true | _ => false end.

(** ** Session state

    The [shared] dictionary.  [shared.get(key, default)] is the only way
    the flow reads [user_query], [working_dir] and [history], so for
    these an absent key and the default are one; the keys the flow pops
    are optional. *)

Record Shared : Type := {
  user_query : string;
  working_dir : string;
  history : list PyVal;
  response : option string;
  iteration_count : option Z;
  max_iterations : option Z;
  edit_reasoning : option PyVal;
  edit_operations : option PyVal
}.

Definition set_history (h : list PyVal) (sh : Shared) : Shared :=
  {| user_query := sh.(user_query); working_dir := sh.(working_dir);
     history := h; response := sh.(response);
     iteration_count := sh.(iteration_count);
     max_iterations := sh.(max_iterations);
     edit_reasoning := sh.(edit_reasoning);
     edit_operations := sh.(edit_operations) |}.

Definition set_response (r : option string) (sh : Shared) : Shared :=
  {| user_query := sh.(user_query); working_dir := sh.(working_dir);
     history := sh.(history); response := r;
     iteration_count := sh.(iteration_count);
     max_iterations := sh.(max_iterations);
     edit_reasoning := sh.(edit_reasoning);
     edit_operations := sh.(edit_operations) |}.

Definition set_iteration_count (n : option Z) (sh : Shared) : Shared :=
  {| user_query := sh.(user_query); working_dir := sh.(working_dir);
     history := sh.(history); response := sh.(response);
     iteration_count := n;
     max_iterations := sh.(max_iterations);
     edit_reasoning := sh.(edit_reasoning);
     edit_operations := sh.(edit_operations) |}.

Definition set_max_iterations (n : option Z) (sh : Shared) : Shared :=
  {| user_query := sh.(user_query); working_dir := sh.(working_dir);
     history := sh.(history); response := sh.(response);
     iteration_count := sh.(iteration_count);
     max_iterations := n;
     edit_reasoning := sh.(edit_reasoning);
     edit_operations := sh.(edit_operations) |}.

Definition set_edit_reasoning (r : option PyVal) (sh : Shared) : Shared :=
  {| user_query := sh.(user_query); working_dir := sh.(working_dir);
     history := sh.(history); response := sh.(response);
     iteration_count := sh.(iteration_count);
     max_iterations := sh.(max_iterations);
     edit_reasoning := r;
     edit_operations := sh.(edit_operations) |}.

Definition set_edit_operations (o : option PyVal) (sh : Shared) : Shared :=
  {| user_query := sh.(user_query); working_dir := sh.(working_dir);
     history := sh.(history); response := sh.(response);
     iteration_count := sh.(iteration_count);
     max_iterations := sh.(max_iterations);
     edit_reasoning := sh.(edit_reasoning);
     edit_operations := o |}.

(** ** The flow's state and its computations *)

Record State {E : Externals} : Type := {
  shared : Shared;
  world : World;
  calls : list Event
}.

Inductive Outcome {E : Externals} (A : Type) : Type :=
| Returns (a : A) (s : State)
| Raises (e : PyExc) (s : State).

Arguments Returns {E A} a s.
Arguments Raises {E A} e s.

Definition Run {E : Externals} (A : Type) : Type := State -> Outcome A.

Definition ret {E : Externals} {A : Type} (a : A) : Run A :=
  fun s => Returns a s.

Definition bind {E : Externals} {A B : Type} (m : Run A) (k : A -> Run B)
  : Run B :=
  fun s =>
    match m s with
    | Returns a s' => k a s'
    | Raises e s' => Raises e s'
    end.

Definition throw {E : Externals} {A : Type} (e : PyExc) : Run A :=
  fun s => Raises e s.

Definition lift {E : Externals} {A : Type} (r : Result A) : Run A :=
  match r with
  | inr a => ret a
  | inl e => throw e
  end.

Declare Scope run_scope.
Delimit Scope run_scope with run.
Notation "x <- m ;; k" := (bind m (fun x => k))
  (at level 61, m at next level, right associativity) : run_scope.
Notation "m ;; k" := (bind m (fun _ => k))
  (at level 61, right associativity) : run_scope.

Definition get_shared {E : Externals} : Run Shared :=
  fun s => Returns s.(shared) s.

(** The state with another shared dictionary. *)
Definition with_shared {E : Externals} (sh : Shared) (s : State) : State :=
  {| shared := sh; world := s.(world); calls := s.(calls) |}.

(** The state after a call [ev] that left the world [w]. *)
Definition after_call {E : Externals} (ev : Event) (w : World) (s : State)
  : State :=
  {| shared := s.(shared); world := w; calls := (s.(calls) ++ [ev])%list |}.

Definition modify_shared {E : Externals} (f : Shared -> Shared) : Run unit :=
  fun s => Returns tt (with_shared (f s.(shared)) s).

(** A call to a collaborator that returns: the world moves on and the
    call is logged. *)
Definition external {E : Externals} {A : Type} (ev : Event)
  (f : World -> A * World) : Run A :=
  fun s =>
    let (a, w) := f s.(world) in
    Returns a (after_call ev w s).

(** A query on the world. *)
Definition observe {E : Externals} {A : Type} (f : World -> A) : Run A :=
  fun s => Returns (f s.(world)) s.

(** [try: body except Exception as e: handler(e)]. *)
Definition try_except {E : Externals} {A : Type} (body : Run A)
  (handler : PyExc -> Run A) : Run A :=
  fun s =>
    match body s with
    | Returns a s' => Returns a s'
    | Raises e s' => handler e s'
    end.

(** ** [utils/call_llm.py]

    [call_llm(prompt)] with [use_cache=False], as every caller has it:
    the prompt goes to the client and the text, or the exception, comes
    back. *)
Definition call_llm {E : Externals} (prompt : string) : Run string :=
  (r <- external (CallLLM prompt) (generate prompt) ;; lift r)%run.

(** [str(v)], as the f-strings apply it. *)
Definition py_str {E : Externals} (v : PyVal) : string :=
  match v with
  | PyNone => "None"
  | PyBool true => "True"
  | PyBool false => "False"
  | PyInt z => Str.of_Z z
  | PyStr s => s
  | _ => str_compound v
  end.

(** ** Prompts

    The three f-strings of [flow.py], with their holes as arguments. *)

Module Prompts.

(** [MainDecisionAgent.exec]: the tool selection prompt. *)
Definition decision (user_query history_str : string) : string :=
  "You are a coding assistant that helps modify and navigate code. You have full access to codebase. Given the following request, 
decide which tool to use from the available options.

User request: "
  ++ user_query
  ++ "

Here are the actions you performed:
"
  ++ history_str
  ++ "

Available tools:
1. read_file: Read content from a file
   - Parameters: target_file (path)
   - Example:
     tool: read_file
     reason: I need to read the main.py file to understand its structure
     params:
       target_file: main.py

2. edit_file: Make changes to a file
   - Parameters: target_file (path), instructions, code_edit
   - Code_edit_instructions:
       - The code changes with context, following these rules:
       - Use "
  ++ Str.dq
  ++ "// ... existing code ..."
  ++ Str.dq
  ++ " to represent unchanged code between edits
       - Include sufficient context around the changes to resolve ambiguity
       - Minimize repeating unchanged code
       - Never omit code without using the "
  ++ Str.dq
  ++ "// ... existing code ..."
  ++ Str.dq
  ++ " marker
       - No need to specify line numbers - the context helps locate the changes
   - Example:
     tool: edit_file
     reason: I need to add error handling to the file reading function
     params:
       target_file: utils/read_file.py
       instructions: Add try-except block around the file reading operation
       code_edit: |
            // ... existing file reading code ...
            function newEdit() {
                // new code here
            }
            // ... existing file reading code ...

3. delete_file: Remove a file
   - Parameters: target_file (path)
   - Example:
     tool: delete_file
     reason: The temporary file is no longer needed
     params:
       target_file: temp.txt
       
4. insert_file: Create a new file
   - Parameters: 
     - target_file (path)
     - content (string, required) - The content to write to the file
   - Example:
     tool: insert_file
     reason: Create a new file with initial content
     params:
       target_file: new_file.txt
       content: |
         This is the content
         of the new file
         with multiple lines
         using YAML pipe operator (|)

5. grep_search: Search for patterns in files
   - Parameters: query, case_sensitive (optional), include_pattern (optional), exclude_pattern (optional)
   - Example:
     tool: grep_search
     reason: I need to find all occurrences of 'logger' in Python files
     params:
       query: logger
       include_pattern: "
  ++ Str.dq
  ++ "*.py"
  ++ Str.dq
  ++ "
       case_sensitive: false

6. list_dir: List contents of a directory
   - Parameters: relative_workspace_path
   - Example:
     tool: list_dir
     reason: I need to see all files in the utils directory
     params:
       relative_workspace_path: utils
   - Result: Returns a tree visualization of the directory structure

7. create_directory: Create a new directory
   - Parameters: target_dir (path)
   - Example:
     tool: create_directory
     reason: I need to create a directory for storing configuration files
     params:
       target_dir: config

8. delete_directory: Remove a directory and all its contents
   - Parameters: target_dir (path)
   - Example:
     tool: delete_directory
     reason: I need to remove the temporary build directory and all its contents
     params:
       target_dir: build

9. finish: End the process and provide final response
   - No parameters required
   - Example:
     tool: finish
     reason: I have completed the requested task of finding all logger instances
     params: {}

Return a YAML object with the following structure:
```yaml
tool: <tool_name>
reason: <explanation of why this tool was chosen>
params:
  <tool specific parameters>
```

Choose the most appropriate tool based on the user's request and previous actions.
".

(** [AnalyzeAndPlanNode.exec]: the edit analysis prompt. *)
Definition plan (total_lines : Z) (file_content instructions code_edit : string)
    : string :=
  "
You are a code editing assistant. Your task is to analyze code changes and convert them into specific edit operations.

IMPORTANT: You MUST return a YAML object with EXACTLY this structure:
```yaml
reasoning: |
  Your detailed explanation of how you interpreted the edit pattern
  and why you chose specific line numbers for the changes.

operations:
  - start_line: <number>  # REQUIRED: 1-indexed line number where edit starts
    end_line: <number>    # REQUIRED: 1-indexed line number where edit ends
    replacement: |        # REQUIRED: The new code to insert
      <new code here>
```

RULES:
1. The YAML structure MUST include both "
  ++ Str.dq
  ++ "reasoning"
  ++ Str.dq
  ++ " and "
  ++ Str.dq
  ++ "operations"
  ++ Str.dq
  ++ " fields
2. Each operation MUST have start_line, end_line, and replacement
3. Line numbers are 1-indexed and inclusive
4. For appending content, use total_lines + 1 as both start_line and end_line
5. Do not include "
  ++ Str.dq
  ++ "// ... existing code ..."
  ++ Str.dq
  ++ " in replacements
6. Validate that all line numbers are within file bounds (1 to "
  ++ Str.of_Z total_lines
  ++ ")

FILE CONTENT:
"
  ++ file_content
  ++ "

EDIT INSTRUCTIONS: 
"
  ++ instructions
  ++ "

CODE EDIT PATTERN:
"
  ++ code_edit
  ++ "

Now, analyze the file content and edit pattern to determine the exact line numbers and replacement text.
Return ONLY the YAML object with your analysis and operations.
".

(** [FormatResponseNode.exec]: the final response prompt. *)
Definition summary (actions_summary : string) : string :=
  "
You are a coding assistant. You have just performed a series of actions based on the 
user's request. Summarize what you did in a clear, helpful response.

Here are the actions you performed:
"
  ++ actions_summary
  ++ "

Generate a comprehensive yet concise response that explains:
1. What actions were taken
2. What was found or modified
3. Any next steps the user might want to take

IMPORTANT: 
- Focus on the outcomes and results, not the specific tools used
- Write as if you are directly speaking to the user
- When providing code examples or structured information, use YAML format enclosed in triple backticks
".

End Prompts.

(** ** [format_history_summary] *)

Module History.
Import Py.

(** The [- Parameters:] block: [for k, v in params.items()]. *)
Definition render_params {E : Externals} (params : PyVal) : Result string :=
  if truthy params then
    match params with
    | PyDict d =>
        ok ("- Parameters:" ++ Str.nl
            ++ Str.concat
                 (map (fun kv => "  - " ++ fst kv ++ ": " ++ py_str (snd kv)
                                 ++ Str.nl) d))
    | _ => raise (AttributeError
                    ("'" ++ type_name params ++ "' object has no attribute 'items'"))
    end
  else ok "".

(** One line of the match listing. *)
Definition render_match {E : Externals} (j : Z) (m : PyVal) : Result string :=
  let? file := PyOps.get m "file" PyNone in
  let? line := PyOps.get m "line" PyNone in
  let? content := PyOps.get m "content" PyNone in
  ok ("  " ++ Str.of_Z (j + 1) ++ ". " ++ py_str file ++ ":" ++ py_str line
      ++ ": " ++ py_str content ++ Str.nl).

(** The [grep_search] branch: [len(matches)], then one line per match. *)
Definition render_matches {E : Externals} (matches : PyVal) : Result string :=
  match matches with
  | PyList l =>
      let? lines := mapi_result render_match 0 l in
      ok ("- Matches: " ++ Str.of_Z (Z.of_nat (List.length l)) ++ Str.nl
          ++ Str.concat lines)
  | PyStr "" | PyDict [] => ok ("- Matches: 0" ++ Str.nl)
  | PyStr _ | PyDict _ =>
      raise (AttributeError "'str' object has no attribute 'get'")
  | _ => raise (TypeError
                  ("object of type '" ++ type_name matches ++ "' has no len()"))
  end.

(** The [list_dir] branch. *)
Definition render_tree (tree_visualization : PyVal) : string :=
  "- Directory structure:" ++ Str.nl ++
  match tree_visualization with
  | PyStr (String _ _ as t) =>
      let clean_tree := Str.strip (Str.replace (Str.cr ++ Str.nl) Str.nl t) in
      if Str.is_empty clean_tree then "  (No tree structure data)" ++ Str.nl
      else Str.concat
             (map (fun line =>
                     if Str.is_empty (Str.strip line) then ""
                     else "  " ++ line ++ Str.nl)
                (Str.split Str.nl clean_tree))
  | _ => "  (Empty or inaccessible directory)" ++ Str.nl
  end.

(** The [- Result:] block of one action. *)
Definition render_result {E : Externals} (tool result : PyVal) : Result string :=
  if truthy result then
    match result with
    | PyDict r =>
        let success := dict_get_default "success" (PyBool false) r in
        let head := "- Result: " ++ (if truthy success then "Success" else "Failed")
                    ++ Str.nl in
        if PyOps.is_str "read_file" tool && truthy success then
          ok (head ++ "- Content: " ++ py_str (dict_get_default "content" (PyStr "") r)
              ++ Str.nl)
        else if PyOps.is_str "grep_search" tool && truthy success then
          let? m := render_matches (dict_get_default "matches" (PyList []) r) in
          ok (head ++ m)
        else if PyOps.is_str "edit_file" tool && truthy success then
          let operations := dict_get_default "operations" (PyInt 0) r in
          let reasoning := dict_get_default "reasoning" (PyStr "") r in
          ok (head ++ "- Operations: " ++ py_str operations ++ Str.nl
              ++ (if truthy reasoning
                  then "- Reasoning: " ++ py_str reasoning ++ Str.nl else ""))
        else if PyOps.is_str "list_dir" tool && truthy success then
          ok (head ++ render_tree (dict_get_default "tree_visualization" (PyStr "") r))
        else ok head
    | _ => ok ("- Result: " ++ py_str result ++ Str.nl)
    end
  else ok "".

(** The body of the loop for the action at index [i] of [n]. *)
Definition render_action {E : Externals} (n : Z) (i : Z) (action : PyVal)
  : Result string :=
  let? tool := PyOps.subscript action "tool" in
  let? reason := PyOps.subscript action "reason" in
  let? params := PyOps.get action "params" (PyDict []) in
  let? params_str := render_params params in
  let? result := PyOps.get action "result" PyNone in
  let? result_str := render_result tool result in
  ok ("Action " ++ Str.of_Z (i + 1) ++ ":" ++ Str.nl
      ++ "- Tool: " ++ py_str tool ++ Str.nl
      ++ "- Reason: " ++ py_str reason ++ Str.nl
      ++ params_str ++ result_str
      ++ (if (i <? n - 1)%Z then Str.nl else "")).

Definition format_history_summary {E : Externals} (history : list PyVal)
  : Result string :=
  match history with
  | [] => ok "No previous actions."
  | _ =>
      let? entries :=
        mapi_result (render_action (Z.of_nat (List.length history))) 0 history in
      ok (Str.nl ++ Str.concat entries)
  end.

End History.

(** ** Steps the handlers share *)

Open Scope run_scope.

(** [history = shared.get("history", [])], then [raise
    ValueError("No history found")] on an empty one, else
    [history[-1]]. *)
Definition last_action {E : Externals} : Run PyVal :=
  sh <- get_shared ;;
  match rev sh.(history) with
  | [] => throw (ValueError "No history found")
  | a :: _ => ret a
  end.

(** [history = shared.get("history", [])], then
    [if history: history[-1][key] = value]. *)
Definition set_last_item {E : Externals} (key : string) (value : PyVal)
  : Run unit :=
  sh <- get_shared ;;
  match rev sh.(history) with
  | [] => ret tt
  | a :: before =>
      a' <- lift (PyOps.set_item a key value) ;;
      modify_shared (set_history (rev before ++ [a'])%list)
  end.

(** [last_action["params"].get(key, default)]. *)
Definition param_get (action : PyVal) (key : string) (default : PyVal)
  : Result PyVal :=
  let? params := PyOps.subscript action "params" in
  PyOps.get params key default.

(** [os.path.join(working_dir, p) if working_dir else p], with
    [working_dir = shared.get("working_dir", "")]. *)
Definition in_working_dir {E : Externals} (p : PyVal) : Run PyVal :=
  sh <- get_shared ;;
  lift (PyOps.full_path sh.(working_dir) p).

(** The way both [exec] methods cut a block out of a response; the
    value of [yaml_content] after the [if]/[elif] chain. *)
Definition fenced_block (response : string) : string :=
  if Str.contains "```yaml" response then
    match Str.split "```yaml" response with
    | _ :: block :: _ => Str.strip (hd "" (Str.split "```" block))
    | _ => ""
    end
  else if Str.contains "```yml" response then
    match Str.split "```yml" response with
    | _ :: block :: _ => Str.strip (hd "" (Str.split "```" block))
    | _ => ""
    end
  else if Str.contains "```" response then
    match Str.split "```" response with
    | _ :: block :: _ => Str.strip block
    | _ => ""
    end
  else "".

(** ** Main Decision Agent Node *)

Module MainDecisionAgent.
Import Py.

Definition prep {E : Externals} : Run (string * list PyVal) :=
  sh <- get_shared ;;
  let count := (match sh.(iteration_count) with Some n => n | None => 0 end
                + 1)%Z in
  modify_shared (set_iteration_count (Some count)) ;;
  let limit := match sh.(max_iterations) with Some n => n | None => 10%Z end in
  if (count >? limit)%Z then ret ("finish", sh.(history))
  else ret (sh.(user_query), sh.(history)).

(** The text handed to the YAML loader: the fenced block, or the whole
    response when that is empty. *)
Definition yaml_content (response : string) : string :=
  let block := fenced_block response in
  if Str.is_empty block then Str.strip response else block.

(** The body of the [try]. *)
Definition parse_decision {E : Externals} (response : string) : Result PyVal :=
  let? decision := yaml_safe_load (yaml_content response) in
  if negb (truthy decision)
  then raise (ValueError "Invalid tool decision format")
  else
    let? has_tool := PyOps.contains "tool" decision in
    if negb has_tool
    then raise (ValueError "Invalid tool decision format")
    else ok decision.

(** The decision the [except] clause returns. *)
Definition fallback_decision (e : PyExc) : PyVal :=
  PyDict [("tool", PyStr "finish");
          ("reason", PyStr ("Error parsing tool decision: " ++ exc_str e));
          ("params", PyDict [])].

Definition exec {E : Externals} (inputs : string * list PyVal) : Run PyVal :=
  let (query, history) := inputs in
  history_str <- lift (History.format_history_summary history) ;;
  response <- call_llm (Prompts.decision query history_str) ;;
  try_except (lift (parse_decision response))
             (fun e => ret (fallback_decision e)).

Definition post {E : Externals} (exec_res : PyVal) : Run PyVal :=
  modify_shared (fun sh => set_history (sh.(history) ++ [exec_res])%list sh) ;;
  lift (PyOps.subscript exec_res "tool").

(** [Node._run]: [prep], [exec], [post]. *)
Definition run {E : Externals} : Run PyVal :=
  p <- prep ;; e <- exec p ;; post e.

End MainDecisionAgent.

(** ** Read File Action Node *)

Module ReadFileAction.
Import Py.

Definition prep {E : Externals} : Run PyVal :=
  action <- last_action ;;
  file_path <- lift (param_get action "target_file" PyNone) ;;
  if negb (truthy file_path)
  then throw (ValueError "Missing target_file parameter")
  else
    full_path <- in_working_dir file_path ;;
    _ <- lift (PyOps.get action "reason" (PyStr "No reason provided")) ;;
    ret full_path.

Definition exec {E : Externals} (file_path : PyVal) : Run (string * bool) :=
  external (CallReadFile file_path) (read_file file_path).

Definition post {E : Externals} (exec_res : string * bool) : Run PyVal :=
  let (content, success) := exec_res in
  set_last_item "result"
    (PyDict [("success", PyBool success); ("content", PyStr content)]) ;;
  ret PyNone.

Definition run {E : Externals} : Run PyVal :=
  p <- prep ;; e <- exec p ;; post e.

End ReadFileAction.

(** ** Grep Search Action Node *)

Module GrepSearchAction.
Import Py.

(** The dictionary [prep] builds for [exec]. *)
Record Params : Type := {
  query : PyVal;
  case_sensitive : PyVal;
  include_pattern : PyVal;
  exclude_pattern : PyVal;
  search_dir : string
}.

Definition prep {E : Externals} : Run Params :=
  action <- last_action ;;
  params <- lift (PyOps.subscript action "params") ;;
  has_query <- lift (PyOps.contains "query" params) ;;
  if negb has_query
  then throw (ValueError "Missing query parameter")
  else
    _ <- lift (PyOps.get action "reason" (PyStr "No reason provided")) ;;
    sh <- get_shared ;;
    q <- lift (PyOps.subscript params "query") ;;
    cs <- lift (PyOps.get params "case_sensitive" (PyBool false)) ;;
    inc <- lift (PyOps.get params "include_pattern" PyNone) ;;
    exc <- lift (PyOps.get params "exclude_pattern" PyNone) ;;
    ret {| query := q; case_sensitive := cs; include_pattern := inc;
           exclude_pattern := exc; search_dir := sh.(working_dir) |}.

(** Returns what [grep_search] returns: [(success, matches)]. *)
Definition exec {E : Externals} (params : Params) : Run (bool * list PyVal) :=
  external
    (CallGrepSearch params.(query) params.(case_sensitive)
       params.(include_pattern) params.(exclude_pattern) params.(search_dir))
    (grep_search params.(query) params.(case_sensitive)
       params.(include_pattern) params.(exclude_pattern) params.(search_dir)).

(** [matches, success = exec_res]: the first component is bound to
    [matches] and the second to [success]. *)
Definition post {E : Externals} (exec_res : bool * list PyVal) : Run PyVal :=
  let (matches, success) := exec_res in
  set_last_item "result"
    (PyDict [("success", PyList success); ("matches", PyBool matches)]) ;;
  ret PyNone.

Definition run {E : Externals} : Run PyVal :=
  p <- prep ;; e <- exec p ;; post e.

End GrepSearchAction.

(** ** List Directory Action Node *)

Module ListDirAction.
Import Py.

Definition prep {E : Externals} : Run PyVal :=
  action <- last_action ;;
  path <- lift (param_get action "relative_workspace_path" (PyStr ".")) ;;
  _ <- lift (PyOps.get action "reason" (PyStr "No reason provided")) ;;
  in_working_dir path.

Definition exec {E : Externals} (path : PyVal) : Run (bool * string) :=
  external (CallListDir path) (list_dir path).

Definition post {E : Externals} (exec_res : bool * string) : Run PyVal :=
  let (success, tree_str) := exec_res in
  set_last_item "result"
    (PyDict [("success", PyBool success);
             ("tree_visualization", PyStr tree_str)]) ;;
  ret PyNone.

Definition run {E : Externals} : Run PyVal :=
  p <- prep ;; e <- exec p ;; post e.

End ListDirAction.

(** ** Insert File Action Node *)

Module InsertFileAction.
Import Py.

Definition prep {E : Externals} : Run (PyVal * PyVal) :=
  action <- last_action ;;
  file_path <- lift (param_get action "target_file" PyNone) ;;
  content <- lift (param_get action "content" PyNone) ;;
  if negb (truthy file_path)
  then throw (ValueError "Missing target_file parameter")
  else if negb (truthy content)
  then throw (ValueError "Missing content parameter")
  else
    _ <- lift (PyOps.get action "reason" (PyStr "No reason provided")) ;;
    full_path <- in_working_dir file_path ;;
    ret (full_path, content).

Definition exec {E : Externals} (params : PyVal * PyVal) : Run (bool * string) :=
  let (file_path, content) := params in
  external (CallInsertFile file_path content) (insert_file file_path content).

Definition post {E : Externals} (exec_res : bool * string) : Run PyVal :=
  let (success, message) := exec_res in
  set_last_item "result"
    (PyDict [("success", PyBool success); ("message", PyStr message)]) ;;
  ret (PyStr "default").

Definition run {E : Externals} : Run PyVal :=
  p <- prep ;; e <- exec p ;; post e.

End InsertFileAction.

(** ** Delete File Action Node *)

Module DeleteFileAction.
Import Py.

Definition prep {E : Externals} : Run PyVal :=
  action <- last_action ;;
  file_path <- lift (param_get action "target_file" PyNone) ;;
  if negb (truthy file_path)
  then throw (ValueError "Missing target_file parameter")
  else
    _ <- lift (PyOps.get action "reason" (PyStr "No reason provided")) ;;
    in_working_dir file_path.

Definition exec {E : Externals} (file_path : PyVal) : Run (bool * string) :=
  external (CallDeleteFile file_path) (delete_file file_path).

Definition post {E : Externals} (exec_res : bool * string) : Run PyVal :=
  let (success, message) := exec_res in
  set_last_item "result"
    (PyDict [("success", PyBool success); ("message", PyStr message)]) ;;
  ret PyNone.

Definition run {E : Externals} : Run PyVal :=
  p <- prep ;; e <- exec p ;; post e.

End DeleteFileAction.

(** ** Read Target File Node (Edit Agent) *)

Module ReadTargetFileNode.
Import Py.

Definition prep {E : Externals} : Run PyVal :=
  action <- last_action ;;
  file_path <- lift (param_get action "target_file" PyNone) ;;
  if negb (truthy file_path)
  then throw (ValueError "Missing target_file parameter")
  else in_working_dir file_path.

Definition exec {E : Externals} (file_path : PyVal) : Run (string * bool) :=
  external (CallReadFile file_path) (read_file file_path).

Definition post {E : Externals} (exec_res : string * bool) : Run PyVal :=
  let (content, success) := exec_res in
  set_last_item "file_content" (PyStr content) ;;
  ret PyNone.

Definition run {E : Externals} : Run PyVal :=
  p <- prep ;; e <- exec p ;; post e.

End ReadTargetFileNode.

(** ** Analyze and Plan Changes Node *)

Module AnalyzeAndPlanNode.
Import Py.

(** The dictionary [prep] builds for [exec]. *)
Record Params : Type := {
  file_content : PyVal;
  instructions : PyVal;
  code_edit : PyVal
}.

Definition prep {E : Externals} : Run Params :=
  action <- last_action ;;
  content <- lift (PyOps.get action "file_content" PyNone) ;;
  instr <- lift (param_get action "instructions" PyNone) ;;
  edit <- lift (param_get action "code_edit" PyNone) ;;
  if negb (truthy content)
  then throw (ValueError "File content not found")
  else if negb (truthy instr)
  then throw (ValueError "Missing instructions parameter")
  else if negb (truthy edit)
  then throw (ValueError "Missing code_edit parameter")
  else ret {| file_content := content; instructions := instr;
              code_edit := edit |}.

(** The body of the loop over [enumerate(decision["operations"])]. *)
Definition validate_operation {E : Externals} (total_lines : Z) (i : Z)
  (op : PyVal) : Result unit :=
  let n := Str.of_Z (i + 1) in
  match op with
  | PyDict d =>
      match dict_get "start_line" d with
      | None => raise (ValueError ("Operation " ++ n ++ " missing 'start_line'"))
      | Some start_line =>
      match dict_get "end_line" d with
      | None => raise (ValueError ("Operation " ++ n ++ " missing 'end_line'"))
      | Some end_line =>
      match dict_get "replacement" d with
      | None => raise (ValueError ("Operation " ++ n ++ " missing 'replacement'"))
      | Some replacement =>
          if negb (isinstance_int start_line) then
            raise (ValueError ("Operation " ++ n
                               ++ " 'start_line' must be an integer"))
          else if negb (isinstance_int end_line) then
            raise (ValueError ("Operation " ++ n
                               ++ " 'end_line' must be an integer"))
          else if negb (isinstance_str replacement) then
            raise (ValueError ("Operation " ++ n
                               ++ " 'replacement' must be a string"))
          else if negb ((1 <=? int_value start_line)
                        && (int_value start_line <=? total_lines + 1))%Z then
            raise (ValueError ("Operation " ++ n
                               ++ " 'start_line' out of range: "
                               ++ py_str start_line))
          else if negb ((1 <=? int_value end_line)
                        && (int_value end_line <=? total_lines + 1))%Z then
            raise (ValueError ("Operation " ++ n
                               ++ " 'end_line' out of range: "
                               ++ py_str end_line))
          else if (int_value start_line >? int_value end_line)%Z then
            raise (ValueError ("Operation " ++ n ++ " 'start_line' ("
                               ++ py_str start_line ++ ") > 'end_line' ("
                               ++ py_str end_line ++ ")"))
          else ok tt
      end end end
  | _ => raise (ValueError ("Operation " ++ n ++ " must be a dictionary"))
  end.

(** [for i, op in enumerate(decision["operations"])]. *)
Definition validate_operations {E : Externals} (total_lines : Z)
  (ops : list PyVal) : Result (list unit) :=
  mapi_result (validate_operation total_lines) 0 ops.

(** The checks between the YAML load and [return decision]. *)
Definition validate {E : Externals} (total_lines : Z) (decision : PyVal)
  : Result unit :=
  match decision with
  | PyDict d =>
      if negb (dict_has "reasoning" d) then
        raise (ValueError "Missing 'reasoning' field in LLM response")
      else
        match dict_get "operations" d with
        | None => raise (ValueError "Missing 'operations' field in LLM response")
        | Some (PyList ops) =>
            match ops with
            | [] => raise (ValueError "'operations' list cannot be empty")
            | _ =>
                let? _ := validate_operations total_lines ops in
                ok tt
            end
        | Some _ => raise (ValueError "'operations' field must be a list")
        end
  | _ => raise (ValueError "LLM response must be a YAML object (dictionary)")
  end.

(** [yaml.safe_load] under [except yaml.YAMLError]. *)
Definition load_plan {E : Externals} (yaml_content : string) : Result PyVal :=
  match yaml_safe_load yaml_content with
  | inl (YAMLError m) =>
      raise (ValueError ("Invalid YAML format in LLM response: " ++ m))
  | r => r
  end.

(** [len(file_content.split('\n'))]. *)
Definition count_lines (content : string) : Z :=
  Z.of_nat (List.length (Str.split Str.nl content)).

Definition exec {E : Externals} (params : Params) : Run PyVal :=
  content <- match params.(file_content) with
             | PyStr s => ret s
             | v => throw (AttributeError
                             ("'" ++ type_name v
                              ++ "' object has no attribute 'split'"))
             end ;;
  let total_lines := count_lines content in
  response <- call_llm (Prompts.plan total_lines content
                          (py_str params.(instructions))
                          (py_str params.(code_edit))) ;;
  let yaml_content := fenced_block response in
  if Str.is_empty yaml_content then
    throw (ValueError "No YAML object found in response. LLM must return a YAML object with 'reasoning' and 'operations' fields.")
  else
    decision <- lift (load_plan yaml_content) ;;
    lift (validate total_lines decision) ;;
    ret decision.

Definition post {E : Externals} (exec_res : PyVal) : Run PyVal :=
  reasoning <- lift (PyOps.get exec_res "reasoning" (PyStr "")) ;;
  modify_shared (set_edit_reasoning (Some reasoning)) ;;
  operations <- lift (PyOps.get exec_res "operations" (PyList [])) ;;
  modify_shared (set_edit_operations (Some operations)) ;;
  ret PyNone.

Definition run {E : Externals} : Run PyVal :=
  p <- prep ;; e <- exec p ;; post e.

End AnalyzeAndPlanNode.

(** ** Apply Changes Batch Node *)

Module ApplyChangesNode.
Import Py.

Fixpoint map_result {A B : Type} (f : A -> Result B) (l : list A)
  : Result (list B) :=
  match l with
  | [] => ok []
  | x :: l' =>
      let? y := f x in
      let? ys := map_result f l' in
      ok (y :: ys)
  end.

(** [lambda op: op["start_line"]].  The planner stores validated
    operations only, whose [start_line] is an [int] instance; another
    key is reported as the [TypeError] an ordering of mixed keys
    gives. *)
Definition sort_key (op : PyVal) : Result Z :=
  let? v := PyOps.subscript op "start_line" in
  if isinstance_int v then ok (int_value v)
  else raise (TypeError "'<' not supported between instances").

(** Insertion into a list in descending key order, before the first
    element whose key is not greater. *)
Fixpoint insert_desc (x : Z * PyVal) (l : list (Z * PyVal))
  : list (Z * PyVal) :=
  match l with
  | [] => [x]
  | y :: l' =>
      if (fst x <? fst y)%Z then y :: insert_desc x l' else x :: l
  end.

(** [sorted(keyed, reverse=True)] on keyed items: a stable sort, equal
    keys keep their order. *)
Definition sort_desc (keyed : list (Z * PyVal)) : list (Z * PyVal) :=
  fold_right insert_desc [] keyed.

(** [sorted(edit_operations, key=lambda op: op["start_line"],
    reverse=True)]. *)
Definition sorted_ops (edit_operations : list PyVal) : Result (list PyVal) :=
  let? keys := map_result sort_key edit_operations in
  ok (map snd (sort_desc (combine keys edit_operations))).

(** [op["target_file"] = full_path] on an operation. *)
Definition attach (full_path : PyVal) (op : PyVal) : PyVal :=
  match op with
  | PyDict d => PyDict (dict_set "target_file" full_path d)
  | v => v
  end.

(** The sorted list holds the very dictionaries of
    [shared["edit_operations"]], so attaching the path shows there
    too. *)
Definition prep {E : Externals} : Run (list PyVal) :=
  sh <- get_shared ;;
  let edit_operations :=
    match sh.(edit_operations) with Some v => v | None => PyList [] end in
  if negb (truthy edit_operations) then ret []
  else
    ops <- match edit_operations with
           | PyList l => ret l
           | v => throw (TypeError
                           ("'" ++ type_name v ++ "' object is not a list of operations"))
           end ;;
    sorted <- lift (sorted_ops ops) ;;
    action <- last_action ;;
    target_file <- lift (param_get action "target_file" PyNone) ;;
    if negb (truthy target_file)
    then throw (ValueError "Missing target_file parameter")
    else
      full_path <- in_working_dir target_file ;;
      modify_shared
        (set_edit_operations (Some (PyList (map (attach full_path) ops)))) ;;
      ret (map (attach full_path) sorted).

Definition exec {E : Externals} (op : PyVal) : Run (bool * string) :=
  target_file <- lift (PyOps.subscript op "target_file") ;;
  start_line <- lift (PyOps.subscript op "start_line") ;;
  end_line <- lift (PyOps.subscript op "end_line") ;;
  replacement <- lift (PyOps.subscript op "replacement") ;;
  external (CallReplaceFile target_file start_line end_line replacement)
           (replace_file target_file start_line end_line replacement).

(** [BatchNode._exec]: [[exec(i) for i in items]]. *)
Fixpoint batch_exec {E : Externals} (items : list PyVal)
  : Run (list (bool * string)) :=
  match items with
  | [] => ret []
  | op :: rest =>
      r <- exec op ;;
      rs <- batch_exec rest ;;
      ret (r :: rs)
  end.

Definition result_details (exec_res_list : list (bool * string)) : list PyVal :=
  map (fun r => PyDict [("success", PyBool (fst r)); ("message", PyStr (snd r))])
      exec_res_list.

(** The dictionary stored as the edit action's result. *)
Definition edit_result (exec_res_list : list (bool * string))
  (reasoning : option PyVal) : PyVal :=
  PyDict [("success", PyBool (forallb fst exec_res_list));
          ("operations", PyInt (Z.of_nat (List.length exec_res_list)));
          ("details", PyList (result_details exec_res_list));
          ("reasoning", match reasoning with Some r => r | None => PyStr "" end)].

Definition post {E : Externals} (exec_res_list : list (bool * string))
  : Run PyVal :=
  sh <- get_shared ;;
  set_last_item "result" (edit_result exec_res_list sh.(edit_reasoning)) ;;
  modify_shared (set_edit_operations None) ;;
  modify_shared (set_edit_reasoning None) ;;
  ret PyNone.

Definition run {E : Externals} : Run PyVal :=
  p <- prep ;; e <- batch_exec p ;; post e.

End ApplyChangesNode.

(** ** Format Response Node *)

Module FormatResponseNode.

Definition prep {E : Externals} : Run (list PyVal) :=
  sh <- get_shared ;; ret sh.(history).

Definition exec {E : Externals} (history : list PyVal) : Run string :=
  match history with
  | [] => ret "No actions were performed."
  | _ =>
      actions_summary <- lift (History.format_history_summary history) ;;
      call_llm (Prompts.summary actions_summary)
  end.

Definition post {E : Externals} (exec_res : string) : Run PyVal :=
  modify_shared (set_response (Some exec_res)) ;;
  ret (PyStr "done").

Definition run {E : Externals} : Run PyVal :=
  p <- prep ;; e <- exec p ;; post e.

End FormatResponseNode.

(** ** Create Directory Action Node *)

Module CreateDirectoryAction.
Import Py.

Definition prep {E : Externals} : Run PyVal :=
  action <- last_action ;;
  dir_path <- lift (param_get action "target_dir" PyNone) ;;
  if negb (truthy dir_path)
  then throw (ValueError "Missing target_dir parameter")
  else
    _ <- lift (PyOps.get action "reason" (PyStr "No reason provided")) ;;
    in_working_dir dir_path.

Definition exec {E : Externals} (dir_path : PyVal) : Run (bool * string) :=
  r <- external (CallMakedirs dir_path) (os_makedirs dir_path) ;;
  match r with
  | inr _ => ret (true, "Successfully created directory: " ++ py_str dir_path)
  | inl e => ret (false, "Failed to create directory: " ++ exc_str e)
  end.

Definition post {E : Externals} (exec_res : bool * string) : Run PyVal :=
  let (success, message) := exec_res in
  set_last_item "result"
    (PyDict [("success", PyBool success); ("message", PyStr message)]) ;;
  ret (PyStr "default").

Definition run {E : Externals} : Run PyVal :=
  p <- prep ;; e <- exec p ;; post e.

End CreateDirectoryAction.

(** ** Delete Directory Action Node *)

Module DeleteDirectoryAction.
Import Py.

Definition prep {E : Externals} : Run PyVal :=
  action <- last_action ;;
  dir_path <- lift (param_get action "target_dir" PyNone) ;;
  if negb (truthy dir_path)
  then throw (ValueError "Missing target_dir parameter")
  else
    _ <- lift (PyOps.get action "reason" (PyStr "No reason provided")) ;;
    in_working_dir dir_path.

Definition exec {E : Externals} (dir_path : PyVal) : Run (bool * string) :=
  try_except
    (present <- (r <- observe (os_path_exists dir_path) ;; lift r) ;;
     if negb present
     then ret (false, "Directory does not exist: " ++ py_str dir_path)
     else
       is_dir <- (r <- observe (os_path_isdir dir_path) ;; lift r) ;;
       if negb is_dir
       then ret (false, "Path is not a directory: " ++ py_str dir_path)
       else
         r <- external (CallRmtree dir_path) (shutil_rmtree dir_path) ;;
         lift r ;;
         ret (true, "Successfully deleted directory and its contents: "
                    ++ py_str dir_path))
    (fun e => ret (false, "Failed to delete directory: " ++ exc_str e)).

Definition post {E : Externals} (exec_res : bool * string) : Run PyVal :=
  let (success, message) := exec_res in
  set_last_item "result"
    (PyDict [("success", PyBool success); ("message", PyStr message)]) ;;
  ret (PyStr "default").

Definition run {E : Externals} : Run PyVal :=
  p <- prep ;; e <- exec p ;; post e.

End DeleteDirectoryAction.

(** ** The flows

    [create_edit_agent] and [create_main_flow], run the way the flow
    library runs a graph of nodes: a node's [post] returns an action,
    the node registered under that action (under [default] for a false
    one) comes next, and the flow ends when there is none. *)

Module Flow.
Import Py.

(** The edit agent: [read_target >> analyze_plan >> apply_changes].
    Each [post] returns [None], so each default successor follows; the
    last node has none. *)
Definition edit_agent_run {E : Externals} : Run PyVal :=
  ReadTargetFileNode.run ;;
  AnalyzeAndPlanNode.run ;;
  ApplyChangesNode.run.

(** The nodes of the main flow, named as [create_main_flow] names
    them. *)
Inductive Node : Type :=
| main_agent
| read_action
| grep_action
| list_dir_action
| delete_action
| insert_action
| edit_agent
| format_response
| create_dir_action
| delete_dir_action.

Definition run_node {E : Externals} (n : Node) : Run PyVal :=
  match n with
  | main_agent => MainDecisionAgent.run
  | read_action => ReadFileAction.run
  | grep_action => GrepSearchAction.run
  | list_dir_action => ListDirAction.run
  | delete_action => DeleteFileAction.run
  | insert_action => InsertFileAction.run
  | edit_agent => edit_agent_run
  | format_response => FormatResponseNode.run
  | create_dir_action => CreateDirectoryAction.run
  | delete_dir_action => DeleteDirectoryAction.run
  end.

(** The transitions [create_main_flow] wires. *)
Definition successors (n : Node) : list (string * Node) :=
  match n with
  | main_agent =>
      [("read_file", read_action); ("grep_search", grep_action);
       ("list_dir", list_dir_action); ("delete_file", delete_action);
       ("insert_file", insert_action); ("edit_file", edit_agent);
       ("create_directory", create_dir_action);
       ("delete_directory", delete_dir_action);
       ("finish", format_response)]
  | format_response => []
  | _ => [("default", main_agent)]
  end.

Fixpoint lookup (k : string) (l : list (string * Node)) : option Node :=
  match l with
  | [] => None
  | (k', n) :: l' => if String.eqb k k' then Some n else lookup k l'
  end.

(** [curr.successors.get(action or "default")]. *)
Definition get_next_node (curr : Node) (action : PyVal) : Result (option Node) :=
  let key := if truthy action then action else PyStr "default" in
  match key with
  | PyStr k => ok (lookup k (successors curr))
  | PyList _ | PyDict _ =>
      raise (TypeError ("unhashable type: '" ++ type_name key ++ "'"))
  | _ => ok None
  end.

(** How a run of the flow stands after some steps. *)
Inductive Status : Type :=
| Done (last_action : PyVal)
| Running (next : Node).

(** The orchestration loop, for at most [fuel] nodes. *)
Fixpoint orch {E : Externals} (fuel : nat) (curr : Node) : Run Status :=
  match fuel with
  | O => ret (Running curr)
  | S fuel' =>
      action <- run_node curr ;;
      next <- lift (get_next_node curr action) ;;
      match next with
      | Some n => orch fuel' n
      | None => ret (Done action)
      end
  end.

(** [coding_agent_flow.run(shared)]. *)
Definition coding_agent_flow {E : Externals} (fuel : nat) : Run Status :=
  orch fuel main_agent.

(** [run_flow_with_limit(shared, max_iterations)]. *)
Definition run_flow_with_limit {E : Externals} (limit : Z) (fuel : nat)
  : Run Status :=
  modify_shared (set_iteration_count (Some 0%Z)) ;;
  modify_shared (set_max_iterations (Some limit)) ;;
  st <- coding_agent_flow fuel ;;
  match st with
  | Done _ =>
      modify_shared (set_iteration_count None) ;;
      modify_shared (set_max_iterations None) ;;
      ret st
  | Running _ => ret st
  end.

End Flow.

(** [main.py]: the shared memory [run_flow] starts from. *)
Definition initial_shared (query working_dir : string) : Shared :=
  {| user_query := query; working_dir := working_dir; history := [];
     response := None; iteration_count := None; max_iterations := None;
     edit_reasoning := None; edit_operations := None |}.

Definition initial_state {E : Externals} (sh : Shared) (w : World) : State :=
  {| shared := sh; world := w; calls := [] |}.

(** ** The patch primitive on lines *)

Module Patch.
Import Py.

(** The data model's [EditOperation], read off an operation
    dictionary. *)
Record EditOperation : Type := {
  start_line : Z;
  end_line : Z;
  replacement : string
}.

Definition edit_operation (op : PyVal) : EditOperation :=
  match op with
  | PyDict d =>
      {| start_line := int_value (dict_get_default "start_line" PyNone d);
         end_line := int_value (dict_get_default "end_line" PyNone d);
         replacement :=
           match dict_get "replacement" d with
           | Some (PyStr r) => r
           | _ => ""
           end |}
  | _ => {| start_line := 0; end_line := 0; replacement := "" |}
  end.

(** Modelled from the spec: [utils/replace_file.py] is not part of the
    sources.  The spec has [replace_range(path, start_line, end_line,
    text)] replace the inclusive 1-indexed line range by the replacement
    text's lines, and has the range [total_lines + 1 .. total_lines + 1]
    append after the last line. *)
Definition replace_range (lines : list string) (first last : Z)
  (new_lines : list string) : list string :=
  (firstn (Z.to_nat (first - 1)) lines ++ new_lines
   ++ skipn (Z.to_nat last) lines)%list.

(** One operation applied to the lines of a file; [lines_of] cuts the
    replacement text into lines. *)
Definition apply_operation (lines_of : string -> list string)
  (lines : list string) (op : PyVal) : list string :=
  let o := edit_operation op in
  replace_range lines o.(start_line) o.(end_line) (lines_of o.(replacement)).

(** The operations applied one after the other, in list order. *)
Definition apply_operations (lines_of : string -> list string)
  (ops : list PyVal) (lines : list string) : list string :=
  fold_left (apply_operation lines_of) ops lines.

(** The lines numbered [1 .. n]. *)
Definition lines_upto (n : Z) (lines : list string) : list string :=
  firstn (Z.to_nat n) lines.

(** Two operations whose line ranges share no line. *)
Definition disjoint (a b : PyVal) : Prop :=
  ((edit_operation a).(end_line) < (edit_operation b).(start_line)
   \/ (edit_operation b).(end_line) < (edit_operation a).(start_line))%Z.

(** [a] is applied before [b] in a descending order of start lines. *)
Definition starts_not_before (a b : PyVal) : Prop :=
  ((edit_operation b).(start_line) <= (edit_operation a).(start_line))%Z.

End Patch.

(** ** What the planner's validation accepts *)

Module Plan.
Import Py.

(** An operation as the validation wants it: a mapping with [int]
    instances (Python counts [True] and [False] among them) under
    [start_line] and [end_line], a [str] under [replacement], both line
    numbers in [1 .. total_lines + 1] and the range not inverted. *)
Definition accepted (total_lines : Z) (op : PyVal) : Prop :=
  exists d s e r,
    op = PyDict d
    /\ dict_get "start_line" d = Some s
    /\ dict_get "end_line" d = Some e
    /\ dict_get "replacement" d = Some r
    /\ isinstance_int s = true /\ isinstance_int e = true
    /\ isinstance_str r = true
    /\ (1 <= int_value s <= total_lines + 1)%Z
    /\ (1 <= int_value e <= total_lines + 1)%Z
    /\ (int_value s <= int_value e)%Z.

(** The rules an operation can break, in the order they are checked. *)
Inductive Rule : Type :=
| NotAMapping
| NoStartLine
| NoEndLine
| NoReplacement
| StartLineNotInt
| EndLineNotInt
| ReplacementNotStr
| StartLineOutOfRange
| EndLineOutOfRange
| StartAfterEnd.

(** [breaks total_lines op r]: [op] breaks rule [r]. *)
Definition breaks (total_lines : Z) (op : PyVal) (r : Rule) : Prop :=
  match r with
  | NotAMapping => isinstance_dict op = false
  | NoStartLine => exists d, op = PyDict d /\ dict_get "start_line" d = None
  | NoEndLine => exists d, op = PyDict d /\ dict_get "end_line" d = None
  | NoReplacement => exists d, op = PyDict d /\ dict_get "replacement" d = None
  | StartLineNotInt =>
      exists d v, op = PyDict d /\ dict_get "start_line" d = Some v
                  /\ isinstance_int v = false
  | EndLineNotInt =>
      exists d v, op = PyDict d /\ dict_get "end_line" d = Some v
                  /\ isinstance_int v = false
  | ReplacementNotStr =>
      exists d v, op = PyDict d /\ dict_get "replacement" d = Some v
                  /\ isinstance_str v = false
  | StartLineOutOfRange =>
      exists d v, op = PyDict d /\ dict_get "start_line" d = Some v
                  /\ ~ (1 <= int_value v <= total_lines + 1)%Z
  | EndLineOutOfRange =>
      exists d v, op = PyDict d /\ dict_get "end_line" d = Some v
                  /\ ~ (1 <= int_value v <= total_lines + 1)%Z
  | StartAfterEnd =>
      exists d s e, op = PyDict d /\ dict_get "start_line" d = Some s
                    /\ dict_get "end_line" d = Some e
                    /\ (int_value s > int_value e)%Z
  end.

(** The words by which a fault names the rule. *)
Definition rule_words (r : Rule) : string :=
  match r with
  | NotAMapping => " must be a dictionary"
  | NoStartLine => " missing 'start_line'"
  | NoEndLine => " missing 'end_line'"
  | NoReplacement => " missing 'replacement'"
  | StartLineNotInt => " 'start_line' must be an integer"
  | EndLineNotInt => " 'end_line' must be an integer"
  | ReplacementNotStr => " 'replacement' must be a string"
  | StartLineOutOfRange => " 'start_line' out of range: "
  | EndLineOutOfRange => " 'end_line' out of range: "
  | StartAfterEnd => " 'start_line' ("
  end.

(** A fault message that names operation [i] (counted from 1 in the
    text) and rule [r]. *)
Definition names (msg : string) (i : nat) (r : Rule) : Prop :=
  exists detail,
    msg = "Operation " ++ Str.of_Z (Z.of_nat i + 1) ++ rule_words r ++ detail.

End Plan.

(** ** A simulated world

    An in-memory stand-in for the collaborators, for running the flow
    on concrete inputs: files are texts under their paths, the
    generation backend answers its [n]-th call with [reply n], and the
    YAML loader knows the texts of a table. *)

Module Sim.
Import Py.

Record SimWorld : Type := {
  llm_calls : nat;
  files : list (string * string)
}.

Fixpoint file_get (p : string) (fs : list (string * string)) : option string :=
  match fs with
  | [] => None
  | (q, c) :: fs' => if String.eqb p q then Some c else file_get p fs'
  end.

Fixpoint file_set (p c : string) (fs : list (string * string))
  : list (string * string) :=
  match fs with
  | [] => [(p, c)]
  | (q, c') :: fs' =>
      if String.eqb p q then (p, c) :: fs' else (q, c') :: file_set p c fs'
  end.

Fixpoint file_remove (p : string) (fs : list (string * string))
  : list (string * string) :=
  match fs with
  | [] => []
  | (q, c) :: fs' =>
      if String.eqb p q then fs' else (q, c) :: file_remove p fs'
  end.

Fixpoint join_lines (l : list string) : string :=
  match l with
  | [] => ""
  | [x] => x
  | x :: l' => x ++ Str.nl ++ join_lines l'
  end.

Definition with_files (w : SimWorld) (fs : list (string * string)) : SimWorld :=
  {| llm_calls := w.(llm_calls); files := fs |}.

(** The loader of a table: the empty document loads as [None], a text
    of the table as its value, anything else is a syntax error. *)
Fixpoint table_load (table : list (string * PyVal)) (text : string)
  : Result PyVal :=
  match table with
  | [] =>
      if Str.is_empty text then ok PyNone
      else raise (YAMLError "could not find expected ':'")
  | (t, v) :: table' =>
      if String.eqb text t then ok v else table_load table' text
  end.

Definition sim_generate (reply : nat -> string) (prompt : string)
  (w : SimWorld) : Result string * SimWorld :=
  (ok (reply w.(llm_calls)),
   {| llm_calls := S w.(llm_calls); files := w.(files) |}).

Definition sim_read_file (path : PyVal) (w : SimWorld)
  : (string * bool) * SimWorld :=
  match path with
  | PyStr p =>
      match file_get p w.(files) with
      | Some c => ((c, true), w)
      | None => (("Error: file not found", false), w)
      end
  | _ => (("Error: bad path", false), w)
  end.

Definition sim_insert_file (path content : PyVal) (w : SimWorld)
  : (bool * string) * SimWorld :=
  match path, content with
  | PyStr p, PyStr c =>
      match file_get p w.(files) with
      | Some _ => ((false, "File already exists"), w)
      | None => ((true, "File created"), with_files w (file_set p c w.(files)))
      end
  | _, _ => ((false, "Error: bad arguments"), w)
  end.

Definition sim_delete_file (path : PyVal) (w : SimWorld)
  : (bool * string) * SimWorld :=
  match path with
  | PyStr p =>
      match file_get p w.(files) with
      | Some _ => ((true, "File deleted"), with_files w (file_remove p w.(files)))
      | None => ((false, "File does not exist"), w)
      end
  | _ => ((false, "Error: bad path"), w)
  end.

Definition sim_replace_file (target start_line end_line content : PyVal)
  (w : SimWorld) : (bool * string) * SimWorld :=
  match target, content with
  | PyStr p, PyStr c =>
      match file_get p w.(files) with
      | Some text =>
          let lines := Patch.replace_range (Str.split Str.nl text)
                         (int_value start_line) (int_value end_line)
                         (Str.split Str.nl c) in
          ((true, "Replaced"), with_files w (file_set p (join_lines lines) w.(files)))
      | None => ((false, "File does not exist"), w)
      end
  | _, _ => ((false, "Error: bad arguments"), w)
  end.

Definition externals (reply : nat -> string) (table : list (string * PyVal))
  (grep : bool * list PyVal) : Externals :=
  {| World := SimWorld;
     generate := sim_generate reply;
     yaml_safe_load := table_load table;
     str_compound := fun v => "<" ++ type_name v ++ ">";
     read_file := sim_read_file;
     grep_search := fun _ _ _ _ _ w => (grep, w);
     list_dir := fun _ w => ((true, "."), w);
     insert_file := sim_insert_file;
     delete_file := sim_delete_file;
     replace_file := sim_replace_file;
     os_makedirs := fun _ w => (ok tt, w);
     os_path_exists := fun _ _ => ok false;
     os_path_isdir := fun _ _ => ok false;
     shutil_rmtree := fun _ w => (ok tt, w) |}.

Definition world (fs : list (string * string)) : SimWorld :=
  {| llm_calls := 0; files := fs |}.

(** A decision for [grep_search] with query [x], as text and as the
    loader returns it. *)
Definition grep_text : string :=
  "tool: grep_search" ++ Str.nl ++ "reason: look for x" ++ Str.nl
  ++ "params:" ++ Str.nl ++ "  query: x".

Definition grep_decision : PyVal :=
  PyDict [("tool", PyStr "grep_search"); ("reason", PyStr "look for x");
          ("params", PyDict [("query", PyStr "x")])].

Definition grep_reply : string :=
  "```yaml" ++ Str.nl ++ grep_text ++ Str.nl ++ "```".

(** A decision to finish. *)
Definition finish_text : string :=
  "tool: finish" ++ Str.nl ++ "reason: nothing to do" ++ Str.nl ++ "params: {}".

Definition finish_decision : PyVal :=
  PyDict [("tool", PyStr "finish"); ("reason", PyStr "nothing to do");
          ("params", PyDict [])].

Definition table : list (string * PyVal) :=
  [(grep_text, grep_decision); (finish_text, finish_decision)].

(** The backend that always proposes the search, and the search that
    finds nothing or one line. *)
Definition always_grep (grep : bool * list PyVal) : Externals :=
  externals (fun _ => grep_reply) table grep.

Definition always_finish : Externals :=
  externals (fun _ => finish_text) table (true, []).

Definition one_match : PyVal :=
  PyDict [("file", PyStr "a.py"); ("line", PyInt 1); ("content", PyStr "x = 1")].

End Sim.

(** ** Re-wrapping a block

    [block] inside a fenced block tagged [tag], on lines of its own,
    with prose before and after. *)
Definition wrapped (tag before block after : string) : string :=
  before ++ "```" ++ tag ++ Str.nl ++ block ++ Str.nl ++ "```" ++ after.

(** ** What the applier's batch amounts to *)

Module Applier.
Import Py.

(** Keyed items in descending key order. *)
Definition key_desc (a b : Z * PyVal) : Prop := (fst b <= fst a)%Z.

(** [b]'s range ends above the line [a]'s range starts at. *)
Definition above (a b : PyVal) : Prop :=
  ((Patch.edit_operation b).(Patch.end_line)
   < (Patch.edit_operation a).(Patch.start_line))%Z.

Definition field (k : string) (op : PyVal) : PyVal :=
  match op with
  | PyDict d => dict_get_default k PyNone d
  | _ => PyNone
  end.

(** The call [exec] makes for an operation. *)
Definition replace_call (op : PyVal) : Event :=
  CallReplaceFile (field "target_file" op) (field "start_line" op)
    (field "end_line" op) (field "replacement" op).

(** The outcomes of the replacements for [items], each made in the
    world the one before it left, whatever its outcome. *)
Fixpoint outcomes {E : Externals} (items : list PyVal) (w : World)
  : list (bool * string) * World :=
  match items with
  | [] => ([], w)
  | op :: rest =>
      let (r, w1) := replace_file (field "target_file" op) (field "start_line" op)
                       (field "end_line" op) (field "replacement" op) w in
      let (rs, w2) := outcomes rest w1 in
      (r :: rs, w2)
  end.

End Applier.

(** ** Sample runs

    Concrete sessions in the simulated world. *)

Module Samples.

Definition operation (first last : Z) (text : string) : PyVal :=
  PyDict [("start_line", PyInt first); ("end_line", PyInt last);
          ("replacement", PyStr text)].

(** A file of four lines and two plans for it: one whose ranges are
    apart, one whose ranges overlap. *)
Definition four_lines : list string := ["L1"; "L2"; "L3"; "L4"].

Definition apart_plan : list PyVal :=
  [operation 1 1 "first"; operation 3 4 "third"].

Definition overlapping_plan : list PyVal :=
  [operation 1 3 "Z";
   operation 2 2 ("A" ++ Str.nl ++ "B" ++ Str.nl ++ "C")].

Definition edit_action : PyVal :=
  PyDict [("tool", PyStr "edit_file"); ("reason", PyStr "fix the notes");
          ("params",
           PyDict [("target_file", PyStr "notes.txt");
                   ("instructions", PyStr "replace the first line");
                   ("code_edit", PyStr "first")])].

Definition list_action : PyVal :=
  PyDict [("tool", PyStr "list_dir"); ("reason", PyStr "look around");
          ("params", PyDict [])].

(** The session at the start of a run. *)
Definition fresh : Shared := initial_shared "find x" "proj".

(** The session when a handler is about to serve [action]. *)
Definition serving (action : PyVal) : Shared :=
  set_history [action] fresh.

(** The session when the applier is about to run [plan]. *)
Definition planned (plan : list PyVal) : Shared :=
  set_edit_reasoning (Some (PyStr "as asked"))
    (set_edit_operations (Some (PyList plan)) (serving edit_action)).

Definition notes_world : Sim.SimWorld :=
  Sim.world [("proj/notes.txt", Sim.join_lines four_lines)].

Definition empty_notes_world : Sim.SimWorld :=
  Sim.world [("proj/notes.txt", "")].

(** A backend that answers in prose. *)
Definition always_prose : Externals :=
  Sim.externals (fun _ => "I am not sure what to do next.") Sim.table (true, []).

End Samples.

(** ** What a step leaves in place *)

(** [m] takes every state to a state related to it by [R], whether it
    returns or raises. *)
Definition establishes {E : Externals} {A : Type}
  (R : State -> State -> Prop) (m : Run A) : Prop :=
  forall st,
    match m st with
    | Returns _ st' => R st st'
    | Raises _ st' => R st st'
    end.

Module Keeps.

(** The history grows at its end only: it gets no shorter and all its
    entries but the newest stay as they are. *)
Definition history_grows {E : Externals} (st st' : State) : Prop :=
  (List.length st.(shared).(history) <= List.length st'.(shared).(history))%nat
  /\ firstn (List.length st.(shared).(history) - 1) st'.(shared).(history)
     = removelast st.(shared).(history).

(** The request, the working directory and the iteration limit stay. *)
Definition same_session {E : Externals} (st st' : State) : Prop :=
  st'.(shared).(user_query) = st.(shared).(user_query)
  /\ st'.(shared).(working_dir) = st.(shared).(working_dir)
  /\ st'.(shared).(max_iterations) = st.(shared).(max_iterations).

(** The calls made from [st] to [st'] are all [allowed]. *)
Definition calls_only {E : Externals} (allowed : Event -> bool)
  (st st' : State) : Prop :=
  exists made,
    st'.(calls) = (st.(calls) ++ made)%list /\ forallb allowed made = true.

(** The calls that change no file or directory. *)
Definition reads_only (ev : Event) : bool :=
  match ev with
  | CallLLM _ | CallReadFile _ | CallListDir _ => true
  | CallGrepSearch _ _ _ _ _ => true
  | _ => false
  end.

(** The iteration counter, once set, stays set and does not fall. *)
Definition counting {E : Externals} (st st' : State) : Prop :=
  forall k,
    st.(shared).(iteration_count) = Some k ->
    exists k', st'.(shared).(iteration_count) = Some k' /\ (k <= k')%Z.
End Keeps.

(** ** Counting and selecting *)

(** The line feeds of a text. *)
Fixpoint line_feeds (s : string) : nat :=
  match s with
  | "" => O
  | String c s' =>
      if Ascii.eqb c (ascii_of_nat 10) then S (line_feeds s') else line_feeds s'
  end.

(** The operations of a plan that start at line [k]. *)
Definition starting_at (k : Z) (ops : list PyVal) : list PyVal :=
  filter (fun op => ((Patch.edit_operation op).(Patch.start_line) =? k)%Z) ops.

(** ** [main.py] *)

Module Main.
Import Py.

(** [load_prompt_from_file(file_path)], from what opening and reading
    the file gave; the [except] clause logs the fault and raises it
    again. *)
Definition load_prompt_from_file {E : Externals} (opened : Result string)
  : Result PyVal :=
  let? text := opened in
  let? prompt_data := yaml_safe_load text in
  if negb (truthy prompt_data)
  then raise (ValueError "Invalid prompt file format: missing 'example' field")
  else
    let? has_example := PyOps.contains "example" prompt_data in
    if negb has_example
    then raise (ValueError "Invalid prompt file format: missing 'example' field")
    else PyOps.subscript prompt_data "example".

End Main.

(** ** The generation clients

    What a client's constructor and its [generate] do before the HTTP
    request leaves: the settings they resolve and the request they
    build. *)

(** What the clients read from the process: [os.getenv(name)], and the
    conversions [int(text)] and [float(text)] of a variable's text. *)
Record Host : Type := {
  getenv : string -> option string;
  py_int : string -> Result Z;
  py_float : string -> Result spec_float
}.

(** [os.getenv(name, default)]. *)
Definition getenv_default (h : Host) (name default : string) : string :=
  match h.(getenv) name with
  | Some s => s
  | None => default
  end.

(** [arg or fallback] for an optional string. *)
Definition str_or (arg : option string) (fallback : string) : string :=
  match arg with
  | Some (String c s) => String c s
  | _ => fallback
  end.

(** [payload.update(other)]. *)
Definition dict_update (d other : Dict) : Dict :=
  fold_left (fun acc kv => Py.dict_set (fst kv) (snd kv) acc) other d.

Module OpenRouterClient.
Import Py.

Record Client : Type := {
  api_key : string;
  base_url : string;
  model : string;
  max_tokens : Z
}.

(** [int(os.getenv("OPENROUTER_MAX_TOKENS", "4096"))]. *)
Definition env_max_tokens (h : Host) : Result Z :=
  match h.(getenv) "OPENROUTER_MAX_TOKENS" with
  | Some s => h.(py_int) s
  | None => ok 4096%Z
  end.

(** [__init__]. *)
Definition init (h : Host) (api_key base_url model : option string)
  (max_tokens : option Z) : Result Client :=
  let key :=
    match api_key with
    | Some (String c s) => Some (String c s)
    | _ => h.(getenv) "OPENROUTER_API_KEY"
    end in
  match key with
  | Some (String c s) =>
      let base :=
        str_or base_url
          (getenv_default h "OPENROUTER_BASE_URL" "https://openrouter.ai/api/v1") in
      let name :=
        str_or model
          (getenv_default h "OPENROUTER_MODEL" "anthropic/claude-3-opus-20240229") in
      let? tokens :=
        match max_tokens with
        | Some n => if (n =? 0)%Z then env_max_tokens h else ok n
        | None => env_max_tokens h
        end in
      ok {| api_key := String c s; base_url := base; model := name;
            max_tokens := tokens |}
  | _ =>
      raise (ValueError "OpenRouter API key is required. Set OPENROUTER_API_KEY environment variable or pass api_key parameter.")
  end.

(** The headers [generate] sends. *)
Definition headers (h : Host) (self : Client) : Dict :=
  [("Authorization", PyStr ("Bearer " ++ self.(api_key)));
   ("HTTP-Referer",
    PyStr (getenv_default h "OPENROUTER_REFERER" "http://localhost:3000"));
   ("X-Title", PyStr (getenv_default h "OPENROUTER_TITLE" "My LLM App"))].

(** The payload [generate] posts: the standard entries, then
    [if additional_params: payload.update(additional_params)]. *)
Definition payload (self : Client) (prompt : string) (temperature : PyVal)
  (stream : bool) (additional_params : option Dict) : Dict :=
  let standard :=
    [("model", PyStr self.(model));
     ("messages",
      PyList [PyDict [("role", PyStr "user"); ("content", PyStr prompt)]]);
     ("temperature", temperature);
     ("max_tokens", PyInt self.(max_tokens));
     ("stream", PyBool stream)] in
  match additional_params with
  | Some (kv :: more) => dict_update standard (kv :: more)
  | _ => standard
  end.

(** The address [generate] posts to. *)
Definition endpoint (self : Client) : string :=
  self.(base_url) ++ "/chat/completions".

End OpenRouterClient.

Module OllamaClient.
Import Py.

Record Client : Type := {
  base_url : string;
  model : string;
  n_ctx : Z;
  temperature : spec_float
}.

(** The double nearest to [0.7]. *)
Definition default_temperature : spec_float :=
  S754_finite false 6305039478318694 (-53).

(** [int(os.getenv("OLLAMA_N_CTX", "4096"))]. *)
Definition env_n_ctx (h : Host) : Result Z :=
  match h.(getenv) "OLLAMA_N_CTX" with
  | Some s => h.(py_int) s
  | None => ok 4096%Z
  end.

(** [float(os.getenv("OLLAMA_TEMPERATURE", "0.7"))]. *)
Definition env_temperature (h : Host) : Result spec_float :=
  match h.(getenv) "OLLAMA_TEMPERATURE" with
  | Some s => h.(py_float) s
  | None => ok default_temperature
  end.

(** [__init__]. *)
Definition init (h : Host) (base_url model : option string)
  (n_ctx : option Z) (temperature : option spec_float) : Result Client :=
  let base :=
    str_or base_url (getenv_default h "OLLAMA_BASE_URL" "http://localhost:11434") in
  let name := str_or model (getenv_default h "OLLAMA_MODEL" "llama2") in
  let? ctx :=
    match n_ctx with
    | Some n => if (n =? 0)%Z then env_n_ctx h else ok n
    | None => env_n_ctx h
    end in
  let? temp :=
    match temperature with
    | Some t => if truthy (PyFloat t) then ok t else env_temperature h
    | None => env_temperature h
    end in
  ok {| base_url := base; model := name; n_ctx := ctx; temperature := temp |}.

(** The body [generate] posts; [requested] is the call's own
    [temperature]. *)
Definition payload (self : Client) (prompt : string) (stream : bool)
  (requested : option spec_float) : Dict :=
  [("model", PyStr self.(model));
   ("prompt", PyStr prompt);
   ("stream", PyBool stream);
   ("options",
    PyDict [("num_ctx", PyInt self.(n_ctx));
            ("temperature",
             PyFloat match requested with
                     | Some t => t
                     | None => self.(temperature)
                     end)])].

End OllamaClient.

(** ** More sample sessions *)

Module Cases.
Import Py.

(** A decision for a tool the main flow has no node for. *)
Definition unknown_text : string :=
  "tool: search_web" ++ Str.nl ++ "reason: look it up" ++ Str.nl ++ "params: {}".

Definition unknown_decision : Dict :=
  [("tool", PyStr "search_web"); ("reason", PyStr "look it up");
   ("params", PyDict [])].

(** A plan for the file of four lines, as text, as the loader returns
    it, and as a fenced reply. *)
Definition plan_text : string :=
  "reasoning: as asked" ++ Str.nl ++ "operations:" ++ Str.nl
  ++ "  - start_line: 1" ++ Str.nl ++ "    end_line: 1" ++ Str.nl
  ++ "    replacement: first".

Definition plan_decision : PyVal :=
  PyDict [("reasoning", PyStr "as asked");
          ("operations", PyList [Samples.operation 1 1 "first"])].

Definition plan_reply : string :=
  "```yaml" ++ Str.nl ++ plan_text ++ Str.nl ++ "```".

(** The loader's table: a mapping without a known tool, a plain
    scalar, a plan. *)
Definition table : list (string * PyVal) :=
  [(unknown_text, PyDict unknown_decision);
   ("use the tool", PyStr "use the tool");
   (plan_text, plan_decision)].

Definition always_unknown : Externals :=
  Sim.externals (fun _ => unknown_text) table (true, []).

Definition always_words : Externals :=
  Sim.externals (fun _ => "use the tool") table (true, []).

Definition always_plan : Externals :=
  Sim.externals (fun _ => plan_reply) table (true, []).

(** A backend that cannot be reached. *)
Definition offline : Externals :=
  {| World := Sim.SimWorld;
     generate := fun _ w => (raise (RequestException "connection refused"), w);
     yaml_safe_load := Sim.table_load table;
     str_compound := fun v => "<" ++ type_name v ++ ">";
     read_file := Sim.sim_read_file;
     grep_search := fun _ _ _ _ _ w => ((true, []), w);
     list_dir := fun _ w => ((true, "."), w);
     insert_file := Sim.sim_insert_file;
     delete_file := Sim.sim_delete_file;
     replace_file := Sim.sim_replace_file;
     os_makedirs := fun _ w => (ok tt, w);
     os_path_exists := fun _ _ => ok false;
     os_path_isdir := fun _ _ => ok false;
     shutil_rmtree := fun _ w => (ok tt, w) |}.


Definition read_params : Dict := [("target_file", PyStr "notes.txt")].

Definition read_entry : Dict :=
  [("tool", PyStr "read_file"); ("reason", PyStr "look at the notes");
   ("params", PyDict read_params)].

Definition delete_params : Dict := [("target_file", PyStr "/etc/hosts")].

Definition delete_entry : Dict :=
  [("tool", PyStr "delete_file"); ("reason", PyStr "tidy up");
   ("params", PyDict delete_params)].

Definition insert_params : Dict :=
  [("target_file", PyStr "empty.txt"); ("content", PyStr "")].

Definition insert_entry : Dict :=
  [("tool", PyStr "insert_file"); ("reason", PyStr "start a file");
   ("params", PyDict insert_params)].

Definition edit_params : Dict :=
  [("target_file", PyStr "notes.txt");
   ("instructions", PyStr "replace the first line");
   ("code_edit", PyStr "first")].

Definition edit_entry : Dict :=
  [("tool", PyStr "edit_file"); ("reason", PyStr "fix the notes");
   ("params", PyDict edit_params)].

(** The edit entry once the file of four lines has been read. *)
Definition snapshot_entry : PyVal :=
  PyDict (dict_set "file_content"
            (PyStr (Sim.join_lines Samples.four_lines)) edit_entry).

(** A plan with two operations that start at line 2. *)
Definition tied_plan : list PyVal :=
  [Samples.operation 2 2 "a"; Samples.operation 3 3 "c";
   Samples.operation 2 3 "b"].

(** Parameters that replace the messages of a request. *)
Definition other_messages : Dict :=
  [("messages",
    PyList [PyDict [("role", PyStr "user"); ("content", PyStr "something else")]])].

Definition client : OpenRouterClient.Client :=
  {| OpenRouterClient.api_key := "key";
     OpenRouterClient.base_url := "https://openrouter.ai/api/v1";
     OpenRouterClient.model := "some/model";
     OpenRouterClient.max_tokens := 4096 |}.

End Cases.

(** * Properties *)

(** ** Strings and fences *)

Ltac decide_chars :=
  repeat match goal with
    | |- context [ascii_dec ?a ?b] =>
        destruct (ascii_dec a b); [subst|]; try reflexivity; try congruence
    | H : context [ascii_dec ?a ?b] |- _ =>
        destruct (ascii_dec a b); [subst|]; try reflexivity; try congruence
    end.

Lemma prefix_nil_true s : prefix "" s = true.
Proof. destruct s; reflexivity. Qed.

Lemma prefix_app_self s r : prefix s (s ++ r) = true.
Proof.
  induction s as [|c s IH]; simpl.
  - apply prefix_nil_true.
  - destruct (ascii_dec c c); [exact IH | congruence].
Qed.

Lemma contains_prefix_false sub s :
  Str.contains sub s = false -> prefix sub s = false.
Proof. destruct s; cbn [Str.contains]; intros H; apply orb_false_iff in H; tauto. Qed.

Lemma contains_tail_false sub c s :
  Str.contains sub (String c s) = false -> Str.contains sub s = false.
Proof. cbn [Str.contains]. intros H. apply orb_false_iff in H. tauto. Qed.

Lemma contains_of_prefix sub s :
  prefix sub s = true -> Str.contains sub s = true.
Proof. intros H. destruct s; cbn [Str.contains]; rewrite H; reflexivity. Qed.

Lemma contains_app_sep sub pre r : Str.contains sub (pre ++ sub ++ r) = true.
Proof.
  induction pre as [|c pre IH].
  - cbn [append]. apply contains_of_prefix, prefix_app_self.
  - cbn [append Str.contains]. rewrite IH. apply orb_true_r.
Qed.

(** If [sep] can only start where [sep'] starts, a text free of [sep']
    is free of [sep]. *)
Lemma contains_weaken sep sep' s :
  (forall t, prefix sep t = true -> prefix sep' t = true) ->
  Str.contains sep' s = false -> Str.contains sep s = false.
Proof.
  intros Hw. induction s as [|c s IH]; cbn [Str.contains]; intros H.
  - apply orb_false_iff in H. destruct H as [H _].
    destruct (prefix sep "") eqn:Hp; [|reflexivity].
    apply Hw in Hp. congruence.
  - apply orb_false_iff in H. destruct H as [H1 H2].
    rewrite (IH H2), orb_false_r.
    destruct (prefix sep (String c s)) eqn:Hp; [|reflexivity].
    apply Hw in Hp. congruence.
Qed.

Lemma split_from_skip sep s r :
  Str.split_from sep (String.length s) (s ++ r) = Str.split_from sep 0 r.
Proof. induction s as [|c s IH]; simpl; [reflexivity | exact IH]. Qed.

Lemma split_from_at_sep c sep r :
  Str.split_from (String c sep) 0 (String c sep ++ r)
  = ("", Str.split (String c sep) r).
Proof.
  cbn [Str.split_from append].
  change (String c (sep ++ r)) with (String c sep ++ r).
  rewrite prefix_app_self.
  cbn [String.length Nat.sub].
  replace (String.length sep - 0) with (String.length sep) by lia.
  rewrite split_from_skip. reflexivity.
Qed.


Lemma yml_fence_first pre rest :
  pre <> "" ->
  prefix "```yml" pre = false ->
  prefix "```yml" (pre ++ "```yml" ++ rest) = false.
Proof.
  intros Hne Hp.
  destruct pre as [|c1 [|c2 [|c3 [|c4 [|c5 [|c6 pre]]]]]]; try congruence;
    cbn [append prefix] in *; decide_chars.
  destruct pre; discriminate.
Qed.

(** The opening fence: the first piece is the prose before it. *)
Lemma split_at_first sep pre rest :
  sep <> "" ->
  (forall p r, p <> "" -> prefix sep p = false ->
               prefix sep (p ++ sep ++ r) = false) ->
  Str.contains sep pre = false ->
  Str.split sep (pre ++ sep ++ rest) = pre :: Str.split sep rest.
Proof.
  intros Hsep Hborder. unfold Str.split at 1.
  induction pre as [|c pre IH]; intros Hc.
  - destruct sep as [|a sep]; [congruence|].
    cbn [append]. change (String a (sep ++ rest)) with (String a sep ++ rest).
    now rewrite split_from_at_sep.
  - cbn [append Str.split_from].
    change (String c (pre ++ sep ++ rest)) with (String c pre ++ sep ++ rest).
    rewrite Hborder; [| discriminate | now apply contains_prefix_false].
    specialize (IH (contains_tail_false _ _ _ Hc)).
    destruct (Str.split_from sep 0 (pre ++ sep ++ rest)) as [h t].
    now inversion IH.
Qed.

Lemma fence_before_nl p r :
  prefix "```" p = false -> prefix "```" (p ++ Str.nl ++ r) = false.
Proof.
  intros Hp.
  destruct p as [|c1 [|c2 [|c3 p]]];
    cbn [append prefix Str.nl] in *; decide_chars; try discriminate.
  all: try (destruct p; discriminate).
Qed.

Lemma first_piece_lines sep B r :
  (forall t, prefix sep t = true -> prefix "```" t = true) ->
  Str.contains "```" B = false ->
  Str.split_from sep 0 (B ++ Str.nl ++ r)
  = (B ++ Str.nl ++ fst (Str.split_from sep 0 r), snd (Str.split_from sep 0 r)).
Proof.
  intros Hw. induction B as [|c B IH]; intros Hc.
  - cbn [append Str.nl Str.split_from].
    destruct (prefix sep _) eqn:Hp.
    + apply Hw in Hp. discriminate.
    + now destruct (Str.split_from sep 0 r).
  - cbn [append Str.split_from].
    destruct (prefix sep (String c (B ++ Str.nl ++ r))) eqn:Hp.
    + apply Hw in Hp.
      change (String c (B ++ Str.nl ++ r)) with (String c B ++ Str.nl ++ r) in Hp.
      rewrite fence_before_nl in Hp; [discriminate|].
      now apply contains_prefix_false.
    + rewrite (IH (contains_tail_false _ _ _ Hc)). reflexivity.
Qed.

Lemma append_nil_r s : s ++ "" = s.
Proof. induction s; simpl; congruence. Qed.

Lemma append_assoc a b c : (a ++ b) ++ c = a ++ b ++ c.
Proof. induction a; simpl; congruence. Qed.

Lemma rstrip_app_nl s : Str.rstrip (s ++ Str.nl) = Str.rstrip s.
Proof.
  induction s as [|c s IH].
  - reflexivity.
  - cbn [append Str.rstrip]. rewrite IH. reflexivity.
Qed.

Lemma strip_lines B : Str.strip (Str.nl ++ B ++ Str.nl) = Str.strip B.
Proof.
  unfold Str.strip. change (Str.lstrip (Str.nl ++ B ++ Str.nl))
    with (Str.lstrip (B ++ Str.nl)).
  induction B as [|c B IH].
  - reflexivity.
  - cbn [append Str.lstrip]. destruct (Str.isspace c).
    + exact IH.
    + change (String c (B ++ Str.nl)) with (String c B ++ Str.nl).
      apply rstrip_app_nl.
Qed.

Lemma yaml_starts_fence t : prefix "```yaml" t = true -> prefix "```" t = true.
Proof.
  destruct t as [|c1 [|c2 [|c3 t]]]; cbn [prefix]; decide_chars;
    try discriminate.
  intros _. destruct t; reflexivity.
Qed.

Lemma yml_starts_fence t : prefix "```yml" t = true -> prefix "```" t = true.
Proof.
  destruct t as [|c1 [|c2 [|c3 t]]]; cbn [prefix]; decide_chars;
    try discriminate.
  intros _. destruct t; reflexivity.
Qed.

(** What a tagged separator cuts off a closing fence that no backtick
    follows: nothing, or the fence and more. *)
Lemma first_piece_closing sep post :
  (forall t, prefix sep t = true -> prefix "```" t = true) ->
  prefix "`" post = false ->
  fst (Str.split_from sep 0 ("```" ++ post)) = ""
  \/ exists x, fst (Str.split_from sep 0 ("```" ++ post)) = "```" ++ x.
Proof.
  intros Hw Hpost.
  cbn [append Str.split_from].
  destruct (prefix sep _); [left; reflexivity | right].
  destruct (prefix sep (String "`" (String "`" post))) eqn:H1.
  { apply Hw in H1. destruct post as [|c post]; cbn [prefix] in *;
      decide_chars; discriminate. }
  destruct (prefix sep (String "`" post)) eqn:H2.
  { apply Hw in H2. destruct post as [|c [|c' post]]; cbn [prefix] in *;
      decide_chars; discriminate. }
  destruct (Str.split_from sep 0 post) as [h t]. cbn [fst].
  now exists h.
Qed.

(** The block a tagged fence and a closing fence enclose. *)
Lemma block_between sep B post :
  (forall t, prefix sep t = true -> prefix "```" t = true) ->
  Str.contains "```" B = false ->
  prefix "`" post = false ->
  hd "" (Str.split "```"
           (fst (Str.split_from sep 0 (Str.nl ++ B ++ Str.nl ++ "```" ++ post))))
  = Str.nl ++ B ++ Str.nl.
Proof.
  intros Hw HB Hpost.
  assert (Hnl : forall s r,
             Str.split_from s 0 (Str.nl ++ r)
             = if prefix s (Str.nl ++ r) then Str.split_from s 0 (Str.nl ++ r)
               else (Str.nl ++ fst (Str.split_from s 0 r),
                     snd (Str.split_from s 0 r))).
  { intros s r. destruct (prefix s (Str.nl ++ r)) eqn:Hp; [reflexivity|].
    cbn [Str.nl append Str.split_from] in *. rewrite Hp.
    now destruct (Str.split_from s 0 r). }
  rewrite Hnl.
  destruct (prefix sep (Str.nl ++ B ++ Str.nl ++ "```" ++ post)) eqn:Hp.
  { apply Hw in Hp. discriminate. }
  rewrite (first_piece_lines sep B _ Hw HB). cbn [fst snd].
  unfold Str.split. rewrite Hnl.
  assert (Hid : forall t, prefix "```" t = true -> prefix "```" t = true) by auto.
  destruct (first_piece_closing sep post Hw Hpost) as [-> | [x ->]].
  - replace (B ++ Str.nl ++ "") with (B ++ Str.nl ++ "" ++ "") by reflexivity.
    destruct (prefix "```" _) eqn:Hq; [discriminate|].
    replace (B ++ Str.nl ++ "" ++ "") with (B ++ Str.nl ++ "") by reflexivity.
    rewrite (first_piece_lines "```" B "" Hid HB). reflexivity.
  - destruct (prefix "```" _) eqn:Hq; [discriminate|].
    rewrite (first_piece_lines "```" B _ Hid HB). cbn [fst snd hd].
    rewrite (split_from_at_sep "`" "``" x). reflexivity.
Qed.

Lemma fenced_block_bare B :
  Str.contains "```" B = false -> fenced_block B = "".
Proof.
  intros HB. unfold fenced_block.
  rewrite (contains_weaken "```yaml" "```" B yaml_starts_fence HB).
  rewrite (contains_weaken "```yml" "```" B yml_starts_fence HB).
  now rewrite HB.
Qed.


Lemma fenced_block_yml before B after :
  Str.contains "```" B = false ->
  Str.contains "```yml" before = false ->
  prefix "`" after = false ->
  Str.contains "```yaml" (wrapped "yml" before B after) = false ->
  fenced_block (wrapped "yml" before B after) = Str.strip B.
Proof.
  intros HB Hpre Hpost Hno. unfold fenced_block. rewrite Hno. unfold wrapped.
  change ("```" ++ "yml" ++ Str.nl ++ B ++ Str.nl ++ "```" ++ after)
    with ("```yml" ++ Str.nl ++ B ++ Str.nl ++ "```" ++ after).
  rewrite contains_app_sep.
  rewrite split_at_first; [| discriminate | apply yml_fence_first | exact Hpre].
  unfold Str.split at 1.
  pose proof (block_between "```yml" B after yml_starts_fence HB Hpost) as Hb.
  destruct (Str.split_from "```yml" 0 _) as [h t]. cbn [fst] in Hb.
  rewrite Hb. apply strip_lines.
Qed.

Lemma is_empty_false s : s <> "" -> Str.is_empty s = false.
Proof. destruct s; [congruence | reflexivity]. Qed.

(** ** Re-wrapping *)

Section Rewrapping.
Context {E : Externals}.

Lemma yaml_content_bare block :
  Str.contains "```" block = false ->
  MainDecisionAgent.yaml_content block = Str.strip block.
Proof.
  intros HB. unfold MainDecisionAgent.yaml_content.
  now rewrite fenced_block_bare.
Qed.


(** The same under the [yml] tag, which the parser tries when the
    response holds no [yaml]-tagged fence. *)
Lemma rewrapping_yml_keeps_decision (block before after : string) :
  Str.contains "```" block = false ->
  Str.strip block <> "" ->
  Str.contains "```yml" before = false ->
  prefix "`" after = false ->
  Str.contains "```yaml" (wrapped "yml" before block after) = false ->
  MainDecisionAgent.parse_decision (wrapped "yml" before block after)
  = MainDecisionAgent.parse_decision block.
Proof.
  intros HB Hne Hpre Hpost Hno. unfold MainDecisionAgent.parse_decision.
  rewrite (yaml_content_bare block HB).
  unfold MainDecisionAgent.yaml_content.
  rewrite fenced_block_yml by assumption.
  now rewrite (is_empty_false _ Hne).
Qed.

End Rewrapping.

(** ** Handlers and the decision loop *)

Section Handlers.
Context {E : Externals}.
Import Py.

Lemma dict_get_set_eq k v d : dict_get k (dict_set k v d) = Some v.
Proof.
  induction d as [|[k' v'] d IH]; cbn [dict_set dict_get].
  - now rewrite String.eqb_refl.
  - destruct (String.eqb k k') eqn:Hk; cbn [dict_get]; rewrite ?Hk, ?String.eqb_refl; auto.
Qed.

Lemma dict_get_set_ne k k' v d :
  k <> k' -> dict_get k (dict_set k' v d) = dict_get k d.
Proof.
  intros Hne. induction d as [|[k0 v0] d IH]; cbn [dict_set dict_get].
  - destruct (String.eqb k k') eqn:Hk; [apply String.eqb_eq in Hk; congruence | reflexivity].
  - destruct (String.eqb k' k0) eqn:Hk0; cbn [dict_get].
    + apply String.eqb_eq in Hk0. subst k0.
      destruct (String.eqb k k') eqn:Hk; [apply String.eqb_eq in Hk; congruence | reflexivity].
    + destruct (String.eqb k k0); auto.
Qed.

Lemma last_action_last (st : State) h a :
  st.(shared).(history) = (h ++ [a])%list ->
  last_action st = Returns a st.
Proof.
  intros Hh. unfold last_action, bind, get_shared. rewrite Hh, rev_unit.
  reflexivity.
Qed.

Lemma set_last_item_last (st : State) h d k v :
  st.(shared).(history) = (h ++ [PyDict d])%list ->
  set_last_item k v st
  = Returns tt (with_shared
                  (set_history (h ++ [PyDict (dict_set k v d)])%list st.(shared)) st).
Proof.
  intros Hh. unfold set_last_item, bind, get_shared. rewrite Hh, rev_unit.
  cbn. rewrite rev_involutive. reflexivity.
Qed.

Lemma in_working_dir_ok (st : State) p fp :
  PyOps.full_path st.(shared).(working_dir) p = ok fp ->
  in_working_dir p st = Returns fp st.
Proof.
  intros H. unfold in_working_dir, bind, get_shared. rewrite H. reflexivity.
Qed.

(** Claim C9.  When the parameters of a [list_dir] action hold no
    [relative_workspace_path], the handler raises nothing: [prep] returns
    the path [.] under the working directory and the handler goes on to
    list it and to return.  The other handlers raise a missing-parameter
    fault when their own parameter is absent. *)
Theorem list_dir_defaults_to_root (st : State) h a ps :
  st.(shared).(history) = (h ++ [PyDict a])%list ->
  dict_get "params" a = Some (PyDict ps) ->
  dict_get "relative_workspace_path" ps = None ->
  let wd := st.(shared).(working_dir) in
  let path := PyStr (if Str.is_empty wd then "." else PyOps.os_path_join wd ".") in
  ListDirAction.prep st = Returns path st
  /\ (exists st',
        ListDirAction.run st = Returns PyNone st'
        /\ st'.(calls) = (st.(calls) ++ [CallListDir path])%list)
  /\ (dict_get "target_file" ps = None ->
      ReadFileAction.prep st
      = Raises (ValueError "Missing target_file parameter") st
      /\ DeleteFileAction.prep st
         = Raises (ValueError "Missing target_file parameter") st
      /\ InsertFileAction.prep st
         = Raises (ValueError "Missing target_file parameter") st
      /\ ReadTargetFileNode.prep st
         = Raises (ValueError "Missing target_file parameter") st)
  /\ (dict_get "target_dir" ps = None ->
      CreateDirectoryAction.prep st
      = Raises (ValueError "Missing target_dir parameter") st
      /\ DeleteDirectoryAction.prep st
         = Raises (ValueError "Missing target_dir parameter") st)
  /\ (dict_get "query" ps = None ->
      GrepSearchAction.prep st
      = Raises (ValueError "Missing query parameter") st).
Proof.
  intros Hh Hps Hpath wd path.
  pose proof (last_action_last st h _ Hh) as Hlast.
  assert (Hget : forall k default,
             param_get (PyDict a) k default = ok (dict_get_default k default ps)).
  { intros k default. unfold param_get. cbn [PyOps.subscript]. now rewrite Hps. }
  assert (Hmissing : forall k default,
             dict_get k ps = None -> param_get (PyDict a) k default = ok default).
  { intros k default Hk. rewrite Hget. unfold dict_get_default. now rewrite Hk. }
  assert (Hprep : ListDirAction.prep st = Returns path st).
  { unfold ListDirAction.prep, bind. rewrite Hlast, (Hmissing _ _ Hpath).
    cbn [lift ok ret PyOps.get]. unfold in_working_dir, bind, get_shared,
      PyOps.full_path.
    subst path wd. now destruct (Str.is_empty _). }
  split; [exact Hprep|split; [|split; [|split]]].
  - unfold ListDirAction.run, bind at 1. rewrite Hprep.
    unfold ListDirAction.exec, external, bind.
    destruct (list_dir path (world st)) as [[success tree] w'].
    unfold ListDirAction.post, bind.
    erewrite set_last_item_last by exact Hh.
    eexists. split; reflexivity.
  - intros Hk. repeat split.
    + unfold ReadFileAction.prep, bind. now rewrite Hlast, (Hmissing _ _ Hk).
    + unfold DeleteFileAction.prep, bind. now rewrite Hlast, (Hmissing _ _ Hk).
    + unfold InsertFileAction.prep, bind. rewrite Hlast, (Hmissing _ _ Hk).
      now rewrite Hget.
    + unfold ReadTargetFileNode.prep, bind. now rewrite Hlast, (Hmissing _ _ Hk).
  - intros Hk. split.
    + unfold CreateDirectoryAction.prep, bind.
      now rewrite Hlast, (Hmissing _ _ Hk).
    + unfold DeleteDirectoryAction.prep, bind.
      now rewrite Hlast, (Hmissing _ _ Hk).
  - intros Hk. unfold GrepSearchAction.prep, bind. rewrite Hlast.
    cbn [PyOps.subscript]. rewrite Hps. cbn [lift ok ret PyOps.contains].
    unfold dict_has. now rewrite Hk.
Qed.

(** Claim C10.  When the file to edit reads as the empty string,
    whether the read succeeded or not, the edit agent stores that
    snapshot and the planner's precondition check raises
    [ValueError("File content not found")]: the only call made is the
    read, and nothing is planned or applied. *)
Theorem empty_snapshot_is_fatal (st : State) h a ps tf fp success w' :
  st.(shared).(history) = (h ++ [PyDict a])%list ->
  dict_get "params" a = Some (PyDict ps) ->
  dict_get "target_file" ps = Some tf ->
  truthy tf = true ->
  PyOps.full_path st.(shared).(working_dir) tf = ok fp ->
  read_file fp st.(world) = (("", success), w') ->
  Flow.edit_agent_run st
  = Raises (ValueError "File content not found")
      (with_shared
         (set_history (h ++ [PyDict (dict_set "file_content" (PyStr "") a)])%list
            st.(shared))
         (after_call (CallReadFile fp) w' st)).
Proof.
  intros Hh Hps Htf Htruthy Hfp Hread.
  pose proof (last_action_last st h _ Hh) as Hlast.
  unfold Flow.edit_agent_run, bind at 1.
  unfold ReadTargetFileNode.run, bind at 1.
  assert (Hprep : ReadTargetFileNode.prep st = Returns fp st).
  { unfold ReadTargetFileNode.prep, bind. rewrite Hlast.
    unfold param_get. cbn [PyOps.subscript]. rewrite Hps.
    cbn [rbind ok PyOps.get lift ret]. unfold dict_get_default. rewrite Htf.
    rewrite Htruthy. cbn [negb]. now apply in_working_dir_ok. }
  rewrite Hprep. unfold bind at 1.
  unfold ReadTargetFileNode.exec, external. rewrite Hread.
  unfold ReadTargetFileNode.post, bind at 1.
  set (st1 := after_call (CallReadFile fp) w' st).
  assert (Hh1 : st1.(shared).(history) = (h ++ [PyDict a])%list) by exact Hh.
  rewrite (set_last_item_last st1 h a _ _ Hh1). cbn [ret].
  set (a' := dict_set "file_content" (PyStr "") a).
  set (st2 := with_shared _ st1).
  assert (Hh2 : st2.(shared).(history) = (h ++ [PyDict a'])%list) by reflexivity.
  unfold bind at 1. unfold AnalyzeAndPlanNode.run, bind at 1.
  unfold AnalyzeAndPlanNode.prep, bind at 1.
  rewrite (last_action_last st2 h _ Hh2).
  unfold bind. cbn [PyOps.get lift ok ret]. unfold dict_get_default.
  subst a'. rewrite dict_get_set_eq.
  unfold param_get. cbn [PyOps.subscript].
  rewrite dict_get_set_ne by discriminate. rewrite Hps.
  reflexivity.
Qed.


End Handlers.

(** ** The planner's validation *)

Section Planner.
Context {E : Externals}.
Import Py Plan.

Lemma validate_operation_accepts total i op :
  AnalyzeAndPlanNode.validate_operation total i op = ok tt <-> accepted total op.
Proof.
  unfold AnalyzeAndPlanNode.validate_operation, accepted. split.
  - destruct op as [| | | | |l|d]; try discriminate.
    destruct (dict_get "start_line" d) as [s|] eqn:Hs; [|discriminate].
    destruct (dict_get "end_line" d) as [e|] eqn:He; [|discriminate].
    destruct (dict_get "replacement" d) as [r|] eqn:Hr; [|discriminate].
    destruct (isinstance_int s) eqn:Is; [|discriminate].
    destruct (isinstance_int e) eqn:Ie; [|discriminate].
    destruct (isinstance_str r) eqn:Ir; [|discriminate].
    cbn [negb].
    destruct ((1 <=? int_value s)%Z && (int_value s <=? total + 1)%Z) eqn:Rs;
      [|discriminate].
    destruct ((1 <=? int_value e)%Z && (int_value e <=? total + 1)%Z) eqn:Re;
      [|discriminate].
    cbn [negb].
    destruct (int_value s >? int_value e)%Z eqn:Hse; [discriminate|].
    intros _. exists d, s, e, r.
    apply andb_true_iff in Rs, Re. repeat split; auto; lia.
  - intros (d & s & e & r & -> & Hs & He & Hr & Is & Ie & Ir & Rs & Re & Hse).
    rewrite Hs, He, Hr, Is, Ie, Ir. cbn [negb].
    replace ((1 <=? int_value s)%Z && (int_value s <=? total + 1)%Z) with true
      by (symmetry; apply andb_true_iff; lia).
    replace ((1 <=? int_value e)%Z && (int_value e <=? total + 1)%Z) with true
      by (symmetry; apply andb_true_iff; lia).
    cbn [negb].
    replace (int_value s >? int_value e)%Z with false by (symmetry; lia).
    reflexivity.
Qed.

Lemma validate_operation_fault total i op err :
  AnalyzeAndPlanNode.validate_operation total (Z.of_nat i) op = raise err ->
  exists rule msg,
    breaks total op rule /\ err = ValueError msg /\ names msg i rule.
Proof.
  unfold AnalyzeAndPlanNode.validate_operation, names.
  destruct op as [| | | | |l|d];
    try (intros H; injection H as <-; exists NotAMapping; eexists;
         split; [reflexivity | split; [reflexivity | now exists ""]]).
  destruct (dict_get "start_line" d) as [s|] eqn:Hs.
  2:{ intros H; injection H as <-. exists NoStartLine. eexists.
      split; [now exists d | split; [reflexivity | now exists ""]]. }
  destruct (dict_get "end_line" d) as [e|] eqn:He.
  2:{ intros H; injection H as <-. exists NoEndLine. eexists.
      split; [now exists d | split; [reflexivity | now exists ""]]. }
  destruct (dict_get "replacement" d) as [r|] eqn:Hr.
  2:{ intros H; injection H as <-. exists NoReplacement. eexists.
      split; [now exists d | split; [reflexivity | now exists ""]]. }
  destruct (isinstance_int s) eqn:Is; cbn [negb].
  2:{ intros H; injection H as <-. exists StartLineNotInt. eexists.
      split; [now exists d, s | split; [reflexivity | now exists ""]]. }
  destruct (isinstance_int e) eqn:Ie; cbn [negb].
  2:{ intros H; injection H as <-. exists EndLineNotInt. eexists.
      split; [now exists d, e | split; [reflexivity | now exists ""]]. }
  destruct (isinstance_str r) eqn:Ir; cbn [negb].
  2:{ intros H; injection H as <-. exists ReplacementNotStr. eexists.
      split; [now exists d, r | split; [reflexivity | now exists ""]]. }
  destruct ((1 <=? int_value s)%Z && (int_value s <=? total + 1)%Z) eqn:Rs;
    cbn [negb].
  2:{ intros H; injection H as <-. exists StartLineOutOfRange. eexists.
      split; [|split; [reflexivity | now exists (py_str s)]].
      exists d, s. repeat split; auto.
      apply andb_false_iff in Rs. lia. }
  destruct ((1 <=? int_value e)%Z && (int_value e <=? total + 1)%Z) eqn:Re;
    cbn [negb].
  2:{ intros H; injection H as <-. exists EndLineOutOfRange. eexists.
      split; [|split; [reflexivity | now exists (py_str e)]].
      exists d, e. repeat split; auto.
      apply andb_false_iff in Re. lia. }
  destruct (int_value s >? int_value e)%Z eqn:Hse; [|discriminate].
  intros H; injection H as <-. exists StartAfterEnd. eexists.
  split; [|split; [reflexivity | eexists; reflexivity]].
  exists d, s, e. repeat split; auto. lia.
Qed.

Lemma validate_from_accepts total ops k :
  (exists us, mapi_result (AnalyzeAndPlanNode.validate_operation total)
                (Z.of_nat k) ops = ok us)
  <-> Forall (accepted total) ops.
Proof.
  revert k. induction ops as [|op ops IH]; intros k; cbn [mapi_result].
  - split; [constructor | intros _; now exists []].
  - destruct (AnalyzeAndPlanNode.validate_operation total (Z.of_nat k) op)
      as [e|[]] eqn:Hop; cbn [rbind].
    + split.
      * intros [us Hus]. discriminate.
      * intros HF. inversion HF as [|? ? Hacc _]; subst.
        apply (validate_operation_accepts total (Z.of_nat k)) in Hacc.
        unfold ok in Hacc. congruence.
    + apply (validate_operation_accepts total (Z.of_nat k)) in Hop.
      replace (Z.of_nat k + 1)%Z with (Z.of_nat (S k)) by lia.
      specialize (IH (S k)).
      destruct (mapi_result _ (Z.of_nat (S k)) ops) as [e|us] eqn:Hrest;
        cbn [rbind].
      * split.
        -- intros [us Hus]. discriminate.
        -- intros HF. inversion HF; subst.
           destruct (proj2 IH) as [us Hus]; [assumption | discriminate].
      * split.
        -- intros _. constructor; [assumption|]. apply IH. now exists us.
        -- intros _. now exists (tt :: us).
Qed.

Lemma validate_from_fault total ops k err :
  mapi_result (AnalyzeAndPlanNode.validate_operation total) (Z.of_nat k) ops
  = raise err ->
  exists i op rule msg,
    nth_error ops i = Some op
    /\ Forall (accepted total) (firstn i ops)
    /\ breaks total op rule
    /\ err = ValueError msg
    /\ names msg (k + i) rule.
Proof.
  revert k. induction ops as [|op ops IH]; intros k; cbn [mapi_result].
  - discriminate.
  - destruct (AnalyzeAndPlanNode.validate_operation total (Z.of_nat k) op)
      as [e|[]] eqn:Hop; cbn [rbind].
    + intros H. injection H as <-.
      destruct (validate_operation_fault total k op e Hop)
        as (rule & msg & Hb & He & Hn).
      exists 0%nat, op, rule, msg. rewrite Nat.add_0_r.
      repeat split; auto.
    + apply (validate_operation_accepts total (Z.of_nat k)) in Hop.
      replace (Z.of_nat k + 1)%Z with (Z.of_nat (S k)) by lia.
      destruct (mapi_result _ (Z.of_nat (S k)) ops) as [e|us] eqn:Hrest;
        cbn [rbind]; [|discriminate].
      intros H. injection H as <-.
      destruct (IH (S k) Hrest) as (i & o & rule & msg & Hn & HF & Hb & He & Hm).
      exists (S i), o, rule, msg. cbn [nth_error firstn].
      replace (k + S i)%nat with (S k + i)%nat by lia.
      repeat split; auto.
Qed.

(** Claim C4.  On a file of [total_lines] lines the planner's loop over
    the operations goes through exactly when every operation is a
    mapping with [int] instances as [start_line] and [end_line] (Python
    counts the booleans among them) and a [str] as [replacement], both
    line numbers in [1 .. total_lines + 1] and the range not inverted.
    Otherwise it raises a [ValueError] whose message names the first
    offending operation by its index, counted from 1, and the rule it
    breaks.  A plan [validate] lets through holds accepted operations
    only. *)
Theorem planner_validation (total_lines : Z) (ops : list PyVal) :
  ((exists us, AnalyzeAndPlanNode.validate_operations total_lines ops = ok us)
   <-> Forall (accepted total_lines) ops)
  /\ (forall err,
        AnalyzeAndPlanNode.validate_operations total_lines ops = raise err ->
        exists i op rule msg,
          nth_error ops i = Some op
          /\ Forall (accepted total_lines) (firstn i ops)
          /\ breaks total_lines op rule
          /\ err = ValueError msg
          /\ names msg i rule)
  /\ (forall decision,
        AnalyzeAndPlanNode.validate total_lines decision = ok tt ->
        exists d plan,
          decision = PyDict d
          /\ dict_get "operations" d = Some (PyList plan)
          /\ Forall (accepted total_lines) plan).
Proof.
  split; [|split].
  - apply (validate_from_accepts total_lines ops 0).
  - intros err Herr. apply (validate_from_fault total_lines ops 0 err Herr).
  - intros decision. unfold AnalyzeAndPlanNode.validate.
    destruct decision as [| | | | |l|d]; try discriminate.
    destruct (dict_has "reasoning" d); cbn [negb]; [|discriminate].
    destruct (dict_get "operations" d) as [[| | | | |plan|]|] eqn:Hops;
      try discriminate.
    destruct plan as [|op plan]; [discriminate|].
    destruct (AnalyzeAndPlanNode.validate_operations total_lines (op :: plan))
      as [e|us] eqn:Hv; [discriminate|].
    intros _. exists d, (op :: plan). repeat split; auto.
    apply (validate_from_accepts total_lines (op :: plan) 0). now exists us.
Qed.

(** The three rejections the specification lists, on a file of three
    lines. *)
Example rejects_start_line_zero :
  AnalyzeAndPlanNode.validate_operations 3
    [PyDict [("start_line", PyInt 0); ("end_line", PyInt 1);
             ("replacement", PyStr "x")]]
  = raise (ValueError "Operation 1 'start_line' out of range: 0").
Proof. reflexivity. Qed.

Example rejects_end_line_beyond :
  AnalyzeAndPlanNode.validate_operations 3
    [PyDict [("start_line", PyInt 1); ("end_line", PyInt 1);
             ("replacement", PyStr "x")];
     PyDict [("start_line", PyInt 2); ("end_line", PyInt 5);
             ("replacement", PyStr "y")]]
  = raise (ValueError "Operation 2 'end_line' out of range: 5").
Proof. reflexivity. Qed.

Example rejects_inverted_range :
  AnalyzeAndPlanNode.validate_operations 3
    [PyDict [("start_line", PyInt 3); ("end_line", PyInt 2);
             ("replacement", PyStr "x")]]
  = raise (ValueError "Operation 1 'start_line' (3) > 'end_line' (2)").
Proof. reflexivity. Qed.
End Planner.

(** ** Sorting and line ranges *)

Section Sorting.
Import Py Plan Patch ApplyChangesNode Applier.


Lemma insert_desc_perm x l : Permutation (x :: l) (insert_desc x l).
Proof.
  induction l as [|y l IH]; cbn [insert_desc].
  - reflexivity.
  - destruct (fst x <? fst y)%Z; [|reflexivity].
    rewrite perm_swap. now apply perm_skip.
Qed.

Lemma sort_desc_perm l : Permutation l (sort_desc l).
Proof.
  induction l as [|x l IH]; cbn [sort_desc fold_right].
  - reflexivity.
  - rewrite <- insert_desc_perm. now apply perm_skip.
Qed.

Lemma insert_desc_sorted x l :
  StronglySorted key_desc l -> StronglySorted key_desc (insert_desc x l).
Proof.
  induction l as [|y l IH]; cbn [insert_desc]; intros Hs.
  - repeat constructor.
  - inversion Hs as [|? ? Hl Hy]; subst.
    destruct (fst x <? fst y)%Z eqn:Hxy.
    + constructor; [now apply IH|].
      apply (Permutation_Forall (insert_desc_perm x l)).
      constructor; [unfold key_desc; lia | assumption].
    + constructor; [assumption|].
      constructor; [unfold key_desc; lia|].
      eapply Forall_impl; [|exact Hy]. unfold key_desc. intros; lia.
Qed.

Lemma sort_desc_sorted l : StronglySorted key_desc (sort_desc l).
Proof.
  induction l as [|x l IH]; cbn [sort_desc fold_right].
  - constructor.
  - now apply insert_desc_sorted.
Qed.

Lemma map_result_keys ops keys :
  map_result sort_key ops = ok keys ->
  Forall2 (fun op k => sort_key op = ok k) ops keys.
Proof.
  revert keys. induction ops as [|op ops IH]; intros keys; cbn [map_result].
  - intros H. injection H as <-. constructor.
  - destruct (sort_key op) as [e|k] eqn:Hk; [discriminate|]. cbn [rbind].
    destruct (map_result sort_key ops) as [e|ks]; [discriminate|]. cbn [rbind].
    intros H. injection H as <-. constructor; auto.
Qed.

Lemma sort_key_start op k :
  sort_key op = ok k -> k = (edit_operation op).(start_line).
Proof.
  unfold sort_key, PyOps.subscript, edit_operation.
  destruct op as [| | | | |l|d]; try discriminate.
  unfold dict_get_default.
  destruct (dict_get "start_line" d) as [v|]; [|discriminate]. cbn [rbind ok].
  destruct (isinstance_int v); [|discriminate].
  intros H. now injection H as <-.
Qed.

Lemma accepted_sort_key total op :
  accepted total op -> sort_key op = ok (edit_operation op).(start_line).
Proof.
  intros (d & s & e & r & -> & Hs & He & Hr & Is & _).
  unfold sort_key, edit_operation, dict_get_default. cbn [PyOps.subscript].
  rewrite Hs. cbn [rbind ok start_line]. now rewrite Is.
Qed.

Lemma map_result_accepted total ops :
  Forall (accepted total) ops ->
  map_result sort_key ops
  = ok (map (fun op => (edit_operation op).(start_line)) ops).
Proof.
  induction 1 as [|op ops Hop _ IH]; cbn [map_result map].
  - reflexivity.
  - now rewrite (accepted_sort_key _ _ Hop), IH.
Qed.

Lemma combine_keys ops keys :
  Forall2 (fun op k => sort_key op = ok k) ops keys ->
  map snd (combine keys ops) = ops
  /\ Forall (fun p => fst p = (edit_operation (snd p)).(start_line))
       (combine keys ops).
Proof.
  induction 1 as [|op k ops keys Hk _ [IH1 IH2]]; cbn [combine map].
  - split; constructor.
  - split; [now rewrite IH1|]. constructor; [|assumption].
    now apply sort_key_start.
Qed.

Lemma sorted_by_keys l :
  Forall (fun p => fst p = (edit_operation (snd p)).(start_line)) l ->
  StronglySorted key_desc l ->
  StronglySorted starts_not_before (map snd l).
Proof.
  induction l as [|p l IH]; intros HF Hs; cbn [map].
  - constructor.
  - inversion HF as [|? ? Hp HFl]; inversion Hs as [|? ? Hsl Hpl]; subst.
    constructor; [now apply IH|].
    rewrite Forall_map, Forall_forall. intros q Hq.
    rewrite Forall_forall in Hpl, HFl.
    unfold starts_not_before. rewrite <- Hp, <- (HFl q Hq).
    exact (Hpl q Hq).
Qed.

(** What [sorted] gives: the same operations, by descending start
    line. *)
Lemma sorted_ops_spec ops sorted :
  sorted_ops ops = ok sorted ->
  Permutation ops sorted /\ StronglySorted starts_not_before sorted.
Proof.
  unfold sorted_ops.
  destruct (map_result sort_key ops) as [e|keys] eqn:Hkeys; [discriminate|].
  cbn [rbind]. intros H. injection H as <-.
  destruct (combine_keys ops keys (map_result_keys _ _ Hkeys)) as [Hsnd HF].
  split.
  - rewrite <- Hsnd at 1. apply Permutation_map, sort_desc_perm.
  - apply sorted_by_keys; [|apply sort_desc_sorted].
    exact (Permutation_Forall (sort_desc_perm _) HF).
Qed.
End Sorting.

Section Lines.
Import Py Plan Patch ApplyChangesNode Applier.


Lemma disjoint_sym a b : disjoint a b -> disjoint b a.
Proof. unfold disjoint. tauto. Qed.

Lemma ordpairs_perm (l l' : list PyVal) :
  Permutation l l' -> ForallOrdPairs disjoint l -> ForallOrdPairs disjoint l'.
Proof.
  induction 1 as [|x l l' Hp IH|x y l|l l' l'' _ IH1 _ IH2]; intros HF.
  - constructor.
  - inversion HF; subst. constructor; [|now apply IH].
    now apply (Permutation_Forall Hp).
  - inversion HF as [|? ? Hy Hrest]; subst.
    inversion Hrest as [|? ? Hx Hl]; subst.
    inversion Hy as [|? ? Hyx Hyl]; subst.
    constructor; [constructor; [now apply disjoint_sym | assumption]|].
    now constructor.
  - auto.
Qed.

Lemma accepted_range total op :
  accepted total op ->
  (1 <= (edit_operation op).(start_line) <= total + 1
   /\ 1 <= (edit_operation op).(end_line) <= total + 1
   /\ (edit_operation op).(start_line) <= (edit_operation op).(end_line))%Z.
Proof.
  intros (d & s & e & r & -> & Hs & He & Hr & _ & _ & _ & Rs & Re & Hse).
  unfold edit_operation, dict_get_default. rewrite Hs, He.
  cbn [start_line end_line]. lia.
Qed.

(** In descending order, disjoint operations lie one above the other. *)
Lemma sorted_disjoint_above total l :
  Forall (accepted total) l ->
  StronglySorted starts_not_before l ->
  ForallOrdPairs disjoint l ->
  StronglySorted above l.
Proof.
  induction l as [|a l IH]; intros Hacc Hs Hd.
  - constructor.
  - inversion Hacc as [|? ? Ha Hl]; inversion Hs as [|? ? Hsl Hal];
      inversion Hd as [|? ? Hda Hdl]; subst.
    constructor; [now apply IH|].
    rewrite Forall_forall in *. intros b Hb.
    specialize (Hal b Hb). specialize (Hda b Hb).
    pose proof (accepted_range _ _ Ha) as Ra.
    pose proof (accepted_range _ _ (Hl b Hb)) as Rb.
    unfold above, starts_not_before, disjoint in *. lia.
Qed.

Lemma sorted_before R (l : list PyVal) k x :
  StronglySorted R l -> nth_error l k = Some x ->
  Forall (fun a => R a x) (firstn k l).
Proof.
  revert k. induction l as [|a l IH]; intros k Hs Hn.
  - destruct k; discriminate.
  - inversion Hs as [|? ? Hsl Hal]; subst. destruct k as [|k]; cbn in *.
    + constructor.
    + constructor; [|now apply IH].
      rewrite Forall_forall in Hal. apply Hal.
      eapply nth_error_In; eauto.
Qed.

(** Operations that start below line [m] leave lines [1 .. m]
    alone. *)
Lemma apply_keeps_lines lines_of l (f : list string) (m : nat) :
  (m <= List.length f)%nat ->
  Forall (fun op => (Z.of_nat m < (edit_operation op).(start_line))%Z) l ->
  firstn m (apply_operations lines_of l f) = firstn m f.
Proof.
  revert f. induction l as [|a l IH]; intros f Hm HF.
  - reflexivity.
  - inversion HF as [|? ? Ha Hl]; subst.
    cbn [apply_operations fold_left].
    change (fold_left (apply_operation lines_of) l ?x)
      with (apply_operations lines_of l x).
    set (n := Z.to_nat ((edit_operation a).(start_line) - 1)).
    assert (Hn : (m <= n)%nat) by (subst n; lia).
    assert (Hlen : (m <= List.length (firstn n f))%nat).
    { rewrite length_firstn. lia. }
    rewrite IH; [| |assumption].
    + unfold apply_operation, replace_range. fold n.
      rewrite firstn_app.
      replace (m - List.length (firstn n f))%nat with 0%nat by lia.
      cbn [firstn]. rewrite app_nil_r, firstn_firstn.
      now replace (Nat.min m n) with m by lia.
    + unfold apply_operation, replace_range. fold n.
      rewrite length_app. lia.
Qed.

Lemma lines_stay total lines_of sorted lines :
  total = Z.of_nat (List.length lines) ->
  Forall (accepted total) sorted ->
  StronglySorted above sorted ->
  forall k op,
    nth_error sorted k = Some op ->
    lines_upto (edit_operation op).(end_line)
      (apply_operations lines_of (firstn k sorted) lines)
    = lines_upto (edit_operation op).(end_line) lines.
Proof.
  intros Htotal Hacc Hab k op Hk. unfold lines_upto.
  pose proof (sorted_before above sorted k op Hab Hk) as Hbefore.
  destruct (firstn k sorted) as [|a l] eqn:Hfirst; [reflexivity|].
  assert (Ha : accepted total a).
  { rewrite Forall_forall in Hacc. apply Hacc.
    rewrite <- (firstn_skipn k sorted). apply in_or_app. left.
    rewrite Hfirst. now left. }
  pose proof (accepted_range _ _ Ha) as Ra.
  assert (Hop : accepted total op).
  { rewrite Forall_forall in Hacc. apply Hacc. eapply nth_error_In; eauto. }
  pose proof (accepted_range _ _ Hop) as Rop.
  inversion Hbefore as [|? ? Haop _]; subst. unfold above in Haop.
  apply apply_keeps_lines; [lia|].
  eapply Forall_impl; [|exact Hbefore]. unfold above. intros; lia.
Qed.
End Lines.

(** ** The patch applier *)

Section ApplierFacts.
Context {E : Externals}.
Import Py Plan Patch ApplyChangesNode Applier.

Lemma exec_complete op (st : State) d :
  op = PyDict d ->
  dict_has "target_file" d = true -> dict_has "start_line" d = true ->
  dict_has "end_line" d = true -> dict_has "replacement" d = true ->
  ApplyChangesNode.exec op st
  = Returns
      (fst (replace_file (field "target_file" op) (field "start_line" op)
              (field "end_line" op) (field "replacement" op) st.(world)))
      (after_call (replace_call op)
         (snd (replace_file (field "target_file" op) (field "start_line" op)
                 (field "end_line" op) (field "replacement" op) st.(world)))
         st).
Proof.
  intros -> Ht Hs He Hr. unfold dict_has in *.
  unfold ApplyChangesNode.exec, bind, replace_call, field, dict_get_default.
  cbn [PyOps.subscript].
  destruct (dict_get "target_file" d); [|discriminate].
  destruct (dict_get "start_line" d); [|discriminate].
  destruct (dict_get "end_line" d); [|discriminate].
  destruct (dict_get "replacement" d); [|discriminate].
  cbn [lift ok ret]. unfold external.
  now destruct (replace_file _ _ _ _ (world st)).
Qed.

(** The batch attempts every item, in order; no outcome stops it. *)
Lemma batch_exec_all items (st : State) :
  Forall (fun op => exists d,
              op = PyDict d
              /\ dict_has "target_file" d = true
              /\ dict_has "start_line" d = true
              /\ dict_has "end_line" d = true
              /\ dict_has "replacement" d = true) items ->
  ApplyChangesNode.batch_exec items st
  = Returns (fst (outcomes items st.(world)))
      {| shared := st.(shared);
         world := snd (outcomes items st.(world));
         calls := (st.(calls) ++ map replace_call items)%list |}.
Proof.
  intros HF. revert st. induction HF as [|op items Hop _ IH]; intros st.
  - cbn [batch_exec outcomes map fst snd ret]. rewrite app_nil_r.
    now destruct st.
  - destruct Hop as (d & Hd & Ht & Hs & He & Hr).
    cbn [batch_exec outcomes map]. unfold bind at 1.
    rewrite (exec_complete op st d Hd Ht Hs He Hr).
    destruct (replace_file _ _ _ _ (world st)) as [r w1]. cbn [fst snd].
    unfold bind at 1. rewrite IH. cbn [world after_call calls shared].
    destruct (outcomes items w1) as [rs w2]. cbn [fst snd ret].
    now rewrite <- app_assoc.
Qed.

Lemma outcomes_length items (w : World) :
  List.length (fst (outcomes items w)) = List.length items.
Proof.
  revert w. induction items as [|op items IH]; intros w; cbn [outcomes].
  - reflexivity.
  - destruct (replace_file _ _ _ _ w) as [r w1].
    specialize (IH w1). destruct (outcomes items w1) as [rs w2].
    cbn [fst List.length] in *. now rewrite IH.
Qed.

Lemma attach_complete total fp op :
  accepted total op ->
  exists d,
    attach fp op = PyDict d
    /\ dict_has "target_file" d = true
    /\ dict_has "start_line" d = true
    /\ dict_has "end_line" d = true
    /\ dict_has "replacement" d = true.
Proof.
  intros (d & s & e & r & -> & Hs & He & Hr & _).
  exists (dict_set "target_file" fp d). cbn [attach]. unfold dict_has.
  rewrite dict_get_set_eq.
  rewrite !dict_get_set_ne by discriminate. now rewrite Hs, He, Hr.
Qed.

Lemma prep_sorts (st : State) ops sorted h a ps tf fp :
  st.(shared).(edit_operations) = Some (PyList ops) ->
  ops <> [] ->
  sorted_ops ops = ok sorted ->
  st.(shared).(history) = (h ++ [PyDict a])%list ->
  dict_get "params" a = Some (PyDict ps) ->
  dict_get "target_file" ps = Some tf ->
  truthy tf = true ->
  PyOps.full_path st.(shared).(working_dir) tf = ok fp ->
  ApplyChangesNode.prep st
  = Returns (map (attach fp) sorted)
      (with_shared
         (set_edit_operations (Some (PyList (map (attach fp) ops))) st.(shared))
         st).
Proof.
  intros Hops Hne Hsorted Hh Hps Htf Htruthy Hfp.
  unfold ApplyChangesNode.prep, bind, get_shared. rewrite Hops.
  destruct ops as [|op ops]; [congruence|]. cbn [truthy negb ret].
  rewrite Hsorted. cbn [lift ok ret].
  rewrite (last_action_last st h _ Hh).
  unfold param_get. cbn [PyOps.subscript]. rewrite Hps.
  cbn [rbind ok PyOps.get lift ret]. unfold dict_get_default. rewrite Htf, Htruthy.
  cbn [negb]. rewrite (in_working_dir_ok st tf fp Hfp).
  reflexivity.
Qed.

Lemma post_stores (st : State) results h a :
  st.(shared).(history) = (h ++ [PyDict a])%list ->
  ApplyChangesNode.post results st
  = Returns PyNone
      (with_shared
         (set_edit_reasoning None
            (set_edit_operations None
               (set_history
                  (h ++ [PyDict (dict_set "result"
                                   (edit_result results
                                      st.(shared).(edit_reasoning)) a)])%list
                  st.(shared))))
         st).
Proof.
  intros Hh. unfold ApplyChangesNode.post, bind, get_shared.
  rewrite (set_last_item_last st h a _ _ Hh).
  reflexivity.
Qed.

Lemma forall_accepted_perm total (l l' : list PyVal) :
  Permutation l l' -> Forall (accepted total) l -> Forall (accepted total) l'.
Proof. intros Hp. apply (Permutation_Forall Hp). Qed.

(** Claim C6.  For an edit action with a validated plan, the applier
    attempts every operation, in sorted order, whatever the outcomes of
    the ones before; the result stored in the edit action has as
    [success] the conjunction of the outcomes' flags, the operation
    count, the outcomes and the planner's reasoning; and the planning
    fields are removed from the session. *)
Theorem edit_result_aggregates (st : State) total ops h a ps tf fp :
  st.(shared).(edit_operations) = Some (PyList ops) ->
  ops <> [] ->
  Forall (accepted total) ops ->
  st.(shared).(history) = (h ++ [PyDict a])%list ->
  dict_get "params" a = Some (PyDict ps) ->
  dict_get "target_file" ps = Some tf ->
  truthy tf = true ->
  PyOps.full_path st.(shared).(working_dir) tf = ok fp ->
  exists sorted results st',
    sorted_ops ops = ok sorted
    /\ ApplyChangesNode.run st = Returns PyNone st'
    /\ results = fst (outcomes (map (attach fp) sorted) st.(world))
    /\ List.length results = List.length ops
    /\ st'.(calls)
       = (st.(calls) ++ map replace_call (map (attach fp) sorted))%list
    /\ st'.(shared).(history)
       = (h ++ [PyDict
                  (dict_set "result"
                     (PyDict
                        [("success", PyBool (forallb fst results));
                         ("operations", PyInt (Z.of_nat (List.length ops)));
                         ("details",
                          PyList
                            (map (fun r =>
                                    PyDict [("success", PyBool (fst r));
                                            ("message", PyStr (snd r))])
                               results));
                         ("reasoning",
                          match st.(shared).(edit_reasoning) with
                          | Some r => r
                          | None => PyStr ""
                          end)])
                     a)])%list
    /\ st'.(shared).(edit_operations) = None
    /\ st'.(shared).(edit_reasoning) = None.
Proof.
  intros Hops Hne Hacc Hh Hps Htf Htruthy Hfp.
  pose proof (map_result_accepted total ops Hacc) as Hkeys.
  assert (Hsorted : exists sorted, sorted_ops ops = ok sorted).
  { unfold sorted_ops. rewrite Hkeys. cbn [rbind]. eexists. reflexivity. }
  destruct Hsorted as [sorted Hsorted].
  destruct (sorted_ops_spec ops sorted Hsorted) as [Hperm _].
  pose proof (forall_accepted_perm total _ _ Hperm Hacc) as Hacc'.
  set (items := map (attach fp) sorted).
  assert (Hitems : Forall (fun op => exists d,
                              op = PyDict d
                              /\ dict_has "target_file" d = true
                              /\ dict_has "start_line" d = true
                              /\ dict_has "end_line" d = true
                              /\ dict_has "replacement" d = true) items).
  { subst items. rewrite Forall_map.
    eapply Forall_impl; [|exact Hacc']. intros op Hop.
    exact (attach_complete total fp op Hop). }
  set (st1 := with_shared
                (set_edit_operations (Some (PyList (map (attach fp) ops)))
                   st.(shared)) st).
  set (results := fst (outcomes items st.(world))).
  eexists sorted, results, _.
  split; [exact Hsorted|]. split.
  { unfold ApplyChangesNode.run, bind at 1.
    rewrite (prep_sorts st ops sorted h a ps tf fp) by assumption.
    fold st1 items. unfold bind at 1. rewrite (batch_exec_all items st1 Hitems).
    cbn [world st1 with_shared shared calls]. fold results.
    erewrite post_stores by exact Hh. reflexivity. }
  split; [reflexivity|]. split.
  { subst results. rewrite outcomes_length. subst items.
    rewrite length_map. symmetry. now apply Permutation_length. }
  split; [reflexivity|]. split; [|split; reflexivity].
  cbn [shared with_shared history set_edit_reasoning set_edit_operations
         set_history].
  unfold edit_result, result_details.
  replace (List.length results) with (List.length ops); [reflexivity|].
  subst results. rewrite outcomes_length. subst items.
  rewrite length_map. now apply Permutation_length.
Qed.

(** Claim C5, amended.  For a validated plan, [prep] hands the
    operations over sorted by descending [start_line] (a permutation of
    the plan), and the batch runs them one after the other in that
    order.  When the line ranges of the plan are pairwise disjoint, the
    lines up to the end of an operation's range are, at the time the
    operation is applied, the lines of the original file: no operation
    applied before has shifted them. *)
Theorem descending_order_keeps_lines (st : State) total ops h a ps tf fp :
  st.(shared).(edit_operations) = Some (PyList ops) ->
  ops <> [] ->
  Forall (accepted total) ops ->
  ForallOrdPairs disjoint ops ->
  st.(shared).(history) = (h ++ [PyDict a])%list ->
  dict_get "params" a = Some (PyDict ps) ->
  dict_get "target_file" ps = Some tf ->
  truthy tf = true ->
  PyOps.full_path st.(shared).(working_dir) tf = ok fp ->
  exists sorted st1 results st2,
    ApplyChangesNode.prep st = Returns (map (attach fp) sorted) st1
    /\ Permutation ops sorted
    /\ StronglySorted starts_not_before sorted
    /\ ApplyChangesNode.batch_exec (map (attach fp) sorted) st1
       = Returns results st2
    /\ st2.(calls)
       = (st.(calls) ++ map replace_call (map (attach fp) sorted))%list
    /\ forall lines_of lines k op,
         total = Z.of_nat (List.length lines) ->
         nth_error sorted k = Some op ->
         lines_upto (edit_operation op).(end_line)
           (apply_operations lines_of (firstn k sorted) lines)
         = lines_upto (edit_operation op).(end_line) lines.
Proof.
  intros Hops Hne Hacc Hdis Hh Hps Htf Htruthy Hfp.
  pose proof (map_result_accepted total ops Hacc) as Hkeys.
  assert (Hsorted : exists sorted, sorted_ops ops = ok sorted).
  { unfold sorted_ops. rewrite Hkeys. cbn [rbind]. eexists. reflexivity. }
  destruct Hsorted as [sorted Hsorted].
  destruct (sorted_ops_spec ops sorted Hsorted) as [Hperm Hdesc].
  pose proof (forall_accepted_perm total _ _ Hperm Hacc) as Hacc'.
  set (items := map (attach fp) sorted).
  assert (Hitems : Forall (fun op => exists d,
                              op = PyDict d
                              /\ dict_has "target_file" d = true
                              /\ dict_has "start_line" d = true
                              /\ dict_has "end_line" d = true
                              /\ dict_has "replacement" d = true) items).
  { subst items. rewrite Forall_map.
    eapply Forall_impl; [|exact Hacc']. intros op Hop.
    exact (attach_complete total fp op Hop). }
  eexists sorted, _, _, _.
  split; [apply (prep_sorts st ops sorted h a ps tf fp); assumption|].
  split; [exact Hperm|]. split; [exact Hdesc|].
  split; [apply (batch_exec_all items _ Hitems)|].
  split; [reflexivity|].
  intros lines_of lines k op Htotal Hk.
  apply (lines_stay total); auto.
  apply (sorted_disjoint_above total); auto.
  exact (ordpairs_perm _ _ Hperm Hdis).
Qed.

End ApplierFacts.

(** ** The iteration cap *)

Section Cap.
Import Py.

(** Past the limit [prep] hands [exec] the word [finish] in the place
    of the request, and [exec] asks the backend as on any iteration. *)
Lemma prep_past_limit {E : Externals} (st : State) count limit :
  st.(shared).(iteration_count) = Some count ->
  st.(shared).(max_iterations) = Some limit ->
  (limit < count + 1)%Z ->
  MainDecisionAgent.prep st
  = Returns ("finish", st.(shared).(history))
      (with_shared (set_iteration_count (Some (count + 1)%Z) st.(shared)) st).
Proof.
  intros Hc Hl Hlt. unfold MainDecisionAgent.prep, bind, get_shared,
    modify_shared. rewrite Hc, Hl.
  replace (count + 1 >? limit)%Z with true by (symmetry; lia).
  reflexivity.
Qed.

Lemma exec_asks_backend {E : Externals} (st : State) query history hs :
  History.format_history_summary history = ok hs ->
  exists r w',
    generate (Prompts.decision query hs) st.(world) = (r, w')
    /\ match MainDecisionAgent.exec (query, history) st with
       | Returns _ st' | Raises _ st' =>
           st' = after_call (CallLLM (Prompts.decision query hs)) w' st
       end.
Proof.
  intros Hhs. unfold MainDecisionAgent.exec, bind. rewrite Hhs.
  cbn [lift ret ok]. unfold call_llm, bind, external.
  destruct (generate _ (world st)) as [[e|response] w'].
  - exists (inl e), w'. split; reflexivity.
  - exists (inr response), w'. split; [reflexivity|].
    cbn [lift ret]. unfold try_except.
    now destruct (MainDecisionAgent.parse_decision response).
Qed.

(** So past the limit the iteration dispatches what the backend's
    response says, whatever the limit. *)
Lemma past_limit_follows_backend {E : Externals} (st : State) count limit hs
  response w' d tool :
  st.(shared).(iteration_count) = Some count ->
  st.(shared).(max_iterations) = Some limit ->
  (limit < count + 1)%Z ->
  History.format_history_summary st.(shared).(history) = ok hs ->
  generate (Prompts.decision "finish" hs) st.(world) = (ok response, w') ->
  MainDecisionAgent.parse_decision response = ok (PyDict d) ->
  dict_get "tool" d = Some tool ->
  exists st',
    MainDecisionAgent.run st = Returns tool st'
    /\ st'.(calls)
       = (st.(calls) ++ [CallLLM (Prompts.decision "finish" hs)])%list
    /\ st'.(shared).(history) = (st.(shared).(history) ++ [PyDict d])%list.
Proof.
  intros Hc Hl Hlt Hhs Hgen Hparse Htool.
  unfold MainDecisionAgent.run, bind at 1.
  rewrite (prep_past_limit st count limit Hc Hl Hlt).
  unfold bind at 1. unfold MainDecisionAgent.exec, bind at 1.
  rewrite Hhs. cbn [lift ret ok]. unfold bind at 1.
  unfold call_llm, bind, external. cbn [world with_shared].
  rewrite Hgen. cbn [lift ret ok]. unfold try_except. rewrite Hparse.
  cbn [lift ret ok]. unfold MainDecisionAgent.post, bind, modify_shared.
  cbn [PyOps.subscript]. rewrite Htool. cbn [lift ret ok].
  eexists. split; [reflexivity|]. split; reflexivity.
Qed.

(** Claim C1, at a failing input.  With a limit of three and a backend
    that proposes the search every time, the fourth iteration finds the
    counter past the limit, asks the backend all the same, with [finish]
    in the place of the request, and dispatches the search; the run is
    still going after six iterations. *)
Lemma cap_does_not_force_finish :
  let E := Sim.always_grep (true, []) in
  let st0 := initial_state Samples.fresh (Sim.world []) in
  exists st3 st4 hs,
    Flow.run_flow_with_limit 3 6 st0 = Returns (Flow.Running Flow.main_agent) st3
    /\ st3.(shared).(iteration_count) = Some 3%Z
    /\ st3.(shared).(max_iterations) = Some 3%Z
    /\ History.format_history_summary st3.(shared).(history) = ok hs
    /\ MainDecisionAgent.run st3 = Returns (PyStr "grep_search") st4
    /\ st4.(shared).(iteration_count) = Some 4%Z
    /\ st4.(calls) = (st3.(calls) ++ [CallLLM (Prompts.decision "finish" hs)])%list
    /\ Flow.get_next_node Flow.main_agent (PyStr "grep_search")
       = ok (Some Flow.grep_action)
    /\ exists st, Flow.run_flow_with_limit 3 12 st0
                  = Returns (Flow.Running Flow.main_agent) st
                  /\ st.(shared).(iteration_count) = Some 6%Z.
Proof.
  intros E st0.
  eexists. eexists. eexists.
  split; [vm_compute; reflexivity|].
  split; [reflexivity|]. split; [reflexivity|].
  split; [vm_compute; reflexivity|].
  split; [vm_compute; reflexivity|].
  split; [reflexivity|]. split; [vm_compute; reflexivity|].
  split; [reflexivity|].
  eexists. split; [vm_compute; reflexivity | reflexivity].
Qed.
End Cap.

(** ** The search handler *)

Section Search.
Import Py.

(** Whatever the search returns, [post] files the flag under
    [matches] and the list under [success]. *)
Lemma grep_post_stores {E : Externals} (st : State) flag found h a :
  st.(shared).(history) = (h ++ [PyDict a])%list ->
  GrepSearchAction.post (flag, found) st
  = Returns PyNone
      (with_shared
         (set_history
            (h ++ [PyDict (dict_set "result"
                             (PyDict [("success", PyList found);
                                      ("matches", PyBool flag)]) a)])%list
            st.(shared))
         st).
Proof.
  intros Hh. unfold GrepSearchAction.post, bind.
  now rewrite (set_last_item_last st h a _ _ Hh).
Qed.

(** Claim C2, at a failing input.  A search that succeeds with one
    match: the entry's [success] holds the list of matches and its
    [matches] holds the flag, and the history summary of the next
    iteration fails on it. *)
Lemma grep_result_swapped :
  let E := Sim.always_grep (true, [Sim.one_match]) in
  let st := initial_state (Samples.serving Sim.grep_decision) (Sim.world []) in
  exists st' entry result,
    grep_search (PyStr "x") (PyBool false) PyNone PyNone "proj" st.(world)
    = ((true, [Sim.one_match]), st.(world))
    /\ GrepSearchAction.run st = Returns PyNone st'
    /\ st'.(shared).(history) = [PyDict entry]
    /\ dict_get "result" entry = Some (PyDict result)
    /\ dict_get "success" result = Some (PyList [Sim.one_match])
    /\ dict_get "matches" result = Some (PyBool true)
    /\ History.format_history_summary st'.(shared).(history)
       = raise (TypeError "object of type 'bool' has no len()").
Proof.
  intros E st. eexists. eexists. eexists.
  split; [reflexivity|].
  split; [vm_compute; reflexivity|].
  split; [reflexivity|]. split; [reflexivity|].
  split; [reflexivity|]. split; reflexivity.
Qed.
End Search.

(** ** Overlapping ranges *)

Section Overlap.
Import Py Patch.

(** Claim C5, as stated, fails on a validated plan whose ranges overlap:
    replacing line 2 by three lines moves the third line of the file
    to the fifth place before the operation on lines 1 to 3 runs. *)
Lemma overlapping_plan_shifts_lines :
  let E := Sim.always_finish in
  let sorted := [Samples.operation 2 2 ("A" ++ Str.nl ++ "B" ++ Str.nl ++ "C");
                 Samples.operation 1 3 "Z"] in
  (exists us,
      AnalyzeAndPlanNode.validate_operations 4 Samples.overlapping_plan = ok us)
  /\ ApplyChangesNode.sorted_ops Samples.overlapping_plan = ok sorted
  /\ apply_operations (Str.split Str.nl) (firstn 1 sorted) Samples.four_lines
     = ["L1"; "A"; "B"; "C"; "L3"; "L4"]
  /\ ~ (forall k op,
          nth_error sorted k = Some op ->
          lines_upto (edit_operation op).(end_line)
            (apply_operations (Str.split Str.nl) (firstn k sorted)
               Samples.four_lines)
          = lines_upto (edit_operation op).(end_line) Samples.four_lines).
Proof.
  intros E sorted. split; [eexists; reflexivity|].
  split; [reflexivity|]. split; [reflexivity|].
  intros H. specialize (H 1%nat _ eq_refl). vm_compute in H. discriminate.
Qed.
End Overlap.

(** ** The theorems at sample sessions *)

Section Witnesses.
Import Py.




Lemma list_dir_defaults_to_root_witness :
  let E := Sim.always_finish in
  let st := initial_state (Samples.serving Samples.list_action) (Sim.world []) in
  dict_get "relative_workspace_path" [] = None
  /\ ListDirAction.prep st = Returns (PyStr "proj/.") st
  /\ ReadFileAction.prep st
     = Raises (ValueError "Missing target_file parameter") st.
Proof.
  intros E st. split; [reflexivity|].
  destruct (list_dir_defaults_to_root (E := E) st []
              [("tool", PyStr "list_dir"); ("reason", PyStr "look around");
               ("params", PyDict [])] [] eq_refl eq_refl eq_refl)
    as (Hprep & _ & Hfile & _).
  split; [exact Hprep|]. exact (proj1 (Hfile eq_refl)).
Defined.

Lemma empty_snapshot_is_fatal_witness :
  let E := Sim.always_finish in
  let st := initial_state (Samples.serving Samples.edit_action)
              Samples.empty_notes_world in
  read_file (PyStr "proj/notes.txt") st.(world)
  = (("", true), Samples.empty_notes_world)
  /\ exists st',
       Flow.edit_agent_run st
       = Raises (ValueError "File content not found") st'
       /\ st'.(calls) = [CallReadFile (PyStr "proj/notes.txt")].
Proof.
  intros E st. split; [reflexivity|].
  eexists. split.
  - apply (empty_snapshot_is_fatal (E := E) st []
             [("tool", PyStr "edit_file"); ("reason", PyStr "fix the notes");
              ("params",
               PyDict [("target_file", PyStr "notes.txt");
                       ("instructions", PyStr "replace the first line");
                       ("code_edit", PyStr "first")])]
             [("target_file", PyStr "notes.txt");
              ("instructions", PyStr "replace the first line");
              ("code_edit", PyStr "first")]
             (PyStr "notes.txt") (PyStr "proj/notes.txt") true
             Samples.empty_notes_world); reflexivity.
  - reflexivity.
Defined.

Lemma apart_plan_accepted :
  Forall (Plan.accepted 4) Samples.apart_plan.
Proof.
  repeat constructor; unfold Plan.accepted, Samples.operation;
    do 4 eexists; repeat split; try reflexivity; cbn; lia.
Defined.

Lemma apart_plan_disjoint : ForallOrdPairs Patch.disjoint Samples.apart_plan.
Proof.
  constructor; [|constructor; [constructor | constructor]].
  constructor; [|constructor]. left. reflexivity.
Defined.

Lemma edit_result_aggregates_witness :
  let E := Sim.always_finish in
  let st := initial_state (Samples.planned Samples.apart_plan)
              Samples.notes_world in
  Forall (Plan.accepted 4) Samples.apart_plan
  /\ exists sorted (results : list (bool * string)) st',
       ApplyChangesNode.sorted_ops Samples.apart_plan = ok sorted
       /\ ApplyChangesNode.run st = Returns PyNone st'
       /\ List.length results = 2%nat
       /\ st'.(shared).(edit_operations) = None
       /\ st'.(shared).(edit_reasoning) = None.
Proof.
  intros E st. split; [exact apart_plan_accepted|].
  destruct (edit_result_aggregates (E := E) st 4 Samples.apart_plan []
              [("tool", PyStr "edit_file"); ("reason", PyStr "fix the notes");
               ("params",
                PyDict [("target_file", PyStr "notes.txt");
                        ("instructions", PyStr "replace the first line");
                        ("code_edit", PyStr "first")])]
              [("target_file", PyStr "notes.txt");
               ("instructions", PyStr "replace the first line");
               ("code_edit", PyStr "first")]
              (PyStr "notes.txt") (PyStr "proj/notes.txt")
              eq_refl ltac:(discriminate) apart_plan_accepted
              eq_refl eq_refl eq_refl eq_refl eq_refl)
    as (sorted & results & st' & Hs & Hrun & _ & Hlen & _ & _ & Hops & Hreason).
  exists sorted, results, st'. repeat split; assumption.
Defined.

Lemma descending_order_keeps_lines_witness :
  let E := Sim.always_finish in
  let st := initial_state (Samples.planned Samples.apart_plan)
              Samples.notes_world in
  Forall (Plan.accepted 4) Samples.apart_plan
  /\ ForallOrdPairs Patch.disjoint Samples.apart_plan
  /\ exists sorted,
       Permutation Samples.apart_plan sorted
       /\ StronglySorted Patch.starts_not_before sorted
       /\ forall k op,
            nth_error sorted k = Some op ->
            Patch.lines_upto (Patch.edit_operation op).(Patch.end_line)
              (Patch.apply_operations (Str.split Str.nl) (firstn k sorted)
                 Samples.four_lines)
            = Patch.lines_upto (Patch.edit_operation op).(Patch.end_line)
                Samples.four_lines.
Proof.
  intros E st. split; [exact apart_plan_accepted|].
  split; [exact apart_plan_disjoint|].
  destruct (descending_order_keeps_lines (E := E) st 4 Samples.apart_plan []
              [("tool", PyStr "edit_file"); ("reason", PyStr "fix the notes");
               ("params",
                PyDict [("target_file", PyStr "notes.txt");
                        ("instructions", PyStr "replace the first line");
                        ("code_edit", PyStr "first")])]
              [("target_file", PyStr "notes.txt");
               ("instructions", PyStr "replace the first line");
               ("code_edit", PyStr "first")]
              (PyStr "notes.txt") (PyStr "proj/notes.txt")
              eq_refl ltac:(discriminate) apart_plan_accepted
              apart_plan_disjoint eq_refl eq_refl eq_refl eq_refl eq_refl)
    as (sorted & st1 & results & st2 & _ & Hperm & Hdesc & _ & _ & Hlines).
  exists sorted. split; [exact Hperm|]. split; [exact Hdesc|].
  intros k op Hk. apply Hlines; [reflexivity | exact Hk].
Defined.
End Witnesses.

(** ** Invariants of the steps *)

Section Establish.
Context {E : Externals}.
Variable R : State -> State -> Prop.
Hypothesis R_refl : forall st, R st st.
Hypothesis R_trans : forall a b c, R a b -> R b c -> R a c.

Lemma establishes_ret {A} (a : A) : establishes R (ret a).
Proof. intros st. apply R_refl. Qed.

Lemma establishes_throw {A} e : establishes R (throw (A := A) e).
Proof. intros st. apply R_refl. Qed.

Lemma establishes_lift {A} (r : Result A) : establishes R (lift r).
Proof. destruct r; [apply establishes_throw | apply establishes_ret]. Qed.

Lemma establishes_get_shared : establishes R get_shared.
Proof. intros st. apply R_refl. Qed.

Lemma establishes_observe {A} (f : World -> A) : establishes R (observe f).
Proof. intros st. apply R_refl. Qed.

Lemma establishes_bind {A B} (m : Run A) (k : A -> Run B) :
  establishes R m -> (forall a, establishes R (k a)) -> establishes R (bind m k).
Proof.
  intros Hm Hk st. unfold bind. specialize (Hm st).
  destruct (m st) as [a st1|e st1]; [|exact Hm].
  specialize (Hk a st1). destruct (k a st1); eapply R_trans; eauto.
Qed.

Lemma establishes_try {A} (m : Run A) (h : PyExc -> Run A) :
  establishes R m -> (forall e, establishes R (h e)) ->
  establishes R (try_except m h).
Proof.
  intros Hm Hh st. unfold try_except. specialize (Hm st).
  destruct (m st) as [a st1|e st1]; [exact Hm|].
  specialize (Hh e st1). destruct (h e st1); eapply R_trans; eauto.
Qed.

Lemma establishes_modify (f : Shared -> Shared) :
  (forall st, R st (with_shared (f st.(shared)) st)) ->
  establishes R (modify_shared f).
Proof. intros H st. apply H. Qed.

Lemma establishes_external {A} ev (f : World -> A * World) :
  (forall st w, R st (after_call ev w st)) -> establishes R (external ev f).
Proof.
  intros H st. unfold external. destruct (f (world st)) as [a w]. apply H.
Qed.

Lemma establishes_last_action : establishes R last_action.
Proof.
  unfold last_action. apply establishes_bind; [apply establishes_get_shared|].
  intros sh. destruct (rev (history sh));
    [apply establishes_throw | apply establishes_ret].
Qed.

Lemma establishes_in_working_dir p : establishes R (in_working_dir p).
Proof.
  unfold in_working_dir. apply establishes_bind;
    [apply establishes_get_shared | intros; apply establishes_lift].
Qed.
End Establish.

Ltac establish refl trans side :=
  repeat first
    [ side
    | apply (establishes_ret _ refl)
    | apply (establishes_throw _ refl)
    | apply (establishes_lift _ refl)
    | apply (establishes_get_shared _ refl)
    | apply (establishes_observe _ refl)
    | apply (establishes_last_action _ refl trans)
    | apply (establishes_in_working_dir _ refl trans)
    | apply (establishes_bind _ trans); [ | intros ? ]
    | apply (establishes_try _ trans); [ | intros ? ]
    | apply establishes_modify; side
    | apply establishes_external; side
    | match goal with
      | |- establishes _ (match ?x with _ => _ end) => destruct x
      end ].

Section HistoryGrows.
Context {E : Externals}.
Import Py Keeps.

Lemma firstn_removelast {A} (l : list A) :
  firstn (List.length l - 1) l = removelast l.
Proof.
  induction l as [|x [|y l] IH]; try reflexivity.
  cbn [List.length removelast] in *.
  replace (S (S (List.length l)) - 1)%nat with (S (S (List.length l) - 1)) by lia.
  cbn [firstn]. now rewrite IH.
Qed.

Lemma history_grows_refl (st : State) : history_grows st st.
Proof. split; [lia | apply firstn_removelast]. Qed.

Lemma history_grows_trans (a b c : State) :
  history_grows a b -> history_grows b c -> history_grows a c.
Proof.
  unfold history_grows. intros [Hab1 Hab2] [Hbc1 Hbc2]. split; [lia|].
  rewrite <- Hab2. rewrite <- firstn_removelast in Hbc2.
  set (n := (List.length (history (shared a)) - 1)%nat) in *.
  set (m := (List.length (history (shared b)) - 1)%nat) in *.
  assert (Hnm : (n <= m)%nat) by lia.
  replace n with (Nat.min n m) by lia.
  rewrite <- !firstn_firstn. now rewrite Hbc2.
Qed.

Lemma history_grows_same (st st' : State) :
  st'.(shared).(history) = st.(shared).(history) -> history_grows st st'.
Proof.
  intros H. unfold history_grows. rewrite H. apply history_grows_refl.
Qed.

Lemma history_grows_append (st st' : State) x :
  st'.(shared).(history) = (st.(shared).(history) ++ [x])%list ->
  history_grows st st'.
Proof.
  intros H. unfold history_grows. rewrite H, length_app. cbn [List.length].
  split; [lia|]. rewrite firstn_app.
  replace (List.length (history (shared st)) - 1
           - List.length (history (shared st)))%nat with 0%nat by lia.
  cbn [firstn]. rewrite app_nil_r. apply firstn_removelast.
Qed.

Lemma history_grows_replace_last (st st' : State) before x y :
  st.(shared).(history) = (before ++ [x])%list ->
  st'.(shared).(history) = (before ++ [y])%list ->
  history_grows st st'.
Proof.
  intros H H'. unfold history_grows. rewrite H, H', !length_app.
  cbn [List.length]. split; [lia|].
  rewrite removelast_last, firstn_app.
  replace (List.length before + 1 - 1 - List.length before)%nat with 0%nat by lia.
  replace (List.length before + 1 - 1)%nat with (List.length before) by lia.
  cbn [firstn]. now rewrite firstn_all, app_nil_r.
Qed.

Lemma set_last_item_grows key value :
  establishes history_grows (set_last_item key value).
Proof.
  intros st. unfold set_last_item, bind, get_shared.
  destruct (rev (history (shared st))) as [|a before] eqn:Hrev.
  - apply history_grows_refl.
  - assert (Hh : history (shared st) = (rev before ++ [a])%list).
    { rewrite <- (rev_involutive (history (shared st))), Hrev. reflexivity. }
    destruct (PyOps.set_item a key value) as [e|a']; cbn [lift throw ret].
    + apply history_grows_refl.
    + unfold modify_shared. eapply history_grows_replace_last; [exact Hh|].
      reflexivity.
Qed.

Ltac grows_side :=
  first
    [ apply set_last_item_grows
    | solve [intros; apply history_grows_same; reflexivity]
    | solve [intros; eapply history_grows_append; reflexivity] ].

Ltac grows := establish history_grows_refl history_grows_trans grows_side.

Lemma main_agent_grows : establishes history_grows MainDecisionAgent.run.
Proof.
  unfold MainDecisionAgent.run, MainDecisionAgent.prep, MainDecisionAgent.exec,
    MainDecisionAgent.post, call_llm. grows.
Qed.

Lemma batch_exec_grows items :
  establishes history_grows (ApplyChangesNode.batch_exec items).
Proof.
  induction items as [|op items IH]; cbn [ApplyChangesNode.batch_exec].
  - grows.
  - unfold ApplyChangesNode.exec. grows. exact IH.
Qed.

Lemma run_node_grows n : establishes history_grows (Flow.run_node n).
Proof.
  destruct n; cbn [Flow.run_node].
  - apply main_agent_grows.
  - unfold ReadFileAction.run, ReadFileAction.prep, ReadFileAction.exec,
      ReadFileAction.post. grows.
  - unfold GrepSearchAction.run, GrepSearchAction.prep, GrepSearchAction.exec,
      GrepSearchAction.post. grows.
  - unfold ListDirAction.run, ListDirAction.prep, ListDirAction.exec,
      ListDirAction.post. grows.
  - unfold DeleteFileAction.run, DeleteFileAction.prep, DeleteFileAction.exec,
      DeleteFileAction.post. grows.
  - unfold InsertFileAction.run, InsertFileAction.prep, InsertFileAction.exec,
      InsertFileAction.post. grows.
  - unfold Flow.edit_agent_run, ReadTargetFileNode.run, ReadTargetFileNode.prep,
      ReadTargetFileNode.exec, ReadTargetFileNode.post,
      AnalyzeAndPlanNode.run, AnalyzeAndPlanNode.prep, AnalyzeAndPlanNode.exec,
      AnalyzeAndPlanNode.post, ApplyChangesNode.run, ApplyChangesNode.prep,
      ApplyChangesNode.post, call_llm. grows.
    all: apply batch_exec_grows.
  - unfold FormatResponseNode.run, FormatResponseNode.prep,
      FormatResponseNode.exec, FormatResponseNode.post, call_llm. grows.
  - unfold CreateDirectoryAction.run, CreateDirectoryAction.prep,
      CreateDirectoryAction.exec, CreateDirectoryAction.post. grows.
  - unfold DeleteDirectoryAction.run, DeleteDirectoryAction.prep,
      DeleteDirectoryAction.exec, DeleteDirectoryAction.post. grows.
Qed.
End HistoryGrows.

Section FlowInvariants.
Context {E : Externals}.
Import Py Keeps.

Lemma orch_establishes (R : State -> State -> Prop) :
  (forall st, R st st) ->
  (forall a b c, R a b -> R b c -> R a c) ->
  (forall n, establishes R (Flow.run_node n)) ->
  forall fuel n, establishes R (Flow.orch fuel n).
Proof.
  intros refl trans Hnode fuel.
  induction fuel as [|fuel IH]; intros n; cbn [Flow.orch].
  - apply (establishes_ret _ refl).
  - apply (establishes_bind _ trans); [apply Hnode | intros action].
    apply (establishes_bind _ trans); [apply (establishes_lift _ refl)|].
    intros [next|]; [apply IH | apply (establishes_ret _ refl)].
Qed.

(** Property X1.  Through any number of steps of the main flow, from any node,
    whether the run ends, raises or is still going: the history is no
    shorter than before and all its entries but the one that was the
    newest are as they were. *)
Theorem flow_history_grows fuel n (st : State) :
  match Flow.orch fuel n st with
  | Returns _ st' | Raises _ st' =>
      (List.length st.(shared).(history)
       <= List.length st'.(shared).(history))%nat
      /\ firstn (List.length st.(shared).(history) - 1) st'.(shared).(history)
         = removelast st.(shared).(history)
  end.
Proof.
  pose proof (orch_establishes history_grows history_grows_refl
                history_grows_trans run_node_grows fuel n st) as H.
  destruct (Flow.orch fuel n st); exact H.
Qed.

Lemma same_session_refl (st : State) : same_session st st.
Proof. repeat split. Qed.

Lemma same_session_trans (a b c : State) :
  same_session a b -> same_session b c -> same_session a c.
Proof.
  unfold same_session. intros (H1 & H2 & H3) (H4 & H5 & H6).
  repeat split; congruence.
Qed.

Lemma set_last_item_same_session key value :
  establishes same_session (set_last_item key value).
Proof.
  intros st. unfold set_last_item, bind, get_shared.
  destruct (rev (history (shared st))) as [|a before];
    [apply same_session_refl|].
  destruct (PyOps.set_item a key value); cbn [lift throw ret];
    [apply same_session_refl | repeat split].
Qed.

Ltac session_side :=
  first [ apply set_last_item_same_session
        | solve [intros; repeat split] ].

Ltac session := establish same_session_refl same_session_trans session_side.

Lemma batch_exec_same_session items :
  establishes same_session (ApplyChangesNode.batch_exec items).
Proof.
  induction items as [|op items IH]; cbn [ApplyChangesNode.batch_exec].
  - session.
  - unfold ApplyChangesNode.exec. session. exact IH.
Qed.

Lemma run_node_same_session n : establishes same_session (Flow.run_node n).
Proof.
  destruct n; cbn [Flow.run_node].
  - unfold MainDecisionAgent.run, MainDecisionAgent.prep,
      MainDecisionAgent.exec, MainDecisionAgent.post, call_llm. session.
  - unfold ReadFileAction.run, ReadFileAction.prep, ReadFileAction.exec,
      ReadFileAction.post. session.
  - unfold GrepSearchAction.run, GrepSearchAction.prep, GrepSearchAction.exec,
      GrepSearchAction.post. session.
  - unfold ListDirAction.run, ListDirAction.prep, ListDirAction.exec,
      ListDirAction.post. session.
  - unfold DeleteFileAction.run, DeleteFileAction.prep, DeleteFileAction.exec,
      DeleteFileAction.post. session.
  - unfold InsertFileAction.run, InsertFileAction.prep, InsertFileAction.exec,
      InsertFileAction.post. session.
  - unfold Flow.edit_agent_run, ReadTargetFileNode.run, ReadTargetFileNode.prep,
      ReadTargetFileNode.exec, ReadTargetFileNode.post,
      AnalyzeAndPlanNode.run, AnalyzeAndPlanNode.prep, AnalyzeAndPlanNode.exec,
      AnalyzeAndPlanNode.post, ApplyChangesNode.run, ApplyChangesNode.prep,
      ApplyChangesNode.post, call_llm. session.
    all: apply batch_exec_same_session.
  - unfold FormatResponseNode.run, FormatResponseNode.prep,
      FormatResponseNode.exec, FormatResponseNode.post, call_llm. session.
  - unfold CreateDirectoryAction.run, CreateDirectoryAction.prep,
      CreateDirectoryAction.exec, CreateDirectoryAction.post. session.
  - unfold DeleteDirectoryAction.run, DeleteDirectoryAction.prep,
      DeleteDirectoryAction.exec, DeleteDirectoryAction.post. session.
Qed.

(** Property X2.  Through any number of steps of the main flow the request, the
    working directory and the iteration limit are the ones the run
    started with. *)
Theorem flow_keeps_session fuel n (st : State) :
  match Flow.orch fuel n st with
  | Returns _ st' | Raises _ st' =>
      st'.(shared).(user_query) = st.(shared).(user_query)
      /\ st'.(shared).(working_dir) = st.(shared).(working_dir)
      /\ st'.(shared).(max_iterations) = st.(shared).(max_iterations)
  end.
Proof.
  pose proof (orch_establishes same_session same_session_refl
                same_session_trans run_node_same_session fuel n st) as H.
  destruct (Flow.orch fuel n st); exact H.
Qed.

Lemma calls_only_refl allowed (st : State) : calls_only allowed st st.
Proof. exists []. now rewrite app_nil_r. Qed.

Lemma calls_only_same allowed (st st' : State) :
  st'.(calls) = st.(calls) -> calls_only allowed st st'.
Proof. intros H. exists []. now rewrite app_nil_r. Qed.

Lemma calls_only_trans allowed (a b c : State) :
  calls_only allowed a b -> calls_only allowed b c -> calls_only allowed a c.
Proof.
  intros (m1 & H1 & A1) (m2 & H2 & A2). exists (m1 ++ m2)%list.
  rewrite H2, H1, app_assoc, forallb_app, A1, A2. now split.
Qed.

Lemma calls_only_call allowed ev (st : State) w :
  allowed ev = true -> calls_only allowed st (after_call ev w st).
Proof. intros H. exists [ev]. cbn. now rewrite H. Qed.

Lemma set_last_item_calls allowed key value :
  establishes (calls_only allowed) (set_last_item key value).
Proof.
  intros st. unfold set_last_item, bind, get_shared.
  destruct (rev (history (shared st))) as [|a before];
    [apply calls_only_refl|].
  destruct (PyOps.set_item a key value); cbn [lift throw ret];
    now apply calls_only_same.
Qed.

Ltac calls_side :=
  first [ apply set_last_item_calls
        | solve [intros; apply calls_only_same; reflexivity]
        | solve [intros; apply calls_only_call; reflexivity] ].

Ltac calls allowed :=
  establish (calls_only_refl allowed) (calls_only_trans allowed) calls_side.

(** Property X3.  Deciding and summarising call the generation backend and nothing
    else; the handlers of [read_file], [grep_search] and [list_dir]
    make no call that changes a file or a directory, and neither do
    the first two stages of the edit agent: until the planner has
    returned, nothing is replaced.  This holds when they return and
    when they raise. *)
Theorem reading_nodes_change_nothing :
  establishes (calls_only is_llm_call) MainDecisionAgent.run
  /\ establishes (calls_only is_llm_call) FormatResponseNode.run
  /\ establishes (calls_only reads_only) ReadFileAction.run
  /\ establishes (calls_only reads_only) GrepSearchAction.run
  /\ establishes (calls_only reads_only) ListDirAction.run
  /\ establishes (calls_only reads_only)
       (ReadTargetFileNode.run ;; AnalyzeAndPlanNode.run).
Proof.
  split; [|split; [|split; [|split; [|split]]]].
  - unfold MainDecisionAgent.run, MainDecisionAgent.prep,
      MainDecisionAgent.exec, MainDecisionAgent.post, call_llm.
    calls is_llm_call.
  - unfold FormatResponseNode.run, FormatResponseNode.prep,
      FormatResponseNode.exec, FormatResponseNode.post, call_llm.
    calls is_llm_call.
  - unfold ReadFileAction.run, ReadFileAction.prep, ReadFileAction.exec,
      ReadFileAction.post. calls reads_only.
  - unfold GrepSearchAction.run, GrepSearchAction.prep, GrepSearchAction.exec,
      GrepSearchAction.post. calls reads_only.
  - unfold ListDirAction.run, ListDirAction.prep, ListDirAction.exec,
      ListDirAction.post. calls reads_only.
  - unfold ReadTargetFileNode.run, ReadTargetFileNode.prep,
      ReadTargetFileNode.exec, ReadTargetFileNode.post,
      AnalyzeAndPlanNode.run, AnalyzeAndPlanNode.prep, AnalyzeAndPlanNode.exec,
      AnalyzeAndPlanNode.post, call_llm. calls reads_only.
Qed.
End FlowInvariants.

(** ** Decisions and their dispatch *)

Section Decisions.
Context {E : Externals}.
Import Py.

Lemma bind_returns {A B} (m : Run A) (k : A -> Run B) (st : State) b st' :
  bind m k st = Returns b st' ->
  exists a st1, m st = Returns a st1 /\ k a st1 = Returns b st'.
Proof.
  unfold bind. destruct (m st) as [a st1|e st1]; [|discriminate].
  intros H. now exists a, st1.
Qed.


(** What the decision step does once the backend has answered with a
    text the loader turns into a mapping with a [tool] key. *)
Lemma main_run_decides (st st0 : State) query hs response w' d tool :
  MainDecisionAgent.prep st = Returns (query, st.(shared).(history)) st0 ->
  st0.(shared).(history) = st.(shared).(history) ->
  History.format_history_summary st.(shared).(history) = ok hs ->
  generate (Prompts.decision query hs) st0.(world) = (ok response, w') ->
  MainDecisionAgent.parse_decision response = ok (PyDict d) ->
  dict_get "tool" d = Some tool ->
  MainDecisionAgent.run st
  = Returns tool
      (with_shared
         (set_history (st.(shared).(history) ++ [PyDict d])%list st0.(shared))
         (after_call (CallLLM (Prompts.decision query hs)) w' st0)).
Proof.
  intros Hprep Hh Hhs Hgen Hparse Htool.
  unfold MainDecisionAgent.run, bind at 1. rewrite Hprep.
  unfold bind at 1. unfold MainDecisionAgent.exec, bind at 1.
  rewrite Hhs. cbn [lift ret ok]. unfold bind at 1.
  unfold call_llm, bind, external. rewrite Hgen. cbn [lift ret ok].
  unfold try_except. rewrite Hparse. cbn [lift ret ok].
  unfold MainDecisionAgent.post, bind, modify_shared.
  cbn [PyOps.subscript]. rewrite Htool. cbn [lift ret ok].
  cbn [shared after_call]. now rewrite Hh.
Qed.

Lemma prep_returns (st : State) :
  exists query,
    MainDecisionAgent.prep st
    = Returns (query, st.(shared).(history))
        (with_shared
           (set_iteration_count
              (Some (match st.(shared).(iteration_count) with
                     | Some n => n
                     | None => 0
                     end + 1)%Z)
              st.(shared))
           st).
Proof.
  unfold MainDecisionAgent.prep, bind, get_shared, modify_shared.
  destruct (_ >? _)%Z; eexists; reflexivity.
Qed.

Lemma parse_accepts_mapping response d :
  yaml_safe_load (MainDecisionAgent.yaml_content response) = ok (PyDict d) ->
  dict_has "tool" d = true ->
  MainDecisionAgent.parse_decision response = ok (PyDict d).
Proof.
  intros Hload Htool. unfold MainDecisionAgent.parse_decision.
  rewrite Hload. cbn [rbind ok]. destruct d as [|kv d]; [discriminate|].
  cbn [truthy negb PyOps.contains rbind ok]. now rewrite Htool.
Qed.

(** Property X4.  A mapping with a [tool] key passes the parser as it is: the
    decision step appends the very mapping the loader returned, other
    keys included, makes the one generation call, and returns the
    value under [tool], recognised or not. *)
Theorem decision_passes_through (st : State) hs d tool :
  History.format_history_summary st.(shared).(history) = ok hs ->
  (forall prompt, exists response w',
      generate prompt st.(world) = (ok response, w')
      /\ yaml_safe_load (MainDecisionAgent.yaml_content response)
         = ok (PyDict d)) ->
  dict_get "tool" d = Some tool ->
  exists prompt st',
    MainDecisionAgent.run st = Returns tool st'
    /\ st'.(shared).(history) = (st.(shared).(history) ++ [PyDict d])%list
    /\ st'.(calls) = (st.(calls) ++ [CallLLM prompt])%list.
Proof.
  intros Hhs Hgen Htool.
  destruct (prep_returns st) as [query Hprep].
  destruct (Hgen (Prompts.decision query hs)) as (response & w' & Hg & Hload).
  assert (Hhas : dict_has "tool" d = true) by (unfold dict_has; now rewrite Htool).
  pose proof (parse_accepts_mapping response d Hload Hhas) as Hparse.
  eexists. eexists. split.
  - eapply main_run_decides; try eassumption; reflexivity.
  - split; reflexivity.
Qed.

(** Property X5.  A tool name the main flow has no node for ends the run on the
    spot: no handler runs and no summary is made; the run's state is
    the one the decision left. *)
Theorem unknown_tool_ends_run (st st' : State) name fuel :
  MainDecisionAgent.run st = Returns (PyStr name) st' ->
  Flow.lookup name (Flow.successors Flow.main_agent) = None ->
  Flow.coding_agent_flow (S fuel) st = Returns (Flow.Done (PyStr name)) st'.
Proof.
  intros Hrun Hname. unfold Flow.coding_agent_flow.
  cbn [Flow.orch Flow.run_node]. unfold bind at 1. rewrite Hrun.
  unfold bind, Flow.get_next_node. cbn [truthy].
  destruct name as [|c name]; cbn [Str.is_empty negb lift ok ret].
  - reflexivity.
  - now rewrite Hname.
Qed.

(** Property X6.  A loaded text that is no mapping but a string with [tool] in it
    passes the parser too; [post] appends it to the history and then
    raises a [TypeError]: no [finish] decision takes its place. *)
Theorem string_decision_aborts (st : State) hs text :
  History.format_history_summary st.(shared).(history) = ok hs ->
  (forall prompt, exists response w',
      generate prompt st.(world) = (ok response, w')
      /\ yaml_safe_load (MainDecisionAgent.yaml_content response)
         = ok (PyStr text)) ->
  Str.contains "tool" text = true ->
  exists st',
    MainDecisionAgent.run st
    = Raises (TypeError "string indices must be integers, not 'str'") st'
    /\ st'.(shared).(history) = (st.(shared).(history) ++ [PyStr text])%list.
Proof.
  intros Hhs Hgen Htool.
  destruct (prep_returns st) as [query Hprep].
  destruct (Hgen (Prompts.decision query hs)) as (response & w' & Hg & Hload).
  assert (Hparse : MainDecisionAgent.parse_decision response = ok (PyStr text)).
  { unfold MainDecisionAgent.parse_decision. rewrite Hload. cbn [rbind ok].
    destruct text as [|c text]; [discriminate|].
    cbn [truthy Str.is_empty negb PyOps.contains rbind ok]. now rewrite Htool. }
  eexists. unfold MainDecisionAgent.run, bind at 1. rewrite Hprep.
  unfold bind at 1. unfold MainDecisionAgent.exec, bind at 1.
  cbn [shared with_shared set_iteration_count history]. rewrite Hhs.
  cbn [lift ret ok]. unfold bind at 1.
  unfold call_llm, bind, external. cbn [world with_shared]. rewrite Hg.
  cbn [lift ret ok]. unfold try_except. rewrite Hparse. cbn [lift ret ok].
  unfold MainDecisionAgent.post, bind, modify_shared.
  cbn [PyOps.subscript lift raise throw]. split; reflexivity.
Qed.

(** Property X7.  A fault of the generation backend is not turned into a [finish]
    decision: it leaves [exec] and the flow as it is, and the history
    gets no entry. *)
Theorem backend_fault_is_fatal (st : State) hs fuel :
  History.format_history_summary st.(shared).(history) = ok hs ->
  (forall prompt, exists e w', generate prompt st.(world) = (raise e, w')) ->
  exists e st',
    MainDecisionAgent.run st = Raises e st'
    /\ Flow.coding_agent_flow (S fuel) st = Raises e st'
    /\ st'.(shared).(history) = st.(shared).(history).
Proof.
  intros Hhs Hgen.
  destruct (prep_returns st) as [query Hprep].
  destruct (Hgen (Prompts.decision query hs)) as (e & w' & Hg).
  assert (Hrun : MainDecisionAgent.run st
                 = Raises e (after_call (CallLLM (Prompts.decision query hs)) w'
                               (with_shared
                                  (set_iteration_count
                                     (Some (match st.(shared).(iteration_count) with
                                            | Some n => n
                                            | None => 0
                                            end + 1)%Z)
                                     st.(shared)) st))).
  { unfold MainDecisionAgent.run, bind at 1. rewrite Hprep.
    unfold bind at 1. unfold MainDecisionAgent.exec, bind at 1.
    cbn [shared with_shared set_iteration_count history]. rewrite Hhs.
    cbn [lift ret ok]. unfold bind at 1.
    unfold call_llm, bind, external. cbn [world with_shared]. rewrite Hg.
    reflexivity. }
  eexists. eexists. split; [exact Hrun|]. split; [|reflexivity].
  unfold Flow.coding_agent_flow. cbn [Flow.orch Flow.run_node].
  unfold bind at 1. now rewrite Hrun.
Qed.


(** Property X9.  The summary step: on a history that can be rendered it stores the
    backend's text as the response, and the flow ends there; on an
    empty history it stores a fixed text without calling the
    backend. *)
Theorem summary_ends_run (st : State) fuel :
  (st.(shared).(history) = [] ->
   Flow.orch (S fuel) Flow.format_response st
   = Returns (Flow.Done (PyStr "done"))
       (with_shared
          (set_response (Some "No actions were performed.") st.(shared)) st))
  /\ (forall hs text w',
         st.(shared).(history) <> [] ->
         History.format_history_summary st.(shared).(history) = ok hs ->
         generate (Prompts.summary hs) st.(world) = (ok text, w') ->
         Flow.orch (S fuel) Flow.format_response st
         = Returns (Flow.Done (PyStr "done"))
             (with_shared
                (set_response (Some text) st.(shared))
                (after_call (CallLLM (Prompts.summary hs)) w' st))).
Proof.
  split.
  - intros Hh. cbn [Flow.orch Flow.run_node].
    unfold FormatResponseNode.run, FormatResponseNode.prep, bind, get_shared.
    cbn [ret]. rewrite Hh. reflexivity.
  - intros hs text w' Hne Hhs Hgen. cbn [Flow.orch Flow.run_node].
    unfold FormatResponseNode.run, FormatResponseNode.prep,
      FormatResponseNode.exec, FormatResponseNode.post, call_llm, external,
      bind, get_shared, modify_shared, lift, ret.
    destruct (history (shared st)) as [|a l] eqn:Hh; [congruence|].
    rewrite Hhs. cbn [ok]. rewrite Hgen. reflexivity.
Qed.
End Decisions.

(** ** Where control goes after a node *)

Section Routing.
Context {E : Externals}.
Import Py.

Ltac returned H :=
  repeat first
    [ apply bind_returns in H; destruct H as (? & ? & _ & H); cbv beta in H
    | match type of H with
      | (let (_, _) := ?x in _) _ = _ => destruct x
      end ].

Ltac returned_value H := unfold ret in H; now injection H as <- _.

(** What a handler's [post] returns when it returns: [None], or
    ["default"]. *)
Lemma handler_action (n : Flow.Node) (st st' : State) a :
  n <> Flow.main_agent -> n <> Flow.format_response ->
  Flow.run_node n st = Returns a st' ->
  a = PyNone \/ a = PyStr "default".
Proof.
  intros Hm Hf H. destruct n; try congruence; cbn [Flow.run_node] in H.
  - unfold ReadFileAction.run in H. returned H.
    unfold ReadFileAction.post in H. returned H.
    left. returned_value H.
  - unfold GrepSearchAction.run in H. returned H.
    unfold GrepSearchAction.post in H. returned H.
    left. returned_value H.
  - unfold ListDirAction.run in H. returned H.
    unfold ListDirAction.post in H. returned H.
    left. returned_value H.
  - unfold DeleteFileAction.run in H. returned H.
    unfold DeleteFileAction.post in H. returned H.
    left. returned_value H.
  - unfold InsertFileAction.run in H. returned H.
    unfold InsertFileAction.post in H. returned H.
    right. returned_value H.
  - unfold Flow.edit_agent_run in H. returned H.
    unfold ApplyChangesNode.run in H. returned H.
    unfold ApplyChangesNode.post in H. returned H.
    left. returned_value H.
  - unfold CreateDirectoryAction.run in H. returned H.
    unfold CreateDirectoryAction.post in H. returned H.
    right. returned_value H.
  - unfold DeleteDirectoryAction.run in H. returned H.
    unfold DeleteDirectoryAction.post in H. returned H.
    right. returned_value H.
Qed.

(** Property X10.  Every handler, the edit agent included, hands control back to the
    decision step when it returns, whatever its outcome was: a failed
    operation is recorded in the history and does not end the run. *)
Theorem handlers_return_to_main (n : Flow.Node) (st st' : State) a :
  n <> Flow.main_agent -> n <> Flow.format_response ->
  Flow.run_node n st = Returns a st' ->
  Flow.get_next_node n a = ok (Some Flow.main_agent).
Proof.
  intros Hm Hf H.
  destruct (handler_action n st st' a Hm Hf H) as [-> | ->];
    destruct n; try congruence; reflexivity.
Qed.

(** Property X11.  A run that ends, ends after the summary step or at a decision
    whose tool the main flow has no node for; it never ends after a
    handler. *)
Theorem run_ends_after_summary_or_unknown_tool
  (fuel : nat) (n : Flow.Node) (st st' : State) a :
  Flow.orch fuel n st = Returns (Flow.Done a) st' ->
  (exists st0, FormatResponseNode.run st0 = Returns a st')
  \/ (exists st0,
         MainDecisionAgent.run st0 = Returns a st'
         /\ Flow.get_next_node Flow.main_agent a = ok None).
Proof.
  revert n st. induction fuel as [|fuel IH]; intros n st H.
  - discriminate.
  - cbn [Flow.orch] in H. apply bind_returns in H.
    destruct H as (act & st1 & Hrun & H). cbv beta in H.
    apply bind_returns in H. destruct H as (next & st2 & Hnext & H).
    unfold lift in Hnext.
    destruct (Flow.get_next_node n act) as [e|next'] eqn:Hget; [discriminate|].
    unfold ret in Hnext. injection Hnext as <- <-.
    destruct next' as [n'|].
    + apply (IH _ _ H).
    + unfold ret in H. injection H as <- <-.
      assert (Hcases : n = Flow.main_agent \/ n = Flow.format_response
                       \/ (n <> Flow.main_agent /\ n <> Flow.format_response))
        by (destruct n; auto; right; right; split; discriminate).
      destruct Hcases as [-> | [-> | [Hm Hf]]].
      * right. exists st. now split.
      * left. now exists st.
      * pose proof (handler_action n st st1 act Hm Hf Hrun) as Ha.
        destruct Ha as [-> | ->]; destruct n; try congruence; discriminate.
Qed.

(** Property X12.  With an empty history no handler gets as far as its primitive:
    each one raises [ValueError("No history found")] and leaves the
    state as it was. *)
Theorem empty_history_stops_handlers (n : Flow.Node) (st : State) :
  n <> Flow.main_agent -> n <> Flow.format_response ->
  st.(shared).(history) = [] ->
  Flow.run_node n st = Raises (ValueError "No history found") st.
Proof.
  intros Hm Hf Hh.
  assert (Hlast : last_action st = Raises (ValueError "No history found") st).
  { unfold last_action, bind, get_shared. cbn [ret]. now rewrite Hh. }
  destruct n; try congruence; cbn [Flow.run_node];
    unfold Flow.edit_agent_run,
      ReadFileAction.run, ReadFileAction.prep,
      GrepSearchAction.run, GrepSearchAction.prep,
      ListDirAction.run, ListDirAction.prep,
      DeleteFileAction.run, DeleteFileAction.prep,
      InsertFileAction.run, InsertFileAction.prep,
      ReadTargetFileNode.run, ReadTargetFileNode.prep,
      CreateDirectoryAction.run, CreateDirectoryAction.prep,
      DeleteDirectoryAction.run, DeleteDirectoryAction.prep;
    unfold bind; now rewrite Hlast.
Qed.
End Routing.

(** ** What the handlers do with their parameters *)

Section HandlerRuns.
Context {E : Externals}.
Import Py.

Lemma param_get_found a ps k v default :
  dict_get "params" a = Some (PyDict ps) ->
  dict_get k ps = Some v ->
  param_get (PyDict a) k default = ok v.
Proof.
  intros Hps Hk. unfold param_get. cbn [PyOps.subscript]. rewrite Hps.
  cbn [rbind PyOps.get ok]. unfold dict_get_default. now rewrite Hk.
Qed.

Lemma param_get_missing a ps k default :
  dict_get "params" a = Some (PyDict ps) ->
  dict_get k ps = None ->
  param_get (PyDict a) k default = ok default.
Proof.
  intros Hps Hk. unfold param_get. cbn [PyOps.subscript]. rewrite Hps.
  cbn [rbind PyOps.get ok]. unfold dict_get_default. now rewrite Hk.
Qed.

(** A path that starts with a slash is used as it is. *)
Lemma full_path_absolute wd p :
  PyOps.full_path wd (PyStr (String "/" p)) = ok (PyStr (String "/" p)).
Proof.
  unfold PyOps.full_path, PyOps.os_path_join, Str.startswith.
  destruct (Str.is_empty wd); [reflexivity|]. cbn [prefix].
  destruct (ascii_dec "/" "/") as [_|Hne]; [|congruence].
  now destruct p.
Qed.

(** Property X13.  The working directory does not confine a handler: a [target_file]
    that starts with a slash is handed to the primitive as it is, so a
    [delete_file] action deletes outside the working directory. *)
Theorem absolute_target_leaves_working_dir (st : State) h a ps p :
  st.(shared).(history) = (h ++ [PyDict a])%list ->
  dict_get "params" a = Some (PyDict ps) ->
  dict_get "target_file" ps = Some (PyStr (String "/" p)) ->
  exists st',
    DeleteFileAction.run st = Returns PyNone st'
    /\ st'.(calls)
       = (st.(calls) ++ [CallDeleteFile (PyStr (String "/" p))])%list
    /\ ReadFileAction.prep st = Returns (PyStr (String "/" p)) st
    /\ ReadTargetFileNode.prep st = Returns (PyStr (String "/" p)) st.
Proof.
  intros Hh Hps Htf.
  pose proof (last_action_last st h (PyDict a) Hh) as Hlast.
  pose proof (param_get_found a ps "target_file" _ PyNone Hps Htf) as Hget.
  pose proof (in_working_dir_ok st _ _
                (full_path_absolute st.(shared).(working_dir) p)) as Hwd.
  assert (Hprep : DeleteFileAction.prep st = Returns (PyStr (String "/" p)) st).
  { unfold DeleteFileAction.prep, bind at 1. rewrite Hlast.
    unfold bind at 1. rewrite Hget. cbn [lift ok ret truthy Str.is_empty negb].
    cbn [PyOps.get]. unfold bind. cbn [lift ok ret]. exact Hwd. }
  destruct (delete_file (PyStr (String "/" p)) (world st))
    as [[success message] w'] eqn:Hdel.
  eexists. split; [|split; [|split]].
  - unfold DeleteFileAction.run, bind at 1. rewrite Hprep.
    unfold bind at 1. unfold DeleteFileAction.exec, external. rewrite Hdel.
    unfold DeleteFileAction.post, bind at 1.
    rewrite (set_last_item_last _ h a); [reflexivity | exact Hh].
  - reflexivity.
  - unfold ReadFileAction.prep, bind at 1. rewrite Hlast.
    unfold bind at 1. rewrite Hget. cbn [lift ok ret truthy Str.is_empty negb].
    unfold bind at 1. rewrite Hwd. reflexivity.
  - unfold ReadTargetFileNode.prep, bind at 1. rewrite Hlast.
    unfold bind at 1. rewrite Hget. cbn [lift ok ret truthy Str.is_empty negb].
    exact Hwd.
Qed.

(** Property X14.  [insert_file] cannot create an empty file: with a target but with
    empty or absent content the handler raises before it calls the
    primitive. *)
Theorem insert_needs_content (st : State) h a ps target :
  st.(shared).(history) = (h ++ [PyDict a])%list ->
  dict_get "params" a = Some (PyDict ps) ->
  dict_get "target_file" ps = Some target ->
  truthy target = true ->
  (dict_get "content" ps = None \/ dict_get "content" ps = Some (PyStr "")) ->
  InsertFileAction.run st
  = Raises (ValueError "Missing content parameter") st.
Proof.
  intros Hh Hps Htf Ht Hc.
  pose proof (last_action_last st h (PyDict a) Hh) as Hlast.
  pose proof (param_get_found a ps "target_file" _ PyNone Hps Htf) as Hget.
  assert (Hcontent : exists c, param_get (PyDict a) "content" PyNone = ok c
                               /\ truthy c = false).
  { destruct Hc as [Hc | Hc].
    - exists PyNone. split; [now apply param_get_missing with ps | reflexivity].
    - exists (PyStr ""). split; [now apply param_get_found with ps | reflexivity]. }
  destruct Hcontent as (c & Hgc & Hfalse).
  unfold InsertFileAction.run, bind at 1.
  unfold InsertFileAction.prep, bind at 1. rewrite Hlast.
  unfold bind at 1. rewrite Hget. cbn [lift ok ret].
  unfold bind at 1. rewrite Hgc. cbn [lift ok ret].
  rewrite Ht, Hfalse. reflexivity.
Qed.

(** Property X15.  A read is recorded whatever its outcome: the handler calls
    [read_file] once on the target joined to the working directory and
    stores the text and the flag it returned under [result] of the
    newest entry; a failed read raises nothing. *)
Theorem read_records_outcome (st : State) h a ps p :
  st.(shared).(history) = (h ++ [PyDict a])%list ->
  dict_get "params" a = Some (PyDict ps) ->
  dict_get "target_file" ps = Some (PyStr p) ->
  p <> "" ->
  let wd := st.(shared).(working_dir) in
  let path := PyStr (if Str.is_empty wd then p else PyOps.os_path_join wd p) in
  let content := fst (fst (read_file path st.(world))) in
  let success := snd (fst (read_file path st.(world))) in
  exists st',
    ReadFileAction.run st = Returns PyNone st'
    /\ st'.(calls) = (st.(calls) ++ [CallReadFile path])%list
    /\ st'.(shared).(history)
       = (h ++ [PyDict (dict_set "result"
                          (PyDict [("success", PyBool success);
                                   ("content", PyStr content)]) a)])%list.
Proof.
  intros Hh Hps Htf Hp wd path content success.
  pose proof (last_action_last st h (PyDict a) Hh) as Hlast.
  pose proof (param_get_found a ps "target_file" _ PyNone Hps Htf) as Hget.
  assert (Hwd : in_working_dir (PyStr p) st = Returns path st).
  { apply in_working_dir_ok. unfold PyOps.full_path, path, wd.
    destruct (Str.is_empty _); reflexivity. }
  assert (Htruthy : truthy (PyStr p) = true).
  { destruct p; [congruence | reflexivity]. }
  assert (Hprep : ReadFileAction.prep st = Returns path st).
  { unfold ReadFileAction.prep, bind at 1. rewrite Hlast.
    unfold bind at 1. rewrite Hget. cbn [lift ok ret]. rewrite Htruthy.
    cbn [negb]. unfold bind at 1. rewrite Hwd. reflexivity. }
  subst content success.
  destruct (read_file path (world st)) as [[content success] w'] eqn:Hread.
  cbn [fst snd].
  eexists. split; [|split].
  - unfold ReadFileAction.run, bind at 1. rewrite Hprep.
    unfold bind at 1. unfold ReadFileAction.exec, external. rewrite Hread.
    unfold ReadFileAction.post, bind at 1.
    rewrite (set_last_item_last _ h a); [reflexivity | exact Hh].
  - reflexivity.
  - reflexivity.
Qed.

(** Property X16.  [CreateDirectoryAction.exec] never raises: it calls [os.makedirs]
    once and turns a fault into a failed outcome with the fault's text;
    the outcome is a success exactly when the call returned. *)
Theorem create_directory_reports_faults (p : PyVal) (st : State) :
  exists flag message,
    CreateDirectoryAction.exec p st
    = Returns (flag, message)
        (after_call (CallMakedirs p) (snd (os_makedirs p st.(world))) st)
    /\ (flag = true <-> fst (os_makedirs p st.(world)) = ok tt)
    /\ (forall e, fst (os_makedirs p st.(world)) = raise e ->
                  message = "Failed to create directory: " ++ exc_str e).
Proof.
  unfold CreateDirectoryAction.exec, bind, external.
  destruct (os_makedirs p (world st)) as [[e|[]] w']; cbn [fst snd ret];
    eexists; eexists; (split; [reflexivity|]); split.
  - split; discriminate.
  - intros e' He. unfold raise in He. now injection He as <-.
  - split; reflexivity.
  - intros e' He. discriminate.
Qed.

(** Property X17.  [DeleteDirectoryAction.exec] never raises and does not touch the
    session.  It calls [shutil.rmtree] at most once, and only for a
    path that [os.path.exists] and [os.path.isdir] both answer for; a
    successful outcome means that the call was made and returned. *)
Theorem delete_directory_is_guarded (p : PyVal) (st : State) :
  exists flag message st',
    DeleteDirectoryAction.exec p st = Returns (flag, message) st'
    /\ st'.(shared) = st.(shared)
    /\ (st'.(calls) = st.(calls)
        \/ (st'.(calls) = (st.(calls) ++ [CallRmtree p])%list
            /\ os_path_exists p st.(world) = ok true
            /\ os_path_isdir p st.(world) = ok true))
    /\ (flag = true ->
        st'.(calls) = (st.(calls) ++ [CallRmtree p])%list
        /\ fst (shutil_rmtree p st.(world)) = ok tt).
Proof.
  unfold DeleteDirectoryAction.exec, try_except, bind, observe, external, lift.
  destruct (os_path_exists p (world st)) as [e1|[|]] eqn:Hex; cbn [negb ret];
    [| destruct (os_path_isdir p (world st)) as [e2|[|]] eqn:Hdir;
       cbn [negb ret];
       [| destruct (shutil_rmtree p (world st)) as [[e3|[]] w'] eqn:Hrm;
          cbn [ret throw raise ok] |] |];
    eexists; eexists; eexists;
    (split; [reflexivity|]); (split; [reflexivity|]); split;
    first [ now left
          | right; split; [reflexivity | split; reflexivity]
          | discriminate
          | intros _; split; reflexivity ].
Qed.

(** Property X18.  With no plan in the session, or an empty one, the applier makes no
    replacement and still records a success: [success] is [True] over
    zero operations. *)
Theorem empty_plan_counts_as_success (st : State) h a :
  st.(shared).(history) = (h ++ [PyDict a])%list ->
  (st.(shared).(edit_operations) = None
   \/ st.(shared).(edit_operations) = Some (PyList [])) ->
  exists st',
    ApplyChangesNode.run st = Returns PyNone st'
    /\ st'.(calls) = st.(calls)
    /\ st'.(shared).(history)
       = (h ++ [PyDict (dict_set "result"
                          (PyDict [("success", PyBool true);
                                   ("operations", PyInt 0);
                                   ("details", PyList []);
                                   ("reasoning",
                                    match st.(shared).(edit_reasoning) with
                                    | Some r => r
                                    | None => PyStr ""
                                    end)]) a)])%list.
Proof.
  intros Hh Hplan.
  assert (Hprep : ApplyChangesNode.prep st = Returns [] st).
  { unfold ApplyChangesNode.prep, bind, get_shared.
    destruct Hplan as [-> | ->]; reflexivity. }
  eexists. split; [|split].
  - unfold ApplyChangesNode.run, bind at 1. rewrite Hprep.
    unfold bind at 1. cbn [ApplyChangesNode.batch_exec ret].
    unfold ApplyChangesNode.post, bind at 1. unfold get_shared.
    unfold bind at 1.
    rewrite (set_last_item_last _ h a); [reflexivity | exact Hh].
  - reflexivity.
  - reflexivity.
Qed.
End HandlerRuns.

(** ** The planner and the applier's order *)

Section PlannerRuns.
Context {E : Externals}.
Import Py.

Lemma lift_returns {A} (r : Result A) (st st' : State) x :
  lift r st = Returns x st' -> r = ok x /\ st' = st.
Proof.
  destruct r as [e|y]; cbn [lift]; unfold ret, throw; intros H;
    [discriminate | injection H as <- <-; now split].
Qed.

Lemma last_action_returns (st st' : State) a :
  last_action st = Returns a st' ->
  st' = st /\ exists h, st.(shared).(history) = (h ++ [a])%list.
Proof.
  unfold last_action, bind, get_shared.
  destruct (rev (history (shared st))) as [|x l] eqn:Hrev;
    unfold ret, throw; intros H; [discriminate|].
  injection H as <- <-. split; [reflexivity|]. exists (rev l).
  rewrite <- (rev_involutive (history (shared st))), Hrev. reflexivity.
Qed.

Lemma call_llm_returns prompt (st st' : State) response :
  call_llm prompt st = Returns response st' ->
  st'.(shared) = st.(shared)
  /\ st'.(calls) = (st.(calls) ++ [CallLLM prompt])%list.
Proof.
  unfold call_llm, bind, external.
  destruct (generate prompt (world st)) as [[e|r] w']; cbn [lift];
    unfold ret, throw; intros H; [discriminate|].
  injection H as _ <-. now split.
Qed.

Lemma validate_ok total decision :
  AnalyzeAndPlanNode.validate total decision = ok tt ->
  exists d plan reasoning,
    decision = PyDict d
    /\ dict_get "reasoning" d = Some reasoning
    /\ dict_get "operations" d = Some (PyList plan)
    /\ plan <> []
    /\ Forall (Plan.accepted total) plan.
Proof.
  unfold AnalyzeAndPlanNode.validate.
  destruct decision as [| | | | |l|d]; try discriminate.
  unfold dict_has.
  destruct (dict_get "reasoning" d) as [reasoning|] eqn:Hr; cbn [negb];
    [|discriminate].
  destruct (dict_get "operations" d) as [[| | | | |plan|]|] eqn:Hops;
    try discriminate.
  destruct plan as [|op plan]; [discriminate|].
  destruct (AnalyzeAndPlanNode.validate_operations total (op :: plan))
    as [e|us] eqn:Hv; [discriminate|].
  intros _. exists d, (op :: plan), reasoning.
  split; [reflexivity|]. split; [exact Hr|]. split; [exact Hops|].
  split; [discriminate|].
  apply (validate_from_accepts total (op :: plan) 0). now exists us.
Qed.

(** Property X19.  The planner has no fallback on the whole response: an answer
    without a fenced block is refused, whatever it holds, after the
    one call to the backend, while the decision step hands such an
    answer to the loader as it is. *)
Theorem planner_needs_fenced_block
  (params : AnalyzeAndPlanNode.Params) (st : State) content response w' :
  params.(AnalyzeAndPlanNode.file_content) = PyStr content ->
  generate (Prompts.plan (AnalyzeAndPlanNode.count_lines content) content
              (py_str params.(AnalyzeAndPlanNode.instructions))
              (py_str params.(AnalyzeAndPlanNode.code_edit)))
           st.(world) = (ok response, w') ->
  Str.contains "```" response = false ->
  AnalyzeAndPlanNode.exec params st
  = Raises (ValueError "No YAML object found in response. LLM must return a YAML object with 'reasoning' and 'operations' fields.")
      (after_call
         (CallLLM (Prompts.plan (AnalyzeAndPlanNode.count_lines content) content
                     (py_str params.(AnalyzeAndPlanNode.instructions))
                     (py_str params.(AnalyzeAndPlanNode.code_edit))))
         w' st)
  /\ MainDecisionAgent.yaml_content response = Str.strip response.
Proof.
  intros Hc Hgen Hno. split.
  - unfold AnalyzeAndPlanNode.exec. rewrite Hc. unfold bind at 1.
    cbn [ret]. unfold bind at 1. unfold call_llm, bind at 1, external.
    rewrite Hgen. cbn [lift ret ok]. rewrite (fenced_block_bare _ Hno).
    reflexivity.
  - apply yaml_content_bare, Hno.
Qed.

(** Property X20.  What the planner leaves for the applier when it returns: the entry
    being served holds a non-empty text under [file_content], and the
    session holds the plan's reasoning and its operations, a non-empty
    list in which every operation passed the validation against the
    line count of that text.  The history is as it was. *)
Theorem planner_hands_over_checked_plan (st st' : State) a :
  AnalyzeAndPlanNode.run st = Returns a st' ->
  exists h entry content plan reasoning,
    st.(shared).(history) = (h ++ [PyDict entry])%list
    /\ dict_get "file_content" entry = Some (PyStr content)
    /\ content <> ""
    /\ st'.(shared).(edit_operations) = Some (PyList plan)
    /\ plan <> []
    /\ Forall (Plan.accepted (AnalyzeAndPlanNode.count_lines content)) plan
    /\ st'.(shared).(edit_reasoning) = Some reasoning
    /\ st'.(shared).(history) = st.(shared).(history)
    /\ a = PyNone.
Proof.
  unfold AnalyzeAndPlanNode.run. intros H.
  apply bind_returns in H. destruct H as (params & st1 & Hprep & H).
  cbv beta in H.
  apply bind_returns in H. destruct H as (e & st2 & Hexec & H).
  (* prep *)
  unfold AnalyzeAndPlanNode.prep in Hprep.
  apply bind_returns in Hprep. destruct Hprep as (action & s1 & Hlast & Hprep).
  apply last_action_returns in Hlast. destruct Hlast as (-> & h & Hh).
  apply bind_returns in Hprep. destruct Hprep as (fc & s1 & Hfc & Hprep).
  apply lift_returns in Hfc. destruct Hfc as (Hfc & ->).
  apply bind_returns in Hprep. destruct Hprep as (instr & s1 & Hin & Hprep).
  apply lift_returns in Hin. destruct Hin as (_ & ->).
  apply bind_returns in Hprep. destruct Hprep as (edit & s1 & Hed & Hprep).
  apply lift_returns in Hed. destruct Hed as (_ & ->).
  destruct (truthy fc) eqn:Hfct; cbn [negb] in Hprep; [|discriminate].
  destruct (negb (truthy instr)); [discriminate|].
  destruct (negb (truthy edit)); [discriminate|].
  unfold ret in Hprep. injection Hprep as <- <-.
  destruct action as [| | | | | |entry]; try discriminate.
  cbn [PyOps.get] in Hfc. unfold ok in Hfc. injection Hfc as Hfc.
  (* exec *)
  unfold AnalyzeAndPlanNode.exec in Hexec.
  cbn [AnalyzeAndPlanNode.file_content AnalyzeAndPlanNode.instructions
         AnalyzeAndPlanNode.code_edit] in Hexec.
  apply bind_returns in Hexec. destruct Hexec as (content & s1 & Hc & Hexec).
  destruct fc as [| | | |text| |]; try discriminate.
  unfold ret in Hc. injection Hc as -> <-.
  apply bind_returns in Hexec. destruct Hexec as (response & s1 & Hllm & Hexec).
  apply call_llm_returns in Hllm. destruct Hllm as (Hshared & _).
  destruct (Str.is_empty (fenced_block response)); [discriminate|].
  apply bind_returns in Hexec. destruct Hexec as (decision & s2 & Hload & Hexec).
  apply lift_returns in Hload. destruct Hload as (_ & ->).
  apply bind_returns in Hexec. destruct Hexec as ([] & s2 & Hval & Hexec).
  apply lift_returns in Hval. destruct Hval as (Hval & ->).
  unfold ret in Hexec. injection Hexec as <- <-.
  apply validate_ok in Hval.
  destruct Hval as (d & plan & reasoning & -> & Hr & Hops & Hne & Hacc).
  (* post *)
  unfold AnalyzeAndPlanNode.post, bind, modify_shared in H.
  cbn [PyOps.get lift ok ret] in H. unfold ret in H. injection H as <- <-.
  exists h, entry, content, plan, reasoning.
  unfold dict_get_default in Hfc |- *. rewrite Hr, Hops.
  cbn [shared with_shared set_edit_operations set_edit_reasoning
         edit_operations edit_reasoning history].
  rewrite Hshared.
  destruct (dict_get "file_content" entry) as [v|] eqn:Hget;
    [subst v | discriminate].
  repeat split; auto.
  intros ->. discriminate.
Qed.

(** Property X21.  [total_lines] is the number of line feeds plus one: an empty text
    counts one line, and a text that ends in a line feed counts the
    empty line after it. *)
Theorem count_lines_counts_line_feeds (content : string) :
  AnalyzeAndPlanNode.count_lines content
  = (Z.of_nat (line_feeds content) + 1)%Z.
Proof.
  unfold AnalyzeAndPlanNode.count_lines, Str.split.
  assert (H : List.length (snd (Str.split_from Str.nl 0 content))
              = line_feeds content).
  { induction content as [|c s IH]; [reflexivity|].
    cbn [Str.split_from line_feeds]. unfold Str.nl at 1. cbn [prefix].
    change (String.length Str.nl - 1)%nat with 0%nat.
    destruct (ascii_dec (ascii_of_nat 10) c) as [<- | Hne].
    - rewrite prefix_nil_true, Ascii.eqb_refl.
      destruct (Str.split_from Str.nl 0 s) as [hd tl]. cbn [snd List.length].
      cbn [snd] in IH. now rewrite IH.
    - destruct (Ascii.eqb c (ascii_of_nat 10)) eqn:Hc;
        [apply Ascii.eqb_eq in Hc; congruence|].
      destruct (Str.split_from Str.nl 0 s) as [hd tl]. exact IH. }
  destruct (Str.split_from Str.nl 0 content) as [hd tl]. cbn [snd] in H.
  cbn [List.length]. lia.
Qed.
End PlannerRuns.

(** ** Operations that start at the same line *)

Section Stability.
Import Py ApplyChangesNode Patch.

Lemma filter_insert_desc (k : Z) x l :
  filter (fun p : Z * PyVal => (fst p =? k)%Z) (insert_desc x l)
  = filter (fun p : Z * PyVal => (fst p =? k)%Z) (x :: l).
Proof.
  induction l as [|y l IH]; [reflexivity|].
  cbn [insert_desc]. destruct (fst x <? fst y)%Z eqn:Hlt; [|reflexivity].
  cbn [filter] in IH |- *. rewrite IH.
  destruct (fst y =? k)%Z eqn:Hy; [|reflexivity].
  destruct (fst x =? k)%Z eqn:Hx; [|reflexivity].
  apply Z.eqb_eq in Hx, Hy. apply Z.ltb_lt in Hlt. lia.
Qed.

Lemma filter_sort_desc (k : Z) l :
  filter (fun p : Z * PyVal => (fst p =? k)%Z) (sort_desc l)
  = filter (fun p : Z * PyVal => (fst p =? k)%Z) l.
Proof.
  induction l as [|x l IH]; [reflexivity|].
  unfold sort_desc in IH |- *. cbn [fold_right].
  rewrite filter_insert_desc. cbn [filter]. now rewrite IH.
Qed.

Lemma starting_at_keyed (k : Z) (l : list (Z * PyVal)) :
  Forall (fun p => fst p = (edit_operation (snd p)).(start_line)) l ->
  starting_at k (map snd l)
  = map snd (filter (fun p : Z * PyVal => (fst p =? k)%Z) l).
Proof.
  unfold starting_at.
  induction 1 as [|p l Hp _ IH]; [reflexivity|].
  cbn [map filter]. rewrite IH, <- Hp.
  now destruct (fst p =? k)%Z.
Qed.

(** Property X22.  The applier's sort is stable: the operations that start at one
    line come out in the order the plan lists them.  With the
    descending order of the start lines this fixes the order of the
    replacements. *)
Theorem equal_starts_keep_plan_order (ops sorted : list PyVal) (k : Z) :
  sorted_ops ops = ok sorted ->
  starting_at k sorted = starting_at k ops.
Proof.
  unfold sorted_ops.
  destruct (map_result sort_key ops) as [e|keys] eqn:Hkeys; [discriminate|].
  cbn [rbind]. intros H. injection H as <-.
  destruct (combine_keys ops keys (map_result_keys _ _ Hkeys)) as [Hsnd HF].
  rewrite starting_at_keyed
    by exact (Permutation_Forall (sort_desc_perm _) HF).
  rewrite filter_sort_desc, <- starting_at_keyed by exact HF.
  now rewrite Hsnd.
Qed.
End Stability.

(** ** The iteration counter *)

Section Counter.
Context {E : Externals}.
Import Py Keeps.

Lemma counting_refl (st : State) : counting st st.
Proof. intros k Hk. exists k. split; [exact Hk | lia]. Qed.

Lemma counting_trans (a b c : State) :
  counting a b -> counting b c -> counting a c.
Proof.
  intros Hab Hbc k Hk. destruct (Hab k Hk) as (k1 & Hk1 & Hle1).
  destruct (Hbc k1 Hk1) as (k2 & Hk2 & Hle2). exists k2. split; [exact Hk2 | lia].
Qed.

Lemma counting_same (st st' : State) :
  st'.(shared).(iteration_count) = st.(shared).(iteration_count) ->
  counting st st'.
Proof. intros H k Hk. exists k. rewrite H. split; [exact Hk | lia]. Qed.

Lemma set_last_item_counting key value :
  establishes counting (set_last_item key value).
Proof.
  intros st. unfold set_last_item, bind, get_shared.
  destruct (rev (history (shared st))) as [|a before];
    [apply counting_refl|].
  destruct (PyOps.set_item a key value); cbn [lift throw ret];
    [apply counting_refl | now apply counting_same].
Qed.

Lemma prep_counting : establishes counting MainDecisionAgent.prep.
Proof.
  intros st. destruct (prep_returns st) as [query ->].
  intros k Hk. cbn [shared with_shared iteration_count set_iteration_count].
  rewrite Hk. eexists. split; [reflexivity | lia].
Qed.

Ltac counting_side :=
  first [ apply set_last_item_counting
        | apply prep_counting
        | solve [intros; apply counting_same; reflexivity] ].

Ltac count_steps := establish counting_refl counting_trans counting_side.

Lemma batch_exec_counting items :
  establishes counting (ApplyChangesNode.batch_exec items).
Proof.
  induction items as [|op items IH]; cbn [ApplyChangesNode.batch_exec].
  - count_steps.
  - unfold ApplyChangesNode.exec. count_steps. exact IH.
Qed.

Lemma run_node_counting n : establishes counting (Flow.run_node n).
Proof.
  destruct n; cbn [Flow.run_node].
  - unfold MainDecisionAgent.run,
      MainDecisionAgent.exec, MainDecisionAgent.post, call_llm. count_steps.
  - unfold ReadFileAction.run, ReadFileAction.prep, ReadFileAction.exec,
      ReadFileAction.post. count_steps.
  - unfold GrepSearchAction.run, GrepSearchAction.prep, GrepSearchAction.exec,
      GrepSearchAction.post. count_steps.
  - unfold ListDirAction.run, ListDirAction.prep, ListDirAction.exec,
      ListDirAction.post. count_steps.
  - unfold DeleteFileAction.run, DeleteFileAction.prep, DeleteFileAction.exec,
      DeleteFileAction.post. count_steps.
  - unfold InsertFileAction.run, InsertFileAction.prep, InsertFileAction.exec,
      InsertFileAction.post. count_steps.
  - unfold Flow.edit_agent_run, ReadTargetFileNode.run, ReadTargetFileNode.prep,
      ReadTargetFileNode.exec, ReadTargetFileNode.post,
      AnalyzeAndPlanNode.run, AnalyzeAndPlanNode.prep, AnalyzeAndPlanNode.exec,
      AnalyzeAndPlanNode.post, ApplyChangesNode.run, ApplyChangesNode.prep,
      ApplyChangesNode.post, call_llm. count_steps.
    all: apply batch_exec_counting.
  - unfold FormatResponseNode.run, FormatResponseNode.prep,
      FormatResponseNode.exec, FormatResponseNode.post, call_llm. count_steps.
  - unfold CreateDirectoryAction.run, CreateDirectoryAction.prep,
      CreateDirectoryAction.exec, CreateDirectoryAction.post. count_steps.
  - unfold DeleteDirectoryAction.run, DeleteDirectoryAction.prep,
      DeleteDirectoryAction.exec, DeleteDirectoryAction.post. count_steps.
Qed.

(** Property X23.  [run_flow_with_limit] removes its two counters only when the flow
    returns: a run that ends leaves neither in the session, while a
    run that raises leaves the limit it was given and the count it
    reached, which a later run on the same session would go on
    from. *)
Theorem limit_run_cleans_up_on_return_only (limit : Z) fuel (st : State) :
  match Flow.run_flow_with_limit limit fuel st with
  | Returns (Flow.Done _) st' =>
      st'.(shared).(iteration_count) = None
      /\ st'.(shared).(max_iterations) = None
  | Returns (Flow.Running _) st' | Raises _ st' =>
      st'.(shared).(max_iterations) = Some limit
      /\ exists k, st'.(shared).(iteration_count) = Some k /\ (0 <= k)%Z
  end.
Proof.
  unfold Flow.run_flow_with_limit, Flow.coding_agent_flow.
  unfold bind at 1. unfold modify_shared at 1.
  unfold bind at 1. unfold modify_shared at 1.
  set (st0 := with_shared _ (with_shared _ st)).
  pose proof (orch_establishes counting counting_refl counting_trans
                run_node_counting fuel Flow.main_agent st0) as Hcount.
  pose proof (orch_establishes same_session same_session_refl
                same_session_trans run_node_same_session fuel
                Flow.main_agent st0) as Hsame.
  unfold bind.
  destruct (Flow.orch fuel Flow.main_agent st0) as [[a|n] st1|e st1].
  - split; reflexivity.
  - destruct Hsame as (_ & _ & Hmax). split; [exact Hmax|].
    destruct (Hcount 0%Z eq_refl) as (k & Hk & Hle). now exists k.
  - destruct Hsame as (_ & _ & Hmax). split; [exact Hmax|].
    destruct (Hcount 0%Z eq_refl) as (k & Hk & Hle). now exists k.
Qed.
End Counter.

(** ** A read that failed *)

Section FailedRead.
Context {E : Externals}.
Import Py.

(** Property X24.  The edit agent does not look at the flag of its read: whatever
    text [read_file] returned, with a success or with a failure, is
    stored under [file_content] of the entry, and when that text is not
    empty the planner takes it for the file. *)
Theorem edit_agent_ignores_read_flag (st : State) h a ps p instr edit :
  st.(shared).(history) = (h ++ [PyDict a])%list ->
  dict_get "params" a = Some (PyDict ps) ->
  dict_get "target_file" ps = Some (PyStr p) ->
  p <> "" ->
  dict_get "instructions" ps = Some instr -> truthy instr = true ->
  dict_get "code_edit" ps = Some edit -> truthy edit = true ->
  let wd := st.(shared).(working_dir) in
  let path := PyStr (if Str.is_empty wd then p else PyOps.os_path_join wd p) in
  let content := fst (fst (read_file path st.(world))) in
  content <> "" ->
  exists st',
    ReadTargetFileNode.run st = Returns PyNone st'
    /\ st'.(shared).(history)
       = (h ++ [PyDict (dict_set "file_content" (PyStr content) a)])%list
    /\ AnalyzeAndPlanNode.prep st'
       = Returns {| AnalyzeAndPlanNode.file_content := PyStr content;
                    AnalyzeAndPlanNode.instructions := instr;
                    AnalyzeAndPlanNode.code_edit := edit |} st'.
Proof.
  intros Hh Hps Htf Hp Hi Hit He Het wd path content Hc.
  pose proof (last_action_last st h (PyDict a) Hh) as Hlast.
  pose proof (param_get_found a ps "target_file" _ PyNone Hps Htf) as Hget.
  assert (Hwd : in_working_dir (PyStr p) st = Returns path st).
  { apply in_working_dir_ok. unfold PyOps.full_path, path, wd.
    destruct (Str.is_empty _); reflexivity. }
  assert (Htruthy : truthy (PyStr p) = true).
  { destruct p; [congruence | reflexivity]. }
  assert (Hprep : ReadTargetFileNode.prep st = Returns path st).
  { unfold ReadTargetFileNode.prep, bind at 1. rewrite Hlast.
    unfold bind at 1. rewrite Hget. cbn [lift ok ret]. rewrite Htruthy.
    exact Hwd. }
  subst content.
  destruct (read_file path (world st)) as [[content success] w'] eqn:Hread.
  cbn [fst] in Hc |- *.
  set (a' := dict_set "file_content" (PyStr content) a).
  set (st' := with_shared (set_history (h ++ [PyDict a'])%list st.(shared))
                (after_call (CallReadFile path) w' st)).
  exists st'. split; [|split].
  - unfold ReadTargetFileNode.run, bind at 1. rewrite Hprep.
    unfold bind at 1. unfold ReadTargetFileNode.exec, external. rewrite Hread.
    unfold ReadTargetFileNode.post, bind at 1.
    rewrite (set_last_item_last _ h a); [reflexivity | exact Hh].
  - reflexivity.
  - assert (Hps' : dict_get "params" a' = Some (PyDict ps)).
    { unfold a'. rewrite dict_get_set_ne; [exact Hps | discriminate]. }
    unfold AnalyzeAndPlanNode.prep, bind at 1.
    rewrite (last_action_last st' h (PyDict a')); [|reflexivity].
    assert (Hfc : dict_get "file_content" a' = Some (PyStr content))
      by apply dict_get_set_eq.
    unfold bind at 1. cbn [PyOps.get lift ok ret]. unfold dict_get_default.
    rewrite Hfc.
    unfold bind at 1.
    rewrite (param_get_found a' ps "instructions" _ PyNone Hps' Hi).
    cbn [lift ok ret]. unfold bind at 1.
    rewrite (param_get_found a' ps "code_edit" _ PyNone Hps' He).
    cbn [lift ok ret]. rewrite Hit, Het.
    assert (Hct : truthy (PyStr content) = true).
    { destruct content; [congruence | reflexivity]. }
    rewrite Hct. reflexivity.
Qed.
End FailedRead.

(** ** The prompt file *)

Section PromptFile.
Context {E : Externals}.
Import Py.

(** Property X25.  [load_prompt_from_file] returns a value exactly when the file
    could be read and its document is a mapping with an [example] key,
    and the value is the one under that key, a string or not.  A
    string or a list that merely holds the word ends in a
    [TypeError]. *)
Theorem prompt_file_needs_example (opened : Result string) (v : PyVal) :
  Main.load_prompt_from_file opened = ok v
  <-> exists text d,
        opened = ok text
        /\ yaml_safe_load text = ok (PyDict d)
        /\ dict_get "example" d = Some v.
Proof.
  unfold Main.load_prompt_from_file. split.
  - destruct opened as [e|text]; [discriminate|]. cbn [rbind].
    destruct (yaml_safe_load text) as [e|data] eqn:Hload; [discriminate|].
    cbn [rbind].
    destruct (truthy data); cbn [negb]; [|discriminate].
    destruct data as [| b | z | f | s | l | d]; cbn [PyOps.contains rbind];
      try discriminate.
    + destruct (Str.contains "example" s); discriminate.
    + destruct (existsb (PyOps.is_str "example") l); discriminate.
    + unfold dict_has. cbn [PyOps.subscript].
      destruct (dict_get "example" d) as [x|] eqn:Hx; [|discriminate].
      cbn [negb]. intros H. injection H as <-. now exists text, d.
  - intros (text & d & -> & Hload & Hx). cbn [rbind ok]. rewrite Hload.
    cbn [rbind]. destruct d as [|kv d]; [discriminate|].
    cbn [truthy negb PyOps.contains rbind ok PyOps.subscript].
    unfold dict_has. now rewrite Hx.
Qed.
End PromptFile.

(** ** The clients' settings and requests *)

Section Clients.
Import Py.

Lemma dict_update_get k d other :
  NoDup (map fst other) ->
  dict_get k (dict_update d other)
  = match dict_get k other with
    | Some v => Some v
    | None => dict_get k d
    end.
Proof.
  unfold dict_update. revert d.
  induction other as [|[k' v'] other IH]; intros d Hnd; [reflexivity|].
  cbn [fold_left fst snd map] in *. inversion Hnd as [|? ? Hnotin Hnd']; subst.
  rewrite (IH _ Hnd'). cbn [dict_get].
  destruct (String.eqb k k') eqn:Hk.
  - apply String.eqb_eq in Hk. subst k'.
    assert (Hnone : dict_get k other = None).
    { clear - Hnotin. induction other as [|[k0 v0] other IH]; [reflexivity|].
      cbn [dict_get map fst] in *.
      destruct (String.eqb k k0) eqn:Hk0.
      - apply String.eqb_eq in Hk0. subst k0. exfalso. apply Hnotin. now left.
      - apply IH. intros Hin. apply Hnotin. now right. }
    rewrite Hnone. apply dict_get_set_eq.
  - destruct (dict_get k other); [reflexivity|].
    apply dict_get_set_ne. intros ->. now rewrite String.eqb_refl in Hk.
Qed.

(** Property X26.  The OpenRouter client cannot be built without a key: with no
    non-empty key in the argument or in the environment the
    constructor raises before it reads any other setting, and a client
    that was built carries a non-empty key, the argument's when that is
    not empty, else the environment's. *)
Theorem client_needs_key (h : Host) (api_key base_url model : option string)
  (max_tokens : option Z) :
  let given := match api_key with Some "" => None | x => x end in
  let resolved := match given with
                  | Some k => Some k
                  | None => h.(getenv) "OPENROUTER_API_KEY"
                  end in
  match OpenRouterClient.init h api_key base_url model max_tokens with
  | inr client =>
      resolved = Some client.(OpenRouterClient.api_key)
      /\ client.(OpenRouterClient.api_key) <> ""
      /\ (max_tokens <> None -> max_tokens <> Some 0%Z ->
          max_tokens = Some client.(OpenRouterClient.max_tokens))
  | inl e =>
      (resolved = None \/ resolved = Some "" ->
       e = ValueError "OpenRouter API key is required. Set OPENROUTER_API_KEY environment variable or pass api_key parameter.")
      /\ (resolved <> None -> resolved <> Some "" ->
          (max_tokens = None \/ max_tokens = Some 0%Z)
          /\ exists text,
               h.(getenv) "OPENROUTER_MAX_TOKENS" = Some text
               /\ h.(py_int) text = raise e)
  end.
Proof.
  intros given resolved. unfold OpenRouterClient.init.
  assert (Hkey : match api_key with
                 | Some (String c s) => Some (String c s)
                 | _ => h.(getenv) "OPENROUTER_API_KEY"
                 end = resolved).
  { subst resolved given. destruct api_key as [[|c s]|]; reflexivity. }
  rewrite Hkey. clearbody resolved. clear Hkey given.
  destruct resolved as [[|c s]|].
  - split; [reflexivity | intros H; congruence].
  - assert (Htok : forall r : Result Z,
               match (let? tokens := r in
                      ok {| OpenRouterClient.api_key := String c s;
                            OpenRouterClient.base_url :=
                              str_or base_url
                                (getenv_default h "OPENROUTER_BASE_URL"
                                   "https://openrouter.ai/api/v1");
                            OpenRouterClient.model :=
                              str_or model
                                (getenv_default h "OPENROUTER_MODEL"
                                   "anthropic/claude-3-opus-20240229");
                            OpenRouterClient.max_tokens := tokens |})
               with
               | inr client =>
                   client.(OpenRouterClient.api_key) = String c s
                   /\ r = ok client.(OpenRouterClient.max_tokens)
               | inl e => r = raise e
               end).
    { intros [e|n]; cbn [rbind]; [reflexivity | now split]. }
    unfold OpenRouterClient.env_max_tokens.
    destruct max_tokens as [n|].
    + destruct (n =? 0)%Z eqn:Hn.
      * apply Z.eqb_eq in Hn. subst n.
        match goal with |- match (let? tokens := ?r in _) with _ => _ end =>
          specialize (Htok r); destruct (let? tokens := r in _) as [e|client]
        end.
        -- split; [intros [H|H]; discriminate|]. intros _ _.
           split; [now right|].
           destruct (getenv h "OPENROUTER_MAX_TOKENS") as [text|];
             [now exists text | discriminate].
        -- destruct Htok as [-> _]. split; [reflexivity|].
           split; [discriminate | congruence].
      * specialize (Htok (ok n)). cbn [rbind] in Htok |- *.
        cbn [OpenRouterClient.api_key OpenRouterClient.max_tokens].
        split; [reflexivity|]. split; [discriminate | reflexivity].
    + match goal with |- match (let? tokens := ?r in _) with _ => _ end =>
        specialize (Htok r); destruct (let? tokens := r in _) as [e|client]
      end.
      * split; [intros [H|H]; discriminate|]. intros _ _.
        split; [now left|].
        destruct (getenv h "OPENROUTER_MAX_TOKENS") as [text|];
          [now exists text | discriminate].
      * destruct Htok as [-> _]. split; [reflexivity|].
        split; [discriminate | congruence].
  - split; [reflexivity | intros H; congruence].
Qed.

(** Property X27.  [additional_params] has the last word on the request: an entry of
    it replaces the payload's entry of the same key, the model and the
    messages that carry the prompt included, and the other entries of
    the payload stay.  Without it, or with an empty one, the payload is
    the standard one. *)
Theorem additional_params_override (self : OpenRouterClient.Client)
  (prompt : string) (temperature : PyVal) (stream : bool) (extra : Dict) :
  NoDup (map fst extra) ->
  let standard := OpenRouterClient.payload self prompt temperature stream None in
  OpenRouterClient.payload self prompt temperature stream (Some []) = standard
  /\ forall k,
       dict_get k (OpenRouterClient.payload self prompt temperature stream
                     (Some extra))
       = match dict_get k extra with
         | Some v => Some v
         | None => dict_get k standard
         end.
Proof.
  intros Hnd standard. split; [reflexivity|]. intros k.
  unfold OpenRouterClient.payload in *. destruct extra as [|kv extra].
  - reflexivity.
  - apply dict_update_get, Hnd.
Qed.

(** Property X28.  A zero temperature can be asked of the Ollama client per request
    but not at construction: there it counts as absent and the
    environment's value, [0.7] when the variable is unset, takes its
    place; the same holds for a zero context size. *)
Theorem zero_temperature_only_per_request (h : Host)
  (base_url model : option string) (n_ctx : option Z) (sign : bool)
  (client : OllamaClient.Client) (prompt : string) (stream : bool) :
  OllamaClient.init h base_url model n_ctx (Some (S754_zero sign))
  = OllamaClient.init h base_url model n_ctx None
  /\ OllamaClient.init h base_url model (Some 0%Z) None
     = OllamaClient.init h base_url model None None
  /\ (h.(getenv) "OLLAMA_TEMPERATURE" = None ->
      forall built,
        OllamaClient.init h base_url model n_ctx (Some (S754_zero sign))
        = ok built ->
        built.(OllamaClient.temperature) = OllamaClient.default_temperature)
  /\ (exists options,
         dict_get "options"
           (OllamaClient.payload client prompt stream (Some (S754_zero sign)))
         = Some (PyDict options)
         /\ dict_get "temperature" options = Some (PyFloat (S754_zero sign))).
Proof.
  split; [reflexivity|]. split; [reflexivity|]. split.
  - intros Henv built. unfold OllamaClient.init, OllamaClient.env_temperature.
    rewrite Henv. cbn [truthy].
    destruct (match n_ctx with
              | Some n => if (n =? 0)%Z then OllamaClient.env_n_ctx h else ok n
              | None => OllamaClient.env_n_ctx h
              end) as [e|ctx]; cbn [rbind ok]; [discriminate|].
    intros H. injection H as <-. reflexivity.
  - eexists. split; reflexivity.
Qed.
End Clients.

(** ** What the summary shows of a result *)

Section Rendering.
Context {E : Externals}.
Import Py.

Lemma truthy_set k v (r : Dict) : truthy (PyDict (dict_set k v r)) = true.
Proof.
  destruct r as [|[k' v'] r]; cbn [dict_set]; [reflexivity|].
  now destruct (String.eqb k k').
Qed.

(** Property X29.  The [message] of a result never reaches a prompt: the rendering of
    a result does not depend on it, for any tool, and a result that is
    not a success is rendered as the one line [- Result: Failed].  So
    the text a handler recorded for a failure is not what the next
    decision is made from. *)
Theorem failure_message_is_not_rendered (tool message : PyVal) (r : Dict) :
  r <> [] ->
  History.render_result tool (PyDict (dict_set "message" message r))
  = History.render_result tool (PyDict r)
  /\ (truthy (dict_get_default "success" (PyBool false) r) = false ->
      History.render_result tool (PyDict r)
      = ok ("- Result: Failed" ++ Str.nl)).
Proof.
  intros Hr. split.
  - unfold History.render_result. rewrite truthy_set.
    assert (Ht : truthy (PyDict r) = true) by (destruct r; [congruence | reflexivity]).
    rewrite Ht. unfold dict_get_default.
    rewrite !dict_get_set_ne by discriminate. reflexivity.
  - intros Hs. unfold History.render_result.
    assert (Ht : truthy (PyDict r) = true) by (destruct r; [congruence | reflexivity]).
    rewrite Ht, Hs. rewrite !andb_false_r. reflexivity.
Qed.
End Rendering.

Section RenderingWitness.
Import Py.

Lemma failure_message_is_not_rendered_witness :
  let E := Sim.always_finish in
  let r := [("success", PyBool false);
            ("message", PyStr "File does not exist")] in
  r <> []
  /\ History.render_result (PyStr "delete_file")
       (PyDict (dict_set "message" (PyStr "Permission denied") r))
     = History.render_result (PyStr "delete_file") (PyDict r)
  /\ History.render_result (PyStr "delete_file") (PyDict r)
     = ok ("- Result: Failed" ++ Str.nl).
Proof.
  intros E r.
  assert (Hr : r <> []) by discriminate.
  split; [exact Hr|].
  destruct (failure_message_is_not_rendered (E := E) (PyStr "delete_file")
              (PyStr "Permission denied") r Hr) as [Hsame Hfailed].
  split; [exact Hsame | exact (Hfailed eq_refl)].
Defined.
End RenderingWitness.

(** ** The properties at sample sessions *)

Section MoreWitnesses.
Import Py.

Lemma decision_passes_through_witness :
  let E := Cases.always_unknown in
  let st := initial_state Samples.fresh (Sim.world []) in
  exists prompt st',
    MainDecisionAgent.run st = Returns (PyStr "search_web") st'
    /\ st'.(shared).(history) = [PyDict Cases.unknown_decision]
    /\ st'.(calls) = [CallLLM prompt].
Proof.
  intros E st.
  apply (decision_passes_through (E := E) st "No previous actions."
           Cases.unknown_decision (PyStr "search_web")).
  - reflexivity.
  - intros prompt. eexists. eexists. split; reflexivity.
  - reflexivity.
Defined.

Lemma unknown_tool_ends_run_witness :
  let E := Cases.always_unknown in
  let st := initial_state Samples.fresh (Sim.world []) in
  Flow.lookup "search_web" (Flow.successors Flow.main_agent) = None
  /\ exists st',
       Flow.coding_agent_flow 5 st = Returns (Flow.Done (PyStr "search_web")) st'
       /\ st'.(shared).(response) = None
       /\ List.length st'.(calls) = 1%nat.
Proof.
  intros E st. split; [reflexivity|].
  eexists. split.
  - apply (unknown_tool_ends_run (E := E) st _ "search_web" 4);
      [cbv; reflexivity | reflexivity].
  - split; reflexivity.
Defined.

Lemma string_decision_aborts_witness :
  let E := Cases.always_words in
  let st := initial_state Samples.fresh (Sim.world []) in
  Str.contains "tool" "use the tool" = true
  /\ exists st',
       MainDecisionAgent.run st
       = Raises (TypeError "string indices must be integers, not 'str'") st'
       /\ st'.(shared).(history) = [PyStr "use the tool"].
Proof.
  intros E st. split; [reflexivity|].
  apply (string_decision_aborts (E := E) st "No previous actions."
           "use the tool").
  - reflexivity.
  - intros prompt. eexists. eexists. split; reflexivity.
  - reflexivity.
Defined.

Lemma backend_fault_is_fatal_witness :
  let E := Cases.offline in
  let st := initial_state Samples.fresh (Sim.world []) in
  exists e st',
    MainDecisionAgent.run st = Raises e st'
    /\ Flow.coding_agent_flow 3 st = Raises e st'
    /\ st'.(shared).(history) = [].
Proof.
  intros E st.
  apply (backend_fault_is_fatal (E := E) st "No previous actions." 2).
  - reflexivity.
  - intros prompt. eexists. eexists. reflexivity.
Defined.


Lemma summary_ends_run_witness :
  let E := Sim.always_finish in
  let st := initial_state Samples.fresh (Sim.world []) in
  Flow.orch 1 Flow.format_response st
  = Returns (Flow.Done (PyStr "done"))
      (with_shared
         (set_response (Some "No actions were performed.") st.(shared)) st).
Proof.
  intros E st.
  exact (proj1 (summary_ends_run (E := E) st 0) eq_refl).
Defined.

Lemma handlers_return_to_main_witness :
  let E := Sim.always_finish in
  let st := initial_state (Samples.serving Samples.list_action) (Sim.world []) in
  Flow.list_dir_action <> Flow.main_agent
  /\ Flow.list_dir_action <> Flow.format_response
  /\ exists st',
       Flow.run_node Flow.list_dir_action st = Returns PyNone st'
       /\ Flow.get_next_node Flow.list_dir_action PyNone
          = ok (Some Flow.main_agent).
Proof.
  intros E st.
  assert (Hm : Flow.list_dir_action <> Flow.main_agent) by discriminate.
  assert (Hf : Flow.list_dir_action <> Flow.format_response) by discriminate.
  split; [exact Hm|]. split; [exact Hf|].
  eexists. split; [cbv; reflexivity|].
  eapply (handlers_return_to_main (E := E) Flow.list_dir_action st _ PyNone Hm Hf).
  cbv. reflexivity.
Defined.
End MoreWitnesses.

Section HandlerWitnesses.
Import Py.

Lemma run_ends_after_summary_or_unknown_tool_witness :
  let E := Cases.always_unknown in
  let st := initial_state Samples.fresh (Sim.world []) in
  exists st',
    Flow.orch 5 Flow.main_agent st
    = Returns (Flow.Done (PyStr "search_web")) st'
    /\ ((exists st0,
            FormatResponseNode.run st0 = Returns (PyStr "search_web") st')
        \/ (exists st0,
               MainDecisionAgent.run st0 = Returns (PyStr "search_web") st'
               /\ Flow.get_next_node Flow.main_agent (PyStr "search_web")
                  = ok None)).
Proof.
  intros E st. eexists. split; [cbv; reflexivity|].
  apply (run_ends_after_summary_or_unknown_tool (E := E) 5 Flow.main_agent st).
  cbv. reflexivity.
Defined.

Lemma empty_history_stops_handlers_witness :
  let E := Sim.always_finish in
  let st := initial_state Samples.fresh (Sim.world []) in
  Flow.run_node Flow.read_action st
  = Raises (ValueError "No history found") st
  /\ Flow.run_node Flow.edit_agent st
     = Raises (ValueError "No history found") st.
Proof.
  intros E st. split.
  - apply (empty_history_stops_handlers (E := E) Flow.read_action st);
      [discriminate | discriminate | reflexivity].
  - apply (empty_history_stops_handlers (E := E) Flow.edit_agent st);
      [discriminate | discriminate | reflexivity].
Defined.

Lemma absolute_target_leaves_working_dir_witness :
  let E := Sim.always_finish in
  let st := initial_state (Samples.serving (PyDict Cases.delete_entry))
              (Sim.world [("/etc/hosts", "localhost")]) in
  st.(shared).(working_dir) = "proj"
  /\ exists st',
       DeleteFileAction.run st = Returns PyNone st'
       /\ st'.(calls) = [CallDeleteFile (PyStr "/etc/hosts")]
       /\ ReadFileAction.prep st = Returns (PyStr "/etc/hosts") st
       /\ ReadTargetFileNode.prep st = Returns (PyStr "/etc/hosts") st.
Proof.
  intros E st. split; [reflexivity|].
  exact (absolute_target_leaves_working_dir (E := E) st [] Cases.delete_entry
           Cases.delete_params "etc/hosts" eq_refl eq_refl eq_refl).
Defined.

Lemma insert_needs_content_witness :
  let E := Sim.always_finish in
  let st := initial_state (Samples.serving (PyDict Cases.insert_entry))
              (Sim.world []) in
  InsertFileAction.run st
  = Raises (ValueError "Missing content parameter") st.
Proof.
  intros E st.
  apply (insert_needs_content (E := E) st [] Cases.insert_entry
           Cases.insert_params (PyStr "empty.txt"));
    try reflexivity.
  right. reflexivity.
Defined.

Lemma read_records_outcome_witness :
  let E := Sim.always_finish in
  let st := initial_state (Samples.serving (PyDict Cases.read_entry))
              (Sim.world []) in
  exists st',
    ReadFileAction.run st = Returns PyNone st'
    /\ st'.(calls) = [CallReadFile (PyStr "proj/notes.txt")]
    /\ st'.(shared).(history)
       = [PyDict (dict_set "result"
                    (PyDict [("success", PyBool false);
                             ("content", PyStr "Error: file not found")])
                    Cases.read_entry)].
Proof.
  intros E st.
  apply (read_records_outcome (E := E) st [] Cases.read_entry
           Cases.read_params "notes.txt"); try reflexivity.
  discriminate.
Defined.

Lemma empty_plan_counts_as_success_witness :
  let E := Sim.always_finish in
  let st := initial_state (Samples.serving (PyDict Cases.edit_entry))
              (Sim.world []) in
  exists st',
    ApplyChangesNode.run st = Returns PyNone st'
    /\ st'.(calls) = []
    /\ st'.(shared).(history)
       = [PyDict (dict_set "result"
                    (PyDict [("success", PyBool true);
                             ("operations", PyInt 0);
                             ("details", PyList []);
                             ("reasoning", PyStr "")])
                    Cases.edit_entry)].
Proof.
  intros E st.
  apply (empty_plan_counts_as_success (E := E) st [] Cases.edit_entry).
  - reflexivity.
  - left. reflexivity.
Defined.

Lemma planner_needs_fenced_block_witness :
  let E := Samples.always_prose in
  let st := initial_state (set_history [Cases.snapshot_entry] Samples.fresh)
              (Sim.world []) in
  let params :=
    {| AnalyzeAndPlanNode.file_content :=
         PyStr (Sim.join_lines Samples.four_lines);
       AnalyzeAndPlanNode.instructions := PyStr "replace the first line";
       AnalyzeAndPlanNode.code_edit := PyStr "first" |} in
  Str.contains "```" "I am not sure what to do next." = false
  /\ exists st',
       AnalyzeAndPlanNode.exec params st
       = Raises (ValueError "No YAML object found in response. LLM must return a YAML object with 'reasoning' and 'operations' fields.") st'
       /\ List.length st'.(calls) = 1%nat.
Proof.
  intros E st params. split; [reflexivity|].
  eexists. split.
  - apply (planner_needs_fenced_block (E := E) params st
             (Sim.join_lines Samples.four_lines)
             "I am not sure what to do next."
             {| Sim.llm_calls := 1; Sim.files := [] |});
      reflexivity.
  - reflexivity.
Defined.

Lemma planner_hands_over_checked_plan_witness :
  let E := Cases.always_plan in
  let st := initial_state (set_history [Cases.snapshot_entry] Samples.fresh)
              (Sim.world []) in
  exists st' content plan,
    AnalyzeAndPlanNode.run st = Returns PyNone st'
    /\ st'.(shared).(edit_operations) = Some (PyList plan)
    /\ plan <> []
    /\ Forall (Plan.accepted (AnalyzeAndPlanNode.count_lines content)) plan.
Proof.
  intros E st.
  assert (Hrun : exists st', AnalyzeAndPlanNode.run st = Returns PyNone st')
    by (eexists; cbv; reflexivity).
  destruct Hrun as [st' Hrun].
  destruct (planner_hands_over_checked_plan (E := E) st st' PyNone Hrun)
    as (h & entry & content & plan & reasoning & _ & _ & _ & Hops & Hne & Hacc & _).
  exists st', content, plan. repeat split; assumption.
Defined.

Lemma equal_starts_keep_plan_order_witness :
  ApplyChangesNode.sorted_ops Cases.tied_plan
  = ok [Samples.operation 3 3 "c"; Samples.operation 2 2 "a";
        Samples.operation 2 3 "b"]
  /\ starting_at 2 [Samples.operation 3 3 "c"; Samples.operation 2 2 "a";
                    Samples.operation 2 3 "b"]
     = starting_at 2 Cases.tied_plan.
Proof.
  split; [reflexivity|].
  apply (equal_starts_keep_plan_order Cases.tied_plan _ 2). reflexivity.
Defined.

Lemma edit_agent_ignores_read_flag_witness :
  let E := Sim.always_finish in
  let st := initial_state (Samples.serving (PyDict Cases.edit_entry))
              (Sim.world []) in
  snd (fst (read_file (PyStr "proj/notes.txt") st.(world))) = false
  /\ exists st',
       ReadTargetFileNode.run st = Returns PyNone st'
       /\ st'.(shared).(history)
          = [PyDict (dict_set "file_content" (PyStr "Error: file not found")
                       Cases.edit_entry)]
       /\ AnalyzeAndPlanNode.prep st'
          = Returns {| AnalyzeAndPlanNode.file_content :=
                         PyStr "Error: file not found";
                       AnalyzeAndPlanNode.instructions :=
                         PyStr "replace the first line";
                       AnalyzeAndPlanNode.code_edit := PyStr "first" |} st'.
Proof.
  intros E st. split; [reflexivity|].
  apply (edit_agent_ignores_read_flag (E := E) st [] Cases.edit_entry
           Cases.edit_params "notes.txt" (PyStr "replace the first line")
           (PyStr "first")); try reflexivity; discriminate.
Defined.

Lemma additional_params_override_witness :
  NoDup (map fst Cases.other_messages)
  /\ dict_get "messages"
       (OpenRouterClient.payload Cases.client "hello" (PyInt 0) false
          (Some Cases.other_messages))
     = Some (PyList [PyDict [("role", PyStr "user");
                             ("content", PyStr "something else")]]).
Proof.
  assert (Hnd : NoDup (map fst Cases.other_messages))
    by (repeat constructor; intros []).
  split; [exact Hnd|].
  exact (proj2 (additional_params_override Cases.client "hello" (PyInt 0) false
                  Cases.other_messages Hnd) "messages").
Defined.
End HandlerWitnesses.
